(** * MakePDF: the document conversion orchestrator

    A shallow embedding of [packages/MakePDF/src/convert.ts] (the function
    [convert], built on [async.auto], [async.filter] and [async.retry]) and
    of the attachment handler of [packages/MakePDF/src/makepdf.ts], with
    the properties of the orchestrator stated over the trace of effects a
    run performs.

    Strings are sequences of code units ([string]); byte buffers are
    [list byte]; [process.env] is a finite map from names to values. *)

From Stdlib Require Import ZArith Ascii.
From stdpp Require Import gmap strings list.
From Stdlib Require Floats.SpecFloat.

Local Open Scope Z_scope.

(** ** JavaScript string primitives used by the sources *)

Module JS.

(** [a || b] on strings: the empty string and [undefined] are falsy. *)
Definition or_else (v : option string) (dflt : string) : string :=
  match v with
  | Some s => if String.eqb s "" then dflt else s
  | None => dflt
  end.

(** [s.split(sep)] for a one-character separator. *)
Fixpoint split (sep : ascii) (s : string) : list string :=
  match s with
  | EmptyString => [EmptyString]
  | String c s' =>
      if Ascii.eqb c sep then EmptyString :: split sep s'
      else match split sep s' with
           | [] => [String c EmptyString]
           | w :: ws => String c w :: ws
           end
  end.

(** [xs[0]]. *)
Definition first {A} (xs : list A) : option A := head xs.

Fixpoint drop (n : nat) (s : string) : string :=
  match n, s with
  | O, _ => s
  | S n', String _ s' => drop n' s'
  | S _, EmptyString => EmptyString
  end.

(** [s.includes(pat)]. *)
Fixpoint includes (pat s : string) : bool :=
  if String.prefix pat s then true
  else match s with
       | EmptyString => false
       | String _ s' => includes pat s'
       end.

(** [s.replace(pat, rep)] with a string pattern: only the first
    occurrence is replaced ([rep] holds no [$] here). *)
Fixpoint replace (pat rep s : string) : string :=
  if String.prefix pat s then rep +:+ drop (String.length pat) s
  else match s with
       | EmptyString => EmptyString
       | String c s' => String c (replace pat rep s')
       end.

Fixpoint lastIndexOf_from (c : ascii) (s : string) (i last : Z) : Z :=
  match s with
  | EmptyString => last
  | String d s' =>
      lastIndexOf_from c s' (i + 1) (if Ascii.eqb d c then i else last)
  end.

(** [s.lastIndexOf(c)] for a one-character needle; [-1] when absent. *)
Definition lastIndexOf (c : ascii) (s : string) : Z :=
  lastIndexOf_from c s 0 (-1).

Definition clamp (len x : Z) : Z := Z.max 0 (Z.min x len).

(** [s.substring(indexStart, indexEnd)]: both indices are clamped to
    [0 .. s.length] and swapped when out of order. *)
Definition substring (s : string) (indexStart indexEnd : Z) : string :=
  let len := Z.of_nat (String.length s) in
  let a := clamp len indexStart in
  let b := clamp len indexEnd in
  let lo := Z.min a b in
  let hi := Z.max a b in
  String.substring (Z.to_nat lo) (Z.to_nat (hi - lo)) s.

(** [s.substring(indexStart)]. *)
Definition substring_from (s : string) (indexStart : Z) : string :=
  substring s indexStart (Z.of_nat (String.length s)).

(** [xs.includes(x)] on an array of strings. *)
Definition array_includes (xs : list string) (x : string) : bool :=
  existsb (String.eqb x) xs.

End JS.

(** ** [node:path] on a POSIX host *)

Module Path.

Definition norm_step (allowAboveRoot : bool) (stack : list string)
    (seg : string) : list string :=
  if String.eqb seg "" || String.eqb seg "." then stack
  else if String.eqb seg ".." then
    match stack with
    | top :: rest =>
        if String.eqb top ".."
        then (if allowAboveRoot then ".." :: stack else stack)
        else rest
    | [] => if allowAboveRoot then [".."] else []
    end
  else seg :: stack.

Fixpoint ends_with_slash (s : string) : bool :=
  match s with
  | EmptyString => false
  | String c EmptyString => Ascii.eqb c "/"
  | String _ s' => ends_with_slash s'
  end.

(** [path.posix.normalize]. *)
Definition normalize (p : string) : string :=
  if String.eqb p "" then "."
  else
    let isAbsolute := String.prefix "/" p in
    let trailingSeparator := ends_with_slash p in
    let segs :=
      rev (fold_left (norm_step (negb isAbsolute)) (JS.split "/" p) []) in
    let body := String.concat "/" segs in
    if String.eqb body "" then
      (if isAbsolute then "/" else if trailingSeparator then "./" else ".")
    else
      (if isAbsolute then "/" else "") +:+ body
        +:+ (if trailingSeparator then "/" else "").

(** [path.posix.join(a, b)]: empty arguments are skipped, the rest are
    joined with [/] and normalized. *)
Definition posix_join (a b : string) : string :=
  let joined :=
    if String.eqb a "" then b
    else if String.eqb b "" then a
    else a +:+ "/" +:+ b in
  if String.eqb joined "" then "." else normalize joined.

End Path.

(** ** The world a conversion run executes in *)

Definition bytes := list Byte.byte.

(** The [Error] values a run can hand to its callback or throw. *)
Inductive Error :=
| OsNotSupported (platform : string)  (* Operating system not yet supported: ... *)
| SofficeNotFound                     (* Could not find soffice binary *)
| NoResult                            (* No result from conversion *)
| SysError (code : string).           (* raised by node:fs, node:child_process or tmp *)

(** How a spawned engine ends.  [execFile] is given no timeout, so its
    callback is called when the process exits, and never if it does not. *)
Inductive Exit :=
| Exited (error : option Error)       (* None: exit code 0 *)
| Running.                            (* the process does not exit *)

(** Everything outside the program that a run of [convert] observes.
    [readFile] is indexed by the number of the attempt that issues it, so
    that a file may become visible between two attempts.  [soffice] and
    [saveSource] have no dependencies and run concurrently;
    [saveSource_first] says which of the two completes first.
    [dirSync] is [tmp.dirSync] by prefix: the name of the directory it
    makes, or the exception it throws.  [removeCallback] is the removal
    of a directory made by [tmp.dirSync]: it returns, or it throws. *)
Record World := {
  platform : string;                                  (* process.platform *)
  env : gmap string string;                           (* process.env *)
  join : string -> string -> string;                  (* node:path join *)
  access : string -> bool;                            (* true: no error *)
  writeFile : string -> bytes -> option Error;
  execFile : string -> list string -> Exit;
  readFile : nat -> string -> Error + bytes;
  saveSource_first : bool;
  dirSync : string -> Error + string;
  removeCallback : string -> option Error;            (* None: returns *)
}.

(** The observable effects of a run, in the order they happen. *)
Inductive Event :=
| DirSync (prefix name : string)
| Access (filePath : string)
| WriteFile (filePath : string) (data : bytes)
| ExecFile (file : string) (args : list string)
| ReadFile (filePath : string)
| SetTimeout (ms : Z)
| Completed (task : string) (err : option Error)
| RemoveCallback (dir : string)
| Callback (error : option Error) (result : option bytes)
| Throw (e : Error).     (* an exception that nothing in [convert] catches *)

(** The results object [async.auto] hands to the final callback. *)
Record Results := {
  r_soffice : option string;
  r_loadDestination : option bytes;
}.

(** ** The tasks of [convert] *)

(** The candidate list of the [switch (process.platform)]. *)
Definition paths (w : World) : option (list string) :=
  if String.eqb (platform w) "darwin" then
    Some ["/Applications/LibreOffice.app/Contents/MacOS/soffice"]
  else if String.eqb (platform w) "linux" then
    Some [ JS.replace "opt" "usr/bin"
             (JS.or_else (env w !! "OFFICE_PATH") "/opt/libreoffice");
           "/usr/bin/libreoffice";
           "/usr/bin/soffice";
           "/snap/bin/libreoffice" ]
  else if String.eqb (platform w) "win32" then
    Some [ join w (JS.or_else (env w !! "PROGRAMFILES(X86)") "C:\Program Files (x86)")
             "LIBREO~1/program/soffice.exe";
           join w (JS.or_else (env w !! "PROGRAMFILES(X86)") "C:\Program Files (x86)")
             "LibreOffice/program/soffice.exe";
           join w (JS.or_else (env w !! "PROGRAMFILES") "C:\Program Files")
             "LibreOffice/program/soffice.exe" ]
  else None.

(** Task [soffice]: [async.filter] probes every candidate, in list order,
    and keeps those that exist, in list order. *)
Definition soffice (w : World) : list Event * (Error + string) :=
  match paths w with
  | None => ([], inl (OsNotSupported (platform w)))
  | Some ps =>
      (map Access ps,
       match List.filter (access w) ps with
       | [] => inl SofficeNotFound
       | bin :: _ => inr bin
       end)
  end.

(** Task [saveSource]. *)
Definition saveSource (w : World) (tempDir : string) (document : bytes)
    : list Event * option Error :=
  ([WriteFile (join w tempDir "source") document],
   writeFile w (join w tempDir "source") document).

Definition command (w : World) (tempDir installDir format : string) : string :=
  "-env:UserInstallation=file://" +:+ installDir
    +:+ " --headless --convert-to " +:+ format
    +:+ " --outdir " +:+ tempDir +:+ " " +:+ join w tempDir "source".

(** Task [convert]: spawn the engine and wait for it to exit. *)
Definition convert_task (w : World) (bin tempDir installDir format : string)
    : list Event * Exit :=
  let args := JS.split " " (command w tempDir installDir format) in
  ([ExecFile bin args], execFile w bin args).

(** [async.retry]: the attempt counter starts at 1; a failed attempt is
    retried after [interval] while [attempt++ < times]. *)
Fixpoint retryAttempt {A} (interval : Z)
    (task : nat -> list Event * (Error + A)) (left attempt : nat)
    : list Event * (Error + A) :=
  let '(ev, r) := task attempt in
  match r, left with
  | inl _, S left' =>
      let '(ev', r') := retryAttempt interval task left' (S attempt) in
      (ev ++ SetTimeout interval :: ev', r')
  | _, _ => (ev, r)
  end.

Definition retry {A} (times : nat) (interval : Z)
    (task : nat -> list Event * (Error + A)) : list Event * (Error + A) :=
  retryAttempt interval task (times - 1)%nat 1%nat.

(** The file the engine is expected to have produced. *)
Definition destination (w : World) (tempDir format : string) : string :=
  join w tempDir ("source." +:+ default "" (JS.first (JS.split ":" format))).

(** Task [loadDestination]. *)
Definition loadDestination (w : World) (tempDir format : string)
    : list Event * (Error + bytes) :=
  retry 3 200
    (fun attempt =>
       ([ReadFile (destination w tempDir format)],
        readFile w attempt (destination w tempDir format))).

(** The final callback of [async.auto].  The two removals are called
    one after the other, outside any [try]: when one throws, what follows
    it in the callback does not run. *)
Definition finish (w : World) (tempDir installDir : string)
    (err : option Error) (res : option Results) : list Event :=
  RemoveCallback tempDir ::
  match removeCallback w tempDir with
  | Some thrown => [Throw thrown]
  | None =>
      RemoveCallback installDir ::
      match removeCallback w installDir with
      | Some thrown => [Throw thrown]
      | None =>
          [ match err with
            | Some e => Callback (Some e) None
            | None =>
                match res with
                | None => Callback (Some NoResult) None
                | Some r => Callback None (r_loadDestination r)
                end
            end ]
      end
  end.

(** Both removals return. *)
Definition removed (w : World) (tempDir installDir : string) : bool :=
  match removeCallback w tempDir, removeCallback w installDir with
  | None, None => true
  | _, _ => false
  end.

(** ** [convert]

    [async.auto] starts the tasks without dependencies in key order
    ([soffice], then [saveSource]), starts a task once all the tasks it
    depends on have completed, and calls the final callback once: with the
    first error, or with all results.  After an error no further task is
    started, and completions that arrive later are dropped.  On an
    unsupported platform [soffice] fails before returning, so [saveSource]
    is not started at all.  The final callback runs inside the callback of
    the task that completes last or fails first; an exception it throws
    is caught by nothing, and the trace ends there. *)

(** A task failed with [e]: the final callback gets the error and the
    results so far. *)
Definition failed (w : World) (tempDir installDir : string) (e : Error)
    (bin : option string) : list Event :=
  finish w tempDir installDir (Some e)
    (Some {| r_soffice := bin; r_loadDestination := None |}).

(** Both [soffice] and [saveSource] have completed: [convert] runs, and
    [loadDestination] once [convert] has completed.  While the engine
    does not exit nothing else happens. *)
Definition dependents (w : World) (tempDir installDir format bin : string)
    : list Event :=
  let '(spawn, exit) := convert_task w bin tempDir installDir format in
  spawn ++
  match exit with
  | Running => []
  | Exited exited =>
      Completed "convert" exited ::
      match exited with
      | Some e => failed w tempDir installDir e (Some bin)
      | None =>
          let '(reads, loaded) := loadDestination w tempDir format in
          reads ++
          match loaded with
          | inl e =>
              Completed "loadDestination" (Some e) ::
              failed w tempDir installDir e (Some bin)
          | inr data =>
              Completed "loadDestination" None ::
              finish w tempDir installDir None
                (Some {| r_soffice := Some bin; r_loadDestination := Some data |})
          end
      end
  end.

Definition error_of {A} (r : Error + A) : option Error :=
  match r with
  | inl e => Some e
  | inr _ => None
  end.

(** The completion of the other root task, which arrives after the final
    callback has run; it does not arrive when the final callback has
    thrown. *)
Definition later (w : World) (tempDir installDir : string)
    (completion : Event) : list Event :=
  if removed w tempDir installDir then [completion] else [].

(** A run of [convert] in which the two calls of [tmp.dirSync] have
    returned [tempDir] and [installDir]. *)
Definition convert (w : World) (tempDir installDir : string)
    (document : bytes) (format : string) : list Event :=
  let '(probes, located) := soffice w in
  [DirSync "libreofficeConvert_" tempDir; DirSync "soffice" installDir] ++
  match paths w with
  | None =>
      Completed "soffice" (error_of located) ::
      match located with
      | inl e => failed w tempDir installDir e None
      | inr bin => dependents w tempDir installDir format bin
      end
  | Some _ =>
      let '(write, written) := saveSource w tempDir document in
      probes ++ write ++
      if saveSource_first w then
        Completed "saveSource" written ::
        match written with
        | Some e =>
            failed w tempDir installDir e None ++
            later w tempDir installDir (Completed "soffice" (error_of located))
        | None =>
            Completed "soffice" (error_of located) ::
            match located with
            | inl e => failed w tempDir installDir e None
            | inr bin => dependents w tempDir installDir format bin
            end
        end
      else
        Completed "soffice" (error_of located) ::
        match located with
        | inl e =>
            failed w tempDir installDir e None ++
            later w tempDir installDir (Completed "saveSource" written)
        | inr bin =>
            Completed "saveSource" written ::
            match written with
            | Some e => failed w tempDir installDir e (Some bin)
            | None => dependents w tempDir installDir format bin
            end
        end
  end.

(** A call of [convert], from its first line: the staging directory is
    made, then the profile directory, then the run starts.  When
    [tmp.dirSync] throws, the exception leaves [convert]. *)
Definition convert_call (w : World) (document : bytes) (format : string)
    : list Event :=
  match dirSync w "libreofficeConvert_" with
  | inl thrown => [Throw thrown]
  | inr tempDir =>
      match dirSync w "soffice" with
      | inl thrown => [DirSync "libreofficeConvert_" tempDir; Throw thrown]
      | inr installDir => convert w tempDir installDir document format
      end
  end.

(** ** The attachment handler of [makepdf.ts] *)

Record Attachment := {
  name : string;
  url : string;
}.

Record Message := {
  from_self : bool;      (* author.id === client.user?.id *)
  content : string;
  debug_allowed : bool;  (* a DM, or the bot mentioned by an administrator *)
  attachments : list Attachment;
}.

(** How a call of [convert] ends for its caller: the callback is called
    with an error or with data, or it is not called at all (the call
    throws, the final callback throws before reaching it, or the engine
    does not exit). *)
Inductive Conversion :=
| CalledBack (err : option Error) (pdfData : option bytes)
| NoCallback.

(** What the handler observes: the allow-list [MAKEPDF_SETTINGS_FORMATS],
    the outcome of downloading a URL ([None]: the promise rejects) and
    how a call of [convert] ends. *)
Record Bot := {
  SETTINGS_FORMATS : string;
  fetch : string -> option bytes;
  converted : bytes -> string -> Conversion;
}.

Inductive Action :=
| ReplyDebug
| Fetch (url : string)
| Convert (fileData : bytes) (format : string)
| SendFailure
| SendFile (newName : string) (data : bytes).

Definition formats (b : Bot) : list string := JS.split "," (SETTINGS_FORMATS b).

Definition extension (name : string) : string :=
  JS.substring_from name (JS.lastIndexOf "." name + 1).

Definition newName (name : string) : string :=
  JS.substring name 0 (JS.lastIndexOf "." name) +:+ ".pdf".

(** The body of [attachments.map(async ({ name, url }) => ...)]. *)
Definition on_attachment (b : Bot) (a : Attachment) : list Action :=
  if String.eqb (url a) "" then []
  else if negb (JS.array_includes (formats b) (extension (name a))) then []
  else
    Fetch (url a) ::
    match fetch b (url a) with
    | None => []
    | Some fileData =>
        Convert fileData ".pdf" ::
        match converted b fileData ".pdf" with
        | CalledBack None (Some pdfData) => [SendFile (newName (name a)) pdfData]
        | CalledBack _ _ => [SendFailure]
        | NoCallback => []
        end
    end.

(** The [messageCreate] handler: one list of actions per attachment. *)
Definition messageCreate (b : Bot) (msg : Message) : list (list Action) :=
  if from_self msg then []
  else if JS.includes "debug" (content msg) && debug_allowed msg then [[ReplyDebug]]
  else map (on_attachment b) (attachments msg).

Definition conversions (acts : list Action) : nat :=
  length (List.filter
            (fun x => match x with Convert _ _ => true | _ => false end) acts).

(** ** The message handler of the former [MakePDF/makepdf.js]

    The same guards, the same allow-list test and the same reply name;
    the file is downloaded with [https.get] and [convert] takes a filter
    argument. *)

Module Legacy.

(** How a download ends: the response ends with its data, the response
    fails, or no response arrives. *)
Inductive Download :=
| Ended (fileData : bytes)
| ResponseError
| NoResponse.

Record Bot := {
  SETTINGS_FORMATS : string;     (* process.env.MAKEPDF_SETTINGS_FORMATS *)
  get : string -> Download;
  converted : bytes -> string -> Error + bytes;
}.

Definition formats (b : Bot) : list string := JS.split "," (SETTINGS_FORMATS b).

(** The body of [filesArray.forEach(({ name, url }) => ...)]. *)
Definition on_attachment (b : Bot) (a : Attachment) : list Action :=
  if String.eqb (url a) "" then []
  else if negb (JS.array_includes (formats b) (extension (name a))) then []
  else
    Fetch (url a) ::
    match get b (url a) with
    | NoResponse => []
    | ResponseError => [SendFailure]
    | Ended fileData =>
        Convert fileData ".pdf" ::
        match converted b fileData ".pdf" with
        | inl _ => [SendFailure]
        | inr pdfData => [SendFile (newName (name a)) pdfData]
        end
    end.

(** The [message] handler. *)
Definition message (b : Bot) (msg : Message) : list (list Action) :=
  if from_self msg then []
  else if JS.includes "debug" (content msg) && debug_allowed msg then [[ReplyDebug]]
  else map (on_attachment b) (attachments msg).

End Legacy.

(** ** Observations on traces *)

(** Neither a removal of a workspace directory nor the result callback. *)
Definition quiet (e : Event) : Prop :=
  match e with
  | RemoveCallback _ | Callback _ _ => False
  | _ => True
  end.

(** The paths read, in order. *)
Definition read_paths (tr : list Event) : list string :=
  omap (fun e => match e with ReadFile p => Some p | _ => None end) tr.

(** The delays waited, in order. *)
Definition timeouts (tr : list Event) : list Z :=
  omap (fun e => match e with SetTimeout ms => Some ms | _ => None end) tr.

(** The paths probed for existence, in order. *)
Definition probes (tr : list Event) : list string :=
  omap (fun e => match e with Access p => Some p | _ => None end) tr.

(** How often a character occurs in a string. *)
Fixpoint occurrences (c : ascii) (s : string) : nat :=
  match s with
  | EmptyString => 0%nat
  | String d s' =>
      ((if Ascii.eqb d c then 1 else 0) + occurrences c s')%nat
  end.

(** What an event needs to have happened before it.  The engine is
    spawned after its file has been probed, the locator has completed,
    the input has been written to [source] in the staging directory and
    that write has completed; the output is read after the engine has
    been spawned and has exited with code 0. *)
Definition needs (w : World) (tempDir : string) (document : bytes)
    (before : list Event) (e : Event) : Prop :=
  match e with
  | ExecFile file _ =>
      Access file ∈ before /\ Completed "soffice" None ∈ before /\
      WriteFile (join w tempDir "source") document ∈ before /\
      Completed "saveSource" None ∈ before
  | ReadFile _ =>
      (exists file args, ExecFile file args ∈ before) /\
      Completed "convert" None ∈ before
  | _ => True
  end.

(** Neither a spawn nor a read. *)
Definition idle (e : Event) : Prop :=
  match e with
  | ExecFile _ _ | ReadFile _ => False
  | _ => True
  end.

(** Every event of [tr] has what it requires among [before] and the
    events of [tr] that precede it. *)
Fixpoint ordered (requires : list Event -> Event -> Prop)
    (before tr : list Event) : Prop :=
  match tr with
  | [] => True
  | e :: tr' => requires before e /\ ordered requires (before ++ [e]) tr'
  end.

(** Both workspace directories are removed, then the callback is called,
    and neither happens anywhere else in the trace. *)
Definition torn_down (tempDir installDir : string) (tr : list Event) : Prop :=
  exists before err result after,
    tr = before ++
         [RemoveCallback tempDir; RemoveCallback installDir; Callback err result]
         ++ after /\
    Forall quiet before /\ Forall quiet after.

(** ** Concrete worlds *)

(** Directory names as [tmp.dirSync] makes them: the prefix, the process
    id and twelve random characters, under [os.tmpdir()]. *)
Definition staging : string := "/tmp/libreofficeConvert_-4711-k3VqXw8ZrT0a".
Definition profile : string := "/tmp/soffice-4711-Hq2mLp9sYb4c".

(** [tmp.dirSync] making these two directories. *)
Definition tmp_dirs (prefix : string) : Error + string :=
  if String.eqb prefix "soffice" then inr profile else inr staging.

Definition pdf_ok : bytes := String.list_byte_of_string "PDF-OK".
Definition hello : bytes := String.list_byte_of_string "hello".

(** A Linux host with the engine at [/usr/bin/soffice]; the engine exits
    with code 0 and its output is the file [out], visible from attempt
    [since] on. *)
Definition stub_engine (out : string) (since : nat) : World := {|
  platform := "linux";
  env := ∅;
  join := Path.posix_join;
  access := fun p => String.eqb p "/usr/bin/soffice";
  writeFile := fun _ _ => None;
  execFile := fun _ _ => Exited None;
  readFile := fun attempt p =>
    if String.eqb p out && (since <=? attempt)%nat then inr pdf_ok
    else inl (SysError "ENOENT");
  saveSource_first := true;
  dirSync := tmp_dirs;
  removeCallback := fun _ => None;
|}.

(** The engine writes [source..pdf]; the file shows at the second attempt. *)
Definition double_dot_engine : World :=
  stub_engine "/tmp/libreofficeConvert_-4711-k3VqXw8ZrT0a/source..pdf" 2.

(** The engine writes [source.pdf]; the file is there from the start. *)
Definition single_dot_engine : World :=
  stub_engine "/tmp/libreofficeConvert_-4711-k3VqXw8ZrT0a/source.pdf" 1.

(** The host of [single_dot_engine] when the staging directory cannot be
    removed: it is gone by the time the final callback runs, and
    [removeCallback] throws. *)
Definition staging_gone : World := {|
  platform := "linux";
  env := ∅;
  join := Path.posix_join;
  access := fun p => String.eqb p "/usr/bin/soffice";
  writeFile := fun _ _ => None;
  execFile := fun _ _ => Exited None;
  readFile := fun _ _ => inl (SysError "ENOENT");
  saveSource_first := true;
  dirSync := tmp_dirs;
  removeCallback := fun dir =>
    if String.eqb dir staging then Some (SysError "ENOENT") else None;
|}.

(** The same host with [OFFICE_PATH] set. *)
Definition with_office_path (v : string) : World := {|
  platform := "linux";
  env := {[ "OFFICE_PATH" := v ]};
  join := Path.posix_join;
  access := fun p => String.eqb p "/usr/bin/soffice";
  writeFile := fun _ _ => None;
  execFile := fun _ _ => Exited None;
  readFile := fun _ _ => inl (SysError "ENOENT");
  saveSource_first := true;
  dirSync := tmp_dirs;
  removeCallback := fun _ => None;
|}.

Definition office_in_srv : World :=
  with_office_path "/srv/office/program/soffice".

Definition office_in_opt : World :=
  with_office_path "/opt/libreoffice7.6/program/soffice".

(** A host whose platform is none of the three handled ones. *)
Definition freebsd : World := {|
  platform := "freebsd";
  env := ∅;
  join := Path.posix_join;
  access := fun _ => true;
  writeFile := fun _ _ => None;
  execFile := fun _ _ => Exited None;
  readFile := fun _ _ => inl (SysError "ENOENT");
  saveSource_first := false;
  dirSync := tmp_dirs;
  removeCallback := fun _ => None;
|}.

(** A bot that accepts [docx], [odt] and [README]; downloads succeed
    except from [https://cdn.invalid/]; every conversion yields [pdf_ok]. *)
Definition office_bot : Bot := {|
  SETTINGS_FORMATS := "docx,odt,README";
  fetch := fun u =>
    if String.prefix "https://cdn.invalid/" u then None else Some hello;
  converted := fun _ _ => CalledBack None (Some pdf_ok);
|}.

(** The same bot on the former handler. *)
Definition legacy_bot : Legacy.Bot := {|
  Legacy.SETTINGS_FORMATS := "docx,odt,README";
  Legacy.get := fun u =>
    if String.prefix "https://cdn.invalid/" u then Legacy.NoResponse
    else Legacy.Ended hello;
  Legacy.converted := fun _ _ => inr pdf_ok;
|}.

(** ** Further observations on the traces of [convert] *)

(** The arguments of the result callback, call by call. *)
Definition callbacks (tr : list Event) : list (option Error * option bytes) :=
  omap (fun e => match e with Callback err res => Some (err, res) | _ => None end) tr.

(** The processes spawned, in order. *)
Definition spawns (tr : list Event) : list (string * list string) :=
  omap (fun e => match e with ExecFile f args => Some (f, args) | _ => None end) tr.

(** The files written, in order. *)
Definition writes (tr : list Event) : list (string * bytes) :=
  omap (fun e => match e with WriteFile p data => Some (p, data) | _ => None end) tr.

(** A Windows host with LibreOffice in the 32-bit program directory; the
    paths are joined as [path.win32.join] joins these arguments. *)
Definition windows : World := {|
  platform := "win32";
  env := {[ "PROGRAMFILES" := "D:\Programs" ]};
  join := fun a b => a +:+ "\" +:+ JS.replace "/" "\" (JS.replace "/" "\" b);
  access := fun p =>
    String.eqb p "C:\Program Files (x86)\LibreOffice\program\soffice.exe";
  writeFile := fun _ _ => None;
  execFile := fun _ _ => Exited (Some (SysError "EXIT1"));
  readFile := fun _ _ => inl (SysError "ENOENT");
  saveSource_first := false;
  dirSync := tmp_dirs;
  removeCallback := fun _ => None;
|}.

(** A macOS host on which nothing can be written. *)
Definition full_disk : World := {|
  platform := "darwin";
  env := ∅;
  join := Path.posix_join;
  access := fun _ => false;
  writeFile := fun _ _ => Some (SysError "ENOSPC");
  execFile := fun _ _ => Exited None;
  readFile := fun _ _ => inl (SysError "ENOENT");
  saveSource_first := true;
  dirSync := tmp_dirs;
  removeCallback := fun _ => None;
|}.

(** What the last two stages hand to the final callback; nothing while
    the engine does not exit. *)
Definition dependents_outcome (w : World) (tempDir installDir format bin : string)
    : option (option Error * option bytes) :=
  match execFile w bin (JS.split " " (command w tempDir installDir format)) with
  | Running => None
  | Exited (Some e) => Some (Some e, None)
  | Exited None =>
      match snd (loadDestination w tempDir format) with
      | inl e => Some (Some e, None)
      | inr data => Some (None, Some data)
      end
  end.

(** What the final callback has for the result callback, read off the
    outcomes of the stages: the error of the stage that fails first, or
    the data read; nothing when the final callback is never called. *)
Definition run_outcome (w : World) (tempDir installDir : string)
    (document : bytes) (format : string)
    : option (option Error * option bytes) :=
  match paths w with
  | None => Some (Some (OsNotSupported (platform w)), None)
  | Some _ =>
      if saveSource_first w then
        match writeFile w (join w tempDir "source") document, snd (soffice w) with
        | Some e, _ => Some (Some e, None)
        | None, inl e => Some (Some e, None)
        | None, inr bin => dependents_outcome w tempDir installDir format bin
        end
      else
        match snd (soffice w), writeFile w (join w tempDir "source") document with
        | inl e, _ => Some (Some e, None)
        | inr bin, Some e => Some (Some e, None)
        | inr bin, None => dependents_outcome w tempDir installDir format bin
        end
  end.

(** The calls of the result callback: the final callback reaches it only
    when both removals have returned. *)
Definition reported (w : World) (tempDir installDir : string)
    (outcome : option (option Error * option bytes))
    : list (option Error * option bytes) :=
  match outcome with
  | Some r => if removed w tempDir installDir then [r] else []
  | None => []
  end.

(** A host on which [tmp.dirSync] cannot make the profile directory. *)
Definition no_profile : World := {|
  platform := "linux";
  env := ∅;
  join := Path.posix_join;
  access := fun p => String.eqb p "/usr/bin/soffice";
  writeFile := fun _ _ => None;
  execFile := fun _ _ => Exited None;
  readFile := fun _ _ => inr pdf_ok;
  saveSource_first := true;
  dirSync := fun prefix =>
    if String.eqb prefix "soffice" then inl (SysError "ENOSPC") else inr staging;
  removeCallback := fun _ => None;
|}.

(** A host on which the engine never exits. *)
Definition hanging_engine : World := {|
  platform := "linux";
  env := ∅;
  join := Path.posix_join;
  access := fun p => String.eqb p "/usr/bin/soffice";
  writeFile := fun _ _ => None;
  execFile := fun _ _ => Running;
  readFile := fun _ _ => inr pdf_ok;
  saveSource_first := true;
  dirSync := tmp_dirs;
  removeCallback := fun _ => None;
|}.

(** ** Further observations on the attachment handlers *)

(** The messages sent for an attachment: the file or the failure notice. *)
Definition replies (acts : list Action) : nat :=
  length (List.filter
            (fun x => match x with SendFile _ _ | SendFailure => true | _ => false end)
            acts).

Definition downloads (acts : list Action) : nat :=
  length (List.filter
            (fun x => match x with Fetch _ => true | _ => false end) acts).

(** ** Start-up of [makepdf.ts] *)

Module Startup.

(** [env.KEY]: the proxy reads [process.env.MAKEPDF_KEY]; an unset or empty
    variable yields [undefined]. *)
Definition env (process_env : gmap string string) (key : string) : option string :=
  match process_env !! ("MAKEPDF_" +:+ key) with
  | Some v => if String.eqb v "" then None else Some v
  | None => None
  end.

Record Config := {
  DISCORD_TOKEN : string;
  SETTINGS_FORMATS : string;
  webhook : option (string * string);   (* WebhookClient id and token *)
  TOPGG : option string * option string; (* TOPGG_ID, TOPGG_TOKEN *)
  warnings : list string;                (* console.warn, in order *)
}.

Definition warn (v : option string) (msg : string) : list string :=
  match v with
  | Some _ => []
  | None => [msg]
  end.

(** The module body up to the creation of the webhook client: the failed
    assertion's message, or the configuration. *)
Definition start (process_env : gmap string string) : string + Config :=
  match env process_env "DISCORD_TOKEN" with
  | None => inl "MAKEPDF_DISCORD_TOKEN is required"
  | Some token =>
      match env process_env "SETTINGS_FORMATS" with
      | None => inl "MAKEPDF_SETTINGS_FORMATS is required"
      | Some formats =>
          inr {| DISCORD_TOKEN := token;
                 SETTINGS_FORMATS := formats;
                 webhook :=
                   match env process_env "WEBHOOK_ID",
                         env process_env "WEBHOOK_TOKEN" with
                   | Some id, Some tok => Some (id, tok)
                   | _, _ => None
                   end;
                 TOPGG := (env process_env "TOPGG_ID",
                           env process_env "TOPGG_TOKEN");
                 warnings :=
                   warn (env process_env "WEBHOOK_ID")
                     "MAKEPDF_WEBHOOK_ID is not set"
                   ++ warn (env process_env "WEBHOOK_TOKEN")
                        "MAKEPDF_WEBHOOK_TOKEN is not set"
                   ++ warn (env process_env "TOPGG_ID")
                        "MAKEPDF_TOPGG_ID is not set"
                   ++ warn (env process_env "TOPGG_TOKEN")
                        "MAKEPDF_TOPGG_TOKEN is not set" |}
      end
  end.

End Startup.

(** ** VoiceNotify: the settings manager

    The settings of a guild are kept in the database under the guild id,
    one entry per voice channel id, and in [cache], a map from guild ids
    to maps from channel ids to settings.  Each function is modelled as
    it runs when no other handler runs between its [await] and its
    resumption; [ok] says whether its database operation succeeds. *)

Module Manager.

Section WithSettings.
Context {Settings : Type}.

Record Store := {
  db : gmap string (gmap string Settings);
  cache : gmap string (gmap string Settings);
}.

(** [snapshot?.val()] of [db.ref(guildId).once('value').catch(() => null)]. *)
Definition val (ok : bool) (guildId : string) (st : Store)
    : option (gmap string Settings) :=
  if ok then db st !! guildId else None.

(** [manager.get]: the cached map, or else the map made of the entries
    of the snapshot (of no entries when there is no value), which is put
    into the cache. *)
Definition get (ok : bool) (guildId : string) (st : Store)
    : gmap string Settings * Store :=
  match cache st !! guildId with
  | Some settingsMap => (settingsMap, st)
  | None =>
      let settingsMap := default ∅ (val ok guildId st) in
      (settingsMap,
       {| db := db st; cache := <[guildId := settingsMap]> (cache st) |})
  end.

(** [manager.set]; [None] when the database write is rejected. *)
Definition set (ok : bool) (guildId channelId : string) (value : Settings)
    (st : Store) : option Store :=
  if ok then
    Some {| db := <[guildId := <[channelId := value]>
                                 (default ∅ (db st !! guildId))]> (db st);
            cache := <[guildId := <[channelId := value]>
                                    (default ∅ (cache st !! guildId))]>
                       (cache st) |}
  else None.

(** [manager.deleteChannel]. *)
Definition deleteChannel (ok : bool) (guildId channelId : string)
    (st : Store) : option Store :=
  if ok then
    Some {| db := <[guildId := delete channelId
                                 (default ∅ (db st !! guildId))]> (db st);
            cache :=
              match cache st !! guildId with
              | Some settingsMap =>
                  <[guildId := delete channelId settingsMap]> (cache st)
              | None => cache st
              end |}
  else None.

(** [manager.deleteGuild]. *)
Definition deleteGuild (ok : bool) (guildId : string) (st : Store)
    : option Store :=
  if ok then
    Some {| db := delete guildId (db st); cache := delete guildId (cache st) |}
  else None.

(** What the database holds for a guild; no value counts as no entries. *)
Definition stored (guildId : string) (st : Store) : gmap string Settings :=
  default ∅ (db st !! guildId).

(** Every cached map is what the database holds for its guild. *)
Definition coherent (st : Store) : Prop :=
  forall guildId settingsMap,
    cache st !! guildId = Some settingsMap -> settingsMap = stored guildId st.

End WithSettings.

Arguments Store : clear implicits.

End Manager.

(** ** VoiceNotify: numbers, parsing and the two handlers *)

Module VoiceNotify.

(** JavaScript numbers are IEEE 754 binary64 values. *)
Definition number := SpecFloat.spec_float.

(** The number nearest to an integer (ties to even). *)
Definition of_Z (z : Z) : number := SpecFloat.binary_normalize 53 1024 z 0 false.

(** [(5 / min) * 60 * 1000]: the quiet period after a threshold time. *)
Definition window (min : number) : number :=
  SpecFloat.SFmul 53 1024 (SpecFloat.SFmul 53 1024 (SpecFloat.SFdiv 53 1024 (of_Z 5) min) (of_Z 60))
    (of_Z 1000).

(** [s.split(/ +/g)]: the pieces between the runs of spaces. *)
Fixpoint split_runs (in_run : bool) (s : string) : list string :=
  match s with
  | EmptyString => [EmptyString]
  | String c s' =>
      if Ascii.eqb c " " then
        (if in_run then split_runs true s'
         else EmptyString :: split_runs true s')
      else match split_runs false s' with
           | [] => [String c EmptyString]
           | w :: ws => String c w :: ws
           end
  end.

Definition split_spaces (s : string) : list string := split_runs false s.

Definition digit (c : ascii) : option Z :=
  let n := Z.of_nat (nat_of_ascii c) - 48 in
  if (0 <=? n) && (n <=? 9) then Some n else None.

(** The value of a string of decimal digits read from the left, starting
    from [acc]; [None] when a character is not a digit. *)
Fixpoint decimal (acc : Z) (s : string) : option Z :=
  match s with
  | EmptyString => Some acc
  | String c s' =>
      match digit c with
      | Some d => decimal (10 * acc + d) s'
      | None => None
      end
  end.

(** [p && /^\d+$/.test(p) ? Number(p) : 5]. *)
Definition threshold (p : option string) : number :=
  match p with
  | Some (String c s') =>
      match decimal 0 (String c s') with
      | Some n => of_Z n
      | None => of_Z 5
      end
  | _ => of_Z 5
  end.

(** What is taken as given: [String.prototype.toLowerCase] and the test
    of discord.js's [MessageMentions.RolesPattern]. *)
Record Platform := {
  toLowerCase : string -> string;
  RolesPattern : string -> bool;
}.

Record Settings := {
  text : string;
  min : number;
  roles : list string;   (* no roles: the empty list *)
}.

Record State := {
  store : Manager.Store Settings;
  thresholdTimes : gmap string Z;     (* last threshold time per channel *)
  broadcastTimes : gmap string Z;     (* last broadcast time per channel *)
  lastDonationAsked : gmap string Z;  (* last donation message time per guild *)
}.

Inductive Field :=
| CC (roles : list string)
| Donate.

Inductive Reply :=
| MustBeAdministrator
| MustBeInVoiceChannel
| Enabled (min : number) (voiceName channelId : string) (roles : nat)
| Disabled (voiceName : string)
| Debug (lastThreshold lastBroadcast : option (option Z))
    (guildSettings : gmap string Settings)
| Help.

Inductive Action :=
| Log (text : string)               (* Text channel ... unreachable *)
| Send (textChannel voiceName : string) (fields : list Field)
| ReplyWith (r : Reply)
| Rejected.                         (* the handler's promise rejects *)

(** A number kept in a map is truthy when it is there and not 0. *)
Definition truthy (t : option Z) : option Z :=
  match t with
  | Some 0 => None
  | other => other
  end.

(** *** [voiceStateUpdate] *)

Record VoiceChannel := {
  id : string;
  name : string;
  size : nat;     (* members.size, read after the awaits *)
}.

(** How [guild.channels.fetch(settings.text)] ends. *)
Inductive Fetched :=
| Channel (isTextBased : bool)
| NoChannel
| FetchError.

(** The values of the successive calls of [Date.now()] (and of [dayjs()])
    in the handler, by the use made of them. *)
Record Clock := {
  threshold_time : Z;      (* thresholdTimes.set(channel.id, Date.now()) *)
  since_threshold : Z;     (* Date.now() - lastThreshold *)
  since_broadcast : Z;     (* Date.now() - lastBroadcast *)
  broadcast_time : Z;      (* broadcastTimes.set(channel.id, Date.now()) *)
  since_donation : Z;      (* dayjs().diff(..., 'hours') *)
  donation_time : Z;       (* lastDonationAsked.set(guild.id, Date.now()) *)
}.

Record Update := {
  oldChannel : option string;       (* oldChannel?.id *)
  channel : option VoiceChannel;
  guild : string;
  read_ok : bool;                   (* the database read of manager.get *)
  fetched : Fetched;
  clock : Clock;
}.

(** The fields of the embed. *)
Definition fields (u : Update) (settings : Settings) (st : State) : list Field :=
  (match roles settings with
   | [] => []
   | rs => [CC rs]
   end) ++
  (match lastDonationAsked st !! guild u with
   | None => [Donate]
   | Some asked =>
       if 24 <? Z.quot (since_donation (clock u) - asked) 3600000
       then [Donate] else []
   end).

Definition asks_donation (fs : list Field) : bool :=
  existsb (fun f => match f with Donate => true | CC _ => false end) fs.

Definition voiceStateUpdate (u : Update) (st : State) : list Action * State :=
  match channel u with
  | None => ([], st)
  | Some ch =>
      if match oldChannel u with
         | Some old => String.eqb (id ch) old
         | None => false
         end
      then ([], st)
      else
        let '(settingsMap, store') := Manager.get (read_ok u) (guild u) (store st) in
        let st := {| store := store';
                     thresholdTimes := thresholdTimes st;
                     broadcastTimes := broadcastTimes st;
                     lastDonationAsked := lastDonationAsked st |} in
        match settingsMap !! id ch with
        | None => ([], st)
        | Some settings =>
            match fetched u with
            | NoChannel | FetchError => ([Log (text settings)], st)
            | Channel isTextBased =>
                if SpecFloat.SFltb (of_Z (Z.of_nat (size ch))) (min settings) then ([], st)
                else
                  let lastThreshold := truthy (thresholdTimes st !! id ch) in
                  let st :=
                    {| store := store st;
                       thresholdTimes :=
                         <[id ch := threshold_time (clock u)]> (thresholdTimes st);
                       broadcastTimes := broadcastTimes st;
                       lastDonationAsked := lastDonationAsked st |} in
                  if match lastThreshold with
                     | Some last =>
                         SpecFloat.SFltb (of_Z (since_threshold (clock u) - last))
                           (window (min settings))
                     | None => false
                     end
                  then ([], st)
                  else
                    if match truthy (broadcastTimes st !! id ch) with
                       | Some last =>
                           since_broadcast (clock u) - last <? 10 * 60 * 1000
                       | None => false
                       end
                    then ([], st)
                    else
                      let st :=
                        {| store := store st;
                           thresholdTimes := thresholdTimes st;
                           broadcastTimes :=
                             <[id ch := broadcast_time (clock u)]>
                               (broadcastTimes st);
                           lastDonationAsked := lastDonationAsked st |} in
                      if isTextBased then
                        let fs := fields u settings st in
                        ([Send (text settings) (name ch) fs],
                         {| store := store st;
                            thresholdTimes := thresholdTimes st;
                            broadcastTimes := broadcastTimes st;
                            lastDonationAsked :=
                              if asks_donation fs
                              then <[guild u := donation_time (clock u)]>
                                     (lastDonationAsked st)
                              else lastDonationAsked st |})
                      else ([], st)
            end
        end
  end.

(** *** [messageCreate] *)

Record Member := {
  member_id : string;
  administrator : bool;                     (* permissions.has('Administrator') *)
  voice_channel : option (string * string); (* voice.channel: id and name *)
  voice_channelId : option string;          (* voice.channelId *)
}.

Record Message := {
  member : option Member;
  botId : option string;        (* guild?.members.me?.id *)
  guildId : string;
  mentions_bot : bool;          (* mentions.has(botId, { ignoreEveryone: true }) *)
  content : string;
  channelId : string;
  write_ok : bool;              (* the database operation of the command *)
}.

Definition nonempty (s : option string) : option string :=
  match s with
  | Some EmptyString => None
  | other => other
  end.

Definition with_store (st : State) (s : Manager.Store Settings) : State :=
  {| store := s;
     thresholdTimes := thresholdTimes st;
     broadcastTimes := broadcastTimes st;
     lastDonationAsked := lastDonationAsked st |}.

Definition command (p : Platform) (msg : Message)
    (m : Member) (st : State) : list Action * State :=
  let words := split_spaces (toLowerCase p (content msg)) in
  let params := drop 2 words in
  match words !! 1%nat with
  | Some "enable" =>
      match voice_channel m with
      | None => ([ReplyWith MustBeInVoiceChannel], st)
      | Some (voiceId, voiceName) =>
          let settings :=
            {| text := channelId msg;
               min := threshold (params !! 0%nat);
               roles := List.filter (RolesPattern p) params |} in
          match Manager.set (write_ok msg) (guildId msg) voiceId settings
                  (store st) with
          | None => ([Rejected], st)
          | Some s =>
              ([ReplyWith (Enabled (min settings) voiceName (channelId msg)
                             (length (roles settings)))],
               with_store st s)
          end
      end
  | Some "disable" =>
      match voice_channel m with
      | None => ([ReplyWith MustBeInVoiceChannel], st)
      | Some (voiceId, voiceName) =>
          match Manager.deleteChannel (write_ok msg) (guildId msg) voiceId
                  (store st) with
          | None => ([Rejected], st)
          | Some s => ([ReplyWith (Disabled voiceName)], with_store st s)
          end
      end
  | Some "debug" =>
      let '(guildSettings, s) :=
        Manager.get (write_ok msg) (guildId msg) (store st) in
      ([ReplyWith
          (Debug (option_map (fun c => thresholdTimes st !! c) (nonempty (voice_channelId m)))
                 (option_map (fun c => broadcastTimes st !! c) (nonempty (voice_channelId m)))
                 guildSettings)],
       match nonempty (voice_channelId m) with
       | Some c =>
           {| store := s;
              thresholdTimes := delete c (thresholdTimes st);
              broadcastTimes := delete c (broadcastTimes st);
              lastDonationAsked := lastDonationAsked st |}
       | None => with_store st s
       end)
  | _ => ([ReplyWith Help], st)
  end.

Definition messageCreate (p : Platform) (msg : Message) (st : State)
    : list Action * State :=
  match member msg with
  | None => ([], st)
  | Some m =>
      match nonempty (Some (member_id m)), nonempty (botId msg) with
      | Some senderId, Some bot =>
          if negb (mentions_bot msg) then ([], st)
          else if String.eqb senderId bot then ([], st)
          else if negb (administrator m) then ([ReplyWith MustBeAdministrator], st)
          else command p msg m st
      | _, _ => ([], st)
      end
  end.

(** A series of voice state updates, one after the other. *)
Fixpoint updates (us : list Update) (st : State) : list (list Action) * State :=
  match us with
  | [] => ([], st)
  | u :: us' =>
      let '(acts, st') := voiceStateUpdate u st in
      let '(rest, st'') := updates us' st' in
      (acts :: rest, st'')
  end.

(** A number that is neither infinite nor NaN. *)
Definition finite (x : number) : bool :=
  match x with
  | SpecFloat.S754_zero _ | SpecFloat.S754_finite _ _ _ => true
  | _ => false
  end.

(** Whether a message is sent to a text channel. *)
Definition sends (acts : list Action) : bool :=
  existsb (fun a => match a with Send _ _ _ => true | _ => false end) acts.

(** The message comes from the administrator [m], who is not the bot,
    mentions the bot, and has [cmd] as its second word, in lower case,
    followed by the words [params]. *)
Definition administrator_says (p : Platform) (msg : Message) (m : Member)
    (cmd : string) (params : list string) : Prop :=
  member msg = Some m /\ member_id m <> "" /\
  (exists bot, botId msg = Some bot /\ bot <> "" /\ member_id m <> bot) /\
  mentions_bot msg = true /\ administrator m = true /\
  exists mention,
    split_spaces (toLowerCase p (content msg)) = mention :: cmd :: params.

(** The update is a member entering the voice channel [ch] from
    elsewhere. *)
Definition enters (u : Update) (ch : VoiceChannel) : Prop :=
  channel u = Some ch /\ oldChannel u <> Some (id ch).

(** The voice channel and the broadcast time of the message sent by an
    update, if it sends one. *)
Definition announced (u : Update) (st : State) : option (string * Z) :=
  match channel u with
  | Some ch =>
      if sends (fst (voiceStateUpdate u st))
      then Some (id ch, broadcast_time (clock u))
      else None
  | None => None
  end.

(** The announcements of a series of updates, in order. *)
Fixpoint announcements (us : list Update) (st : State) : list (string * Z) :=
  match us with
  | [] => []
  | u :: us' =>
      match announced u st with
      | Some a => a :: announcements us' (snd (voiceStateUpdate u st))
      | None => announcements us' (snd (voiceStateUpdate u st))
      end
  end.

(** The clock does not go back: from the time [b] on, each reading of
    [Date.now()] at the broadcast test and at the recording of the
    broadcast time is at least the one before. *)
Fixpoint clock_runs (b : Z) (us : list Update) : Prop :=
  match us with
  | [] => True
  | u :: us' =>
      b <= since_broadcast (clock u) <= broadcast_time (clock u) /\
      clock_runs (broadcast_time (clock u)) us'
  end.

(** The update is a member of the guild [g] entering the voice channel
    [c], which then has the members that [settings] asks for, while the
    text channel can be fetched. *)
Definition qualifies (u : Update) (g c : string) (settings : Settings) : Prop :=
  guild u = g /\
  (exists ch, enters u ch /\ id ch = c /\
     SpecFloat.SFltb (of_Z (Z.of_nat (size ch))) (min settings) = false) /\
  exists isTextBased, fetched u = Channel isTextBased.

(** A series of such updates, each reaching the threshold test within
    the quiet period that follows the threshold time recorded by the one
    before, [last] for the first. *)
Fixpoint quick_succession (g c : string) (settings : Settings) (last : Z)
    (us : list Update) : Prop :=
  match us with
  | [] => True
  | u :: us' =>
      qualifies u g c settings /\
      SpecFloat.SFltb (of_Z (since_threshold (clock u) - last))
        (window (min settings)) = true /\
      threshold_time (clock u) <> 0 /\
      quick_succession g c settings (threshold_time (clock u)) us'
  end.

End VoiceNotify.

(** *** Concrete inputs *)

Definition lower (c : ascii) : ascii :=
  let n := nat_of_ascii c in
  if (65 <=? n)%nat && (n <=? 90)%nat then ascii_of_nat (n + 32) else c.

Fixpoint lowercase (s : string) : string :=
  match s with
  | EmptyString => EmptyString
  | String c s' => String (lower c) (lowercase s')
  end.

Fixpoint leading_digits (s : string) : nat * string :=
  match s with
  | EmptyString => (0%nat, s)
  | String c s' =>
      match VoiceNotify.digit c with
      | Some _ => let '(n, rest) := leading_digits s' in (S n, rest)
      | None => (0%nat, s)
      end
  end.

(** [/<@&(\d{17,20})>/] somewhere in the string. *)
Fixpoint role_mention (s : string) : bool :=
  (if String.prefix "<@&" s then
     let '(n, rest) := leading_digits (JS.drop 3 s) in
     (17 <=? n)%nat && (n <=? 20)%nat && String.prefix ">" rest
   else false)
  || match s with
     | EmptyString => false
     | String _ s' => role_mention s'
     end.

(** Lower case on ASCII letters, and the role pattern of discord.js 14. *)
Definition discord : VoiceNotify.Platform := {|
  VoiceNotify.toLowerCase := lowercase;
  VoiceNotify.RolesPattern := role_mention;
|}.

(** Nothing in the database, nothing cached, no time recorded. *)
Definition fresh : VoiceNotify.State := {|
  VoiceNotify.store := {| Manager.db := ∅; Manager.cache := ∅ |};
  VoiceNotify.thresholdTimes := ∅;
  VoiceNotify.broadcastTimes := ∅;
  VoiceNotify.lastDonationAsked := ∅;
|}.

(** An administrator sitting in the voice channel [Lobby]. *)
Definition admin : VoiceNotify.Member := {|
  VoiceNotify.member_id := "230000000000000001";
  VoiceNotify.administrator := true;
  VoiceNotify.voice_channel := Some ("810000000000000001", "Lobby");
  VoiceNotify.voice_channelId := Some "810000000000000001";
|}.

Definition says (m : VoiceNotify.Member) (text : string) : VoiceNotify.Message := {|
  VoiceNotify.member := Some m;
  VoiceNotify.botId := Some "990000000000000001";
  VoiceNotify.guildId := "500000000000000001";
  VoiceNotify.mentions_bot := true;
  VoiceNotify.content := text;
  VoiceNotify.channelId := "620000000000000001";
  VoiceNotify.write_ok := true;
|}.

(** Someone joins [Lobby], which then has [n] members, at time [t]. *)
Definition joins (n : nat) (t : Z) : VoiceNotify.Update := {|
  VoiceNotify.oldChannel := None;
  VoiceNotify.channel :=
    Some {| VoiceNotify.id := "810000000000000001";
            VoiceNotify.name := "Lobby";
            VoiceNotify.size := n |};
  VoiceNotify.guild := "500000000000000001";
  VoiceNotify.read_ok := true;
  VoiceNotify.fetched := VoiceNotify.Channel true;
  VoiceNotify.clock :=
    {| VoiceNotify.threshold_time := t;
       VoiceNotify.since_threshold := t;
       VoiceNotify.since_broadcast := t;
       VoiceNotify.broadcast_time := t;
       VoiceNotify.since_donation := t;
       VoiceNotify.donation_time := t |};
|}.



(** Alerts in the text channel [620000000000000001] from [n] members on. *)
Definition alert_from (n : Z) : VoiceNotify.Settings := {|
  VoiceNotify.text := "620000000000000001";
  VoiceNotify.min := VoiceNotify.of_Z n;
  VoiceNotify.roles := [];
|}.

(** A database with the settings of two voice channels of one guild,
    and nothing cached, as after a restart. *)
Definition restarted : Manager.Store VoiceNotify.Settings := {|
  Manager.db :=
    {[ "500000000000000001" :=
         {[ "810000000000000001" := alert_from 5;
            "810000000000000002" := alert_from 3 ]} ]};
  Manager.cache := ∅;
|}.
(** * Properties *)

Example split_format :
  JS.split ":" ".pdf:writer_pdf_Export" = [".pdf"; "writer_pdf_Export"].
Proof. reflexivity. Qed.

Example split_empty : JS.split "," "" = [""].
Proof. reflexivity. Qed.

Example replace_default :
  JS.replace "opt" "usr/bin" "/opt/libreoffice" = "/usr/bin/libreoffice".
Proof. reflexivity. Qed.

Example substring_negative_end : JS.substring "README" 0 (-1) = "".
Proof. reflexivity. Qed.

Example substring_swaps : JS.substring "abcdef" 4 1 = "bcd".
Proof. reflexivity. Qed.

Example lastIndexOf_dots : JS.lastIndexOf "." "a.tar.gz" = 5.
Proof. reflexivity. Qed.

Example join_source :
  Path.posix_join staging "source"
  = "/tmp/libreofficeConvert_-4711-k3VqXw8ZrT0a/source".
Proof. reflexivity. Qed.

Example join_dotdot :
  Path.posix_join "/tmp/a/../b/" "./source" = "/tmp/b/source".
Proof. reflexivity. Qed.


(** ** Facts about the string primitives *)

Lemma split_not_nil sep s : JS.split sep s <> [].
Proof.
  destruct s as [|c s]; simpl; [discriminate|].
  destruct (Ascii.eqb c sep); [discriminate|].
  destruct (JS.split sep s); discriminate.
Qed.

Lemma includes_unfold pat s :
  JS.includes pat s =
  if String.prefix pat s then true
  else match s with
       | EmptyString => false
       | String _ s' => JS.includes pat s'
       end.
Proof. destruct s; reflexivity. Qed.

Lemma replace_unfold pat rep s :
  JS.replace pat rep s =
  if String.prefix pat s then rep +:+ JS.drop (String.length pat) s
  else match s with
       | EmptyString => EmptyString
       | String c s' => String c (JS.replace pat rep s')
       end.
Proof. destruct s; reflexivity. Qed.

(** A string that does not contain the pattern is left as it is. *)
Lemma replace_absent pat rep s :
  JS.includes pat s = false -> JS.replace pat rep s = s.
Proof.
  induction s as [|c s IH]; rewrite includes_unfold, replace_unfold;
    destruct (String.prefix pat _); try discriminate; [reflexivity|].
  intros H. f_equal. auto.
Qed.

Lemma string_length_app (a b : string) :
  String.length (a +:+ b) = (String.length a + String.length b)%nat.
Proof. induction a as [|c a IH]; simpl; [reflexivity | now rewrite IH]. Qed.

Lemma drop_prefix_length pat s :
  String.prefix pat s = true ->
  (String.length (JS.drop (String.length pat) s) + String.length pat)%nat
  = String.length s.
Proof.
  revert s; induction pat as [|c pat IH]; intros s H; simpl.
  - lia.
  - destruct s as [|d s]; simpl in H; [discriminate|].
    destruct (Ascii.ascii_dec c d); [|discriminate].
    simpl. specialize (IH s H). lia.
Qed.

(** Replacing an occurrence changes the length by the difference of the
    lengths of the replacement and of the pattern. *)
Lemma replace_present_length pat rep s :
  JS.includes pat s = true ->
  (String.length (JS.replace pat rep s) + String.length pat)%nat
  = (String.length s + String.length rep)%nat.
Proof.
  induction s as [|c s IH]; rewrite includes_unfold, replace_unfold;
    destruct (String.prefix pat _) eqn:Hp; try discriminate.
  - intros _. rewrite string_length_app.
    pose proof (drop_prefix_length _ _ Hp). lia.
  - intros _. rewrite string_length_app.
    pose proof (drop_prefix_length _ _ Hp). lia.
  - intros H. simpl. specialize (IH H). lia.
Qed.

Lemma filter_nil_inv {A} (f : A -> bool) (l : list A) :
  List.filter f l = [] -> Forall (fun x => f x = false) l.
Proof.
  induction l as [|x l IH]; simpl; [constructor|].
  destruct (f x) eqn:Hx; [discriminate|]. intros H. constructor; auto.
Qed.

Lemma filter_cons_inv {A} (f : A -> bool) (l : list A) x r :
  List.filter f l = x :: r ->
  exists before after,
    l = before ++ x :: after /\
    Forall (fun y => f y = false) before /\ f x = true.
Proof.
  induction l as [|y l IH]; simpl; [discriminate|].
  destruct (f y) eqn:Hy.
  - intros [= -> _]. exists [], l. repeat split; [constructor | assumption].
  - intros H. destruct (IH H) as (before & after & -> & Hb & Hx).
    exists (y :: before), after. repeat split; [constructor|]; assumption.
Qed.

(** ** The binary locator *)

Lemma paths_supported w :
  platform w = "darwin" \/ platform w = "linux" \/ platform w = "win32" ->
  exists ps, paths w = Some ps.
Proof.
  unfold paths. intros [H | [H | H]]; rewrite H; simpl; eauto.
Qed.

Lemma paths_unsupported w :
  platform w <> "darwin" -> platform w <> "linux" -> platform w <> "win32" ->
  paths w = None.
Proof.
  intros H1 H2 H3. unfold paths.
  apply String.eqb_neq in H1, H2, H3. now rewrite H1, H2, H3.
Qed.

(** C3. On each of the three supported platforms the locator probes the
    candidates of that platform in list order, and its result is the first
    candidate that exists: every candidate before it is missing.  When no
    candidate exists the result is the not-found error. *)
Theorem soffice_first_existing (w : World) :
  platform w = "darwin" \/ platform w = "linux" \/ platform w = "win32" ->
  exists ps,
    paths w = Some ps /\
    fst (soffice w) = map Access ps /\
    ((exists before bin after,
         ps = before ++ bin :: after /\
         Forall (fun p => access w p = false) before /\
         access w bin = true /\
         snd (soffice w) = inr bin)
     \/ (Forall (fun p => access w p = false) ps /\
         snd (soffice w) = inl SofficeNotFound)).
Proof.
  intros Hp. destruct (paths_supported w Hp) as [ps Hps].
  exists ps. split; [assumption|]. unfold soffice. rewrite Hps. simpl.
  split; [reflexivity|].
  destruct (List.filter (access w) ps) as [|bin r] eqn:Hf.
  - right. split; [now apply filter_nil_inv | reflexivity].
  - left. destruct (filter_cons_inv _ _ _ _ Hf) as (before & after & E & Hb & Hx).
    exists before, bin, after. auto.
Qed.

Lemma soffice_first_existing_witness :
  exists ps,
    paths single_dot_engine = Some ps /\
    fst (soffice single_dot_engine) = map Access ps /\
    ((exists before bin after,
         ps = before ++ bin :: after /\
         Forall (fun p => access single_dot_engine p = false) before /\
         access single_dot_engine bin = true /\
         snd (soffice single_dot_engine) = inr bin)
     \/ (Forall (fun p => access single_dot_engine p = false) ps /\
         snd (soffice single_dot_engine) = inl SofficeNotFound)).
Proof.
  apply (soffice_first_existing single_dot_engine).
  right; left; reflexivity.
Defined.

Example soffice_third_candidate :
  soffice single_dot_engine =
  ([Access "/usr/bin/libreoffice"; Access "/usr/bin/libreoffice";
    Access "/usr/bin/soffice"; Access "/snap/bin/libreoffice"],
   inr "/usr/bin/soffice").
Proof. reflexivity. Qed.

(** C4, as the code has it.  On Linux exactly one candidate, the first,
    depends on the environment: it is the value of [OFFICE_PATH] found in
    the environment of the run (or [/opt/libreoffice] when the variable is
    unset or empty) with its first occurrence of [opt] replaced by
    [usr/bin]; the other three candidates are fixed.  A non-empty value
    is itself a candidate exactly when it does not contain [opt]. *)
Theorem linux_office_path (w : World) :
  platform w = "linux" ->
  exists p0,
    paths w = Some [p0; "/usr/bin/libreoffice"; "/usr/bin/soffice";
                    "/snap/bin/libreoffice"] /\
    (env w !! "OFFICE_PATH" = None \/ env w !! "OFFICE_PATH" = Some "" ->
     p0 = "/usr/bin/libreoffice") /\
    (forall V, env w !! "OFFICE_PATH" = Some V -> V <> "" ->
       p0 = JS.replace "opt" "usr/bin" V /\
       (V ∈ [p0; "/usr/bin/libreoffice"; "/usr/bin/soffice";
             "/snap/bin/libreoffice"]
        <-> JS.includes "opt" V = false)).
Proof.
  intros Hp. eexists. split; [unfold paths; rewrite Hp; reflexivity|].
  split.
  - intros [-> | ->]; reflexivity.
  - intros V -> HV. simpl.
    assert (String.eqb V "" = false) as -> by now apply String.eqb_neq.
    split; [reflexivity|]. split.
    + intros Hin. destruct (JS.includes "opt" V) eqn:Hi; [|reflexivity].
      exfalso. pose proof (replace_present_length "opt" "usr/bin" V Hi) as Hl.
      simpl in Hl.
      apply elem_of_cons in Hin as [E | Hin]; [rewrite <- E in Hl; lia|].
      repeat (apply elem_of_cons in Hin as [E | Hin];
              [subst V; vm_compute in Hi; discriminate|]).
      now apply elem_of_nil in Hin.
    + intros Hi. rewrite (replace_absent _ _ _ Hi). apply elem_of_cons; now left.
Qed.

Lemma linux_office_path_witness :
  platform office_in_srv = "linux" /\
  exists p0,
    paths office_in_srv
    = Some [p0; "/usr/bin/libreoffice"; "/usr/bin/soffice";
            "/snap/bin/libreoffice"] /\
    (env office_in_srv !! "OFFICE_PATH" = None
     \/ env office_in_srv !! "OFFICE_PATH" = Some "" ->
     p0 = "/usr/bin/libreoffice") /\
    (forall V,
       env office_in_srv !! "OFFICE_PATH" = Some V ->
       V <> "" ->
       p0 = JS.replace "opt" "usr/bin" V /\
       (V ∈ [p0; "/usr/bin/libreoffice"; "/usr/bin/soffice";
             "/snap/bin/libreoffice"]
        <-> JS.includes "opt" V = false)).
Proof.
  split; [reflexivity|].
  apply (linux_office_path office_in_srv).
  reflexivity.
Defined.

(** C4 as stated fails: with [OFFICE_PATH=/opt/libreoffice7.6/program/soffice]
    that value is not among the candidates; the candidate derived from it
    is [/usr/bin/libreoffice7.6/program/soffice]. *)
Lemma office_path_not_verbatim :
  env office_in_opt !! "OFFICE_PATH"
  = Some "/opt/libreoffice7.6/program/soffice" /\
  paths office_in_opt
  = Some [ "/usr/bin/libreoffice7.6/program/soffice"; "/usr/bin/libreoffice";
           "/usr/bin/soffice"; "/snap/bin/libreoffice" ] /\
  ~ (forall ps,
       paths office_in_opt = Some ps ->
       "/opt/libreoffice7.6/program/soffice" ∈ ps).
Proof.
  split; [reflexivity|]. split; [reflexivity|].
  intros H. specialize (H _ eq_refl).
  repeat (apply elem_of_cons in H as [E | H]; [discriminate E|]).
  now apply elem_of_nil in H.
Qed.

(** C5. On a platform other than [darwin], [linux] and [win32] the locator
    fails at once with the unsupported-platform error and probes no path;
    the whole run probes no path either: it is the completion of the
    locator with that error followed by the final callback, that is, when
    both removals return, the teardown and the callback with that
    error. *)
Theorem unsupported_platform (w : World) (tempDir installDir : string)
    (document : bytes) (format : string) :
  platform w <> "darwin" -> platform w <> "linux" -> platform w <> "win32" ->
  soffice w = ([], inl (OsNotSupported (platform w))) /\
  probes (convert w tempDir installDir document format) = [] /\
  convert w tempDir installDir document format =
    [ DirSync "libreofficeConvert_" tempDir; DirSync "soffice" installDir;
      Completed "soffice" (Some (OsNotSupported (platform w))) ]
    ++ finish w tempDir installDir (Some (OsNotSupported (platform w)))
         (Some {| r_soffice := None; r_loadDestination := None |}) /\
  (removeCallback w tempDir = None -> removeCallback w installDir = None ->
   convert w tempDir installDir document format =
     [ DirSync "libreofficeConvert_" tempDir; DirSync "soffice" installDir;
       Completed "soffice" (Some (OsNotSupported (platform w)));
       RemoveCallback tempDir; RemoveCallback installDir;
       Callback (Some (OsNotSupported (platform w))) None ]).
Proof.
  intros H1 H2 H3. pose proof (paths_unsupported w H1 H2 H3) as Hn.
  assert (soffice w = ([], inl (OsNotSupported (platform w)))) as Hs
    by (unfold soffice; now rewrite Hn).
  split; [assumption|].
  unfold convert, failed. rewrite Hs, Hn. split; [|split; [reflexivity|]].
  - unfold finish. destruct (removeCallback w tempDir); [reflexivity|].
    destruct (removeCallback w installDir); reflexivity.
  - unfold finish. now intros -> ->.
Qed.

Lemma unsupported_platform_witness :
  soffice freebsd = ([], inl (OsNotSupported "freebsd")) /\
  probes (convert freebsd staging profile hello ".pdf") = [] /\
  convert freebsd staging profile hello ".pdf" =
    [ DirSync "libreofficeConvert_" staging;
      DirSync "soffice" profile;
      Completed "soffice" (Some (OsNotSupported "freebsd"));
      RemoveCallback staging;
      RemoveCallback profile;
      Callback (Some (OsNotSupported "freebsd")) None ].
Proof.
  destruct (unsupported_platform freebsd staging profile hello ".pdf")
    as (Hs & Hp & _ & Hc); try discriminate.
  split; [exact Hs|]. split; [exact Hp|]. now apply Hc.
Defined.

(** ** The bounded retry of the output read *)

Section Retry.
Context {A : Type}.
Variable interval : Z.
Variable ev : Event.
Variable out : nat -> Error + A.

Local Abbreviation task := (fun a : nat => ([ev], out a)).

Lemma retryAttempt_unfold left attempt :
  retryAttempt interval task left attempt =
  match out attempt, left with
  | inl _, S left' =>
      (ev :: SetTimeout interval
          :: fst (retryAttempt interval task left' (S attempt)),
       snd (retryAttempt interval task left' (S attempt)))
  | r, _ => ([ev], r)
  end.
Proof.
  destruct left as [|left']; simpl.
  - destruct (out attempt); reflexivity.
  - destruct (out attempt); [|reflexivity].
    destruct (retryAttempt interval task left' (S attempt)); reflexivity.
Qed.

(** An attempt that succeeds after [n] failed ones ends the loop. *)
Lemma retryAttempt_success n : forall left attempt data,
  (n <= left)%nat ->
  (forall j, (j < n)%nat -> exists e, out (attempt + j)%nat = inl e) ->
  out (attempt + n)%nat = inr data ->
  retryAttempt interval task left attempt
  = (ev :: concat (replicate n [SetTimeout interval; ev]), inr data).
Proof.
  induction n as [|n IH]; intros left attempt data Hle Hfail Hok;
    rewrite retryAttempt_unfold.
  - rewrite Nat.add_0_r in Hok. rewrite Hok. now destruct left.
  - destruct (Hfail 0%nat ltac:(lia)) as [e He].
    rewrite Nat.add_0_r in He. rewrite He.
    destruct left as [|left']; [lia|].
    rewrite (IH left' (S attempt) data); [reflexivity | lia | |].
    + intros j Hj. destruct (Hfail (S j) ltac:(lia)) as [e' He'].
      exists e'. now rewrite <- He', Nat.add_succ_r.
    + now rewrite <- Hok, Nat.add_succ_r.
Qed.

(** When every attempt fails the loop stops with the last error. *)
Lemma retryAttempt_exhausted left : forall attempt,
  (forall j, (j <= left)%nat -> exists e, out (attempt + j)%nat = inl e) ->
  exists e,
    out (attempt + left)%nat = inl e /\
    retryAttempt interval task left attempt
    = (ev :: concat (replicate left [SetTimeout interval; ev]), inl e).
Proof.
  induction left as [|left IH]; intros attempt Hfail;
    rewrite retryAttempt_unfold;
    destruct (Hfail 0%nat ltac:(lia)) as [e He];
    rewrite Nat.add_0_r in He; rewrite He.
  - exists e. now rewrite Nat.add_0_r.
  - destruct (IH (S attempt)) as (e' & He' & ->).
    + intros j Hj. destruct (Hfail (S j) ltac:(lia)) as [e'' He''].
      exists e''. now rewrite <- He'', Nat.add_succ_r.
    + exists e'. split; [|reflexivity]. now rewrite <- He', Nat.add_succ_r.
Qed.

(** The loop never makes more than [left + 1] attempts, and between two
    attempts it only waits. *)
Lemma retryAttempt_events left : forall attempt,
  exists n, (n <= left)%nat /\
    fst (retryAttempt interval task left attempt)
    = ev :: concat (replicate n [SetTimeout interval; ev]).
Proof.
  induction left as [|left IH]; intros attempt; rewrite retryAttempt_unfold.
  - exists 0%nat. split; [lia|]. now destruct (out attempt).
  - destruct (out attempt).
    + destruct (IH (S attempt)) as (n & Hn & E). exists (S n).
      split; [lia|]. simpl. now rewrite E.
    + exists 0%nat. split; [lia | reflexivity].
Qed.
End Retry.

Lemma read_paths_attempts file interval n :
  read_paths
    (ReadFile file :: concat (replicate n [SetTimeout interval; ReadFile file]))
  = replicate (S n) file.
Proof.
  induction n as [|n IH]; [reflexivity|].
  simpl in *. unfold read_paths in *. simpl in *. now rewrite IH.
Qed.

Lemma timeouts_attempts file interval n :
  timeouts
    (ReadFile file :: concat (replicate n [SetTimeout interval; ReadFile file]))
  = replicate n interval.
Proof.
  induction n as [|n IH]; [reflexivity|].
  simpl in *. unfold timeouts in *. simpl in *. now rewrite IH.
Qed.

Lemma loadDestination_events w tempDir format :
  exists n, (n <= 2)%nat /\
    fst (loadDestination w tempDir format)
    = ReadFile (destination w tempDir format)
        :: concat (replicate n [ SetTimeout 200;
                                 ReadFile (destination w tempDir format) ]).
Proof. apply retryAttempt_events. Qed.

(** C6. The output is read at most 3 times, and the trace of the
    retriever is a read followed by at most two rounds of a wait of
    200 ms and a read: two consecutive attempts are separated by exactly
    one wait, and nothing is waited for before the first attempt or after
    the last.  If the first [k - 1] attempts fail and attempt [k <= 3]
    succeeds, the retriever succeeds with the data of attempt [k] after
    exactly [k] reads and [k - 1] waits; if all three attempts fail it
    fails, with the error of the third, after exactly 3 reads and 2
    waits. *)
Theorem loadDestination_retry_bound (w : World) (tempDir format : string) :
  (exists n, (n <= 2)%nat /\
     fst (loadDestination w tempDir format)
     = ReadFile (destination w tempDir format)
         :: concat (replicate n [ SetTimeout 200;
                                  ReadFile (destination w tempDir format) ])) /\
  (length (read_paths (fst (loadDestination w tempDir format))) <= 3)%nat /\
  (forall k data, (1 <= k <= 3)%nat ->
     (forall j, (1 <= j < k)%nat ->
        exists e, readFile w j (destination w tempDir format) = inl e) ->
     readFile w k (destination w tempDir format) = inr data ->
     snd (loadDestination w tempDir format) = inr data /\
     fst (loadDestination w tempDir format)
     = ReadFile (destination w tempDir format)
         :: concat (replicate (k - 1)
                      [ SetTimeout 200;
                        ReadFile (destination w tempDir format) ]) /\
     read_paths (fst (loadDestination w tempDir format))
     = replicate k (destination w tempDir format) /\
     timeouts (fst (loadDestination w tempDir format))
     = replicate (k - 1) 200) /\
  ((forall j, (1 <= j <= 3)%nat ->
      exists e, readFile w j (destination w tempDir format) = inl e) ->
   exists e,
     readFile w 3 (destination w tempDir format) = inl e /\
     snd (loadDestination w tempDir format) = inl e /\
     fst (loadDestination w tempDir format)
     = [ ReadFile (destination w tempDir format); SetTimeout 200;
         ReadFile (destination w tempDir format); SetTimeout 200;
         ReadFile (destination w tempDir format) ] /\
     read_paths (fst (loadDestination w tempDir format))
     = replicate 3 (destination w tempDir format) /\
     timeouts (fst (loadDestination w tempDir format)) = [200; 200]).
Proof.
  split; [apply loadDestination_events|]. split; [|split].
  - destruct (loadDestination_events w tempDir format) as (n & Hn & ->).
    rewrite read_paths_attempts, length_replicate. lia.
  - intros k data Hk Hfail Hok. unfold loadDestination, retry.
    rewrite (retryAttempt_success 200 _ _ (k - 1) _ _ data).
    + simpl fst. simpl snd.
      rewrite read_paths_attempts, timeouts_attempts.
      replace (S (k - 1)) with k by lia. auto.
    + simpl. lia.
    + intros j Hj. apply Hfail. lia.
    + replace (1 + (k - 1))%nat with k by lia. assumption.
  - intros Hfail. unfold loadDestination, retry.
    destruct (retryAttempt_exhausted 200
                (ReadFile (destination w tempDir format))
                (fun a => readFile w a (destination w tempDir format))
                (3 - 1) 1) as (e & He & ->).
    + intros j Hj. apply Hfail. simpl in Hj. lia.
    + exists e. split; [exact He|]. split; [reflexivity|].
      split; [reflexivity|]. split; reflexivity.
Qed.

(** The output becomes visible at the second attempt: a read, a wait and
    a read. *)
Lemma loadDestination_retry_bound_witness :
  snd (loadDestination double_dot_engine staging ".pdf") = inr pdf_ok /\
  fst (loadDestination double_dot_engine staging ".pdf")
  = [ ReadFile "/tmp/libreofficeConvert_-4711-k3VqXw8ZrT0a/source..pdf";
      SetTimeout 200;
      ReadFile "/tmp/libreofficeConvert_-4711-k3VqXw8ZrT0a/source..pdf" ] /\
  read_paths (fst (loadDestination double_dot_engine staging ".pdf"))
  = replicate 2 (destination double_dot_engine staging ".pdf") /\
  timeouts (fst (loadDestination double_dot_engine staging ".pdf"))
  = replicate (2 - 1) 200.
Proof.
  apply (proj1 (proj2 (proj2
           (loadDestination_retry_bound double_dot_engine staging ".pdf")))
           2%nat pdf_ok).
  - lia.
  - intros j Hj. assert (j = 1%nat) as -> by lia.
    exists (SysError "ENOENT"). reflexivity.
  - reflexivity.
Defined.

(** ** Teardown *)

Lemma torn_down_here tempDir installDir err result after :
  Forall quiet after ->
  torn_down tempDir installDir
    (RemoveCallback tempDir :: RemoveCallback installDir
       :: Callback err result :: after).
Proof. intros H. exists [], err, result, after. auto. Qed.

Lemma torn_down_cons tempDir installDir e tr :
  quiet e -> torn_down tempDir installDir tr ->
  torn_down tempDir installDir (e :: tr).
Proof.
  intros He (before & err & result & after & -> & Hb & Ha).
  exists (e :: before), err, result, after. auto.
Qed.

Lemma torn_down_app tempDir installDir l tr :
  Forall quiet l -> torn_down tempDir installDir tr ->
  torn_down tempDir installDir (l ++ tr).
Proof.
  induction 1 as [|e l He Hl IH]; intros H; simpl;
    [assumption | apply torn_down_cons; auto].
Qed.

Lemma quiet_probes ps : Forall quiet (map Access ps).
Proof. induction ps; constructor; simpl; auto. Qed.

Lemma quiet_reads w tempDir format :
  Forall quiet (fst (loadDestination w tempDir format)).
Proof.
  destruct (loadDestination_events w tempDir format) as (n & _ & ->).
  constructor; [exact I|].
  induction n as [|n IH]; simpl; repeat constructor. exact IH.
Qed.

Ltac torn_with tac :=
  repeat first
    [ tac
    | apply torn_down_here; repeat constructor
    | apply torn_down_cons; [exact I|]
    | apply torn_down_app; [first [apply quiet_probes | assumption]|] ].

Ltac torn := torn_with fail.

Lemma torn_down_dependents w tempDir installDir format bin :
  removeCallback w tempDir = None -> removeCallback w installDir = None ->
  execFile w bin (JS.split " " (command w tempDir installDir format)) <> Running ->
  torn_down tempDir installDir (dependents w tempDir installDir format bin).
Proof.
  intros H1 H2 Hx. unfold dependents, convert_task, failed, finish.
  rewrite H1, H2.
  pose proof (quiet_reads w tempDir format) as Hq.
  destruct (execFile w bin _) as [[e|]|]; [| |contradiction];
    [|destruct (loadDestination w tempDir format) as [reads [e|data]]];
    simpl in *; torn.
Qed.

(** The teardown as the code means it.  When both removals return, and
    the engine, if it is spawned, exits, then whatever else the world
    does (the locator fails, the source cannot be written, the engine
    fails, the output never becomes readable, or all succeeds) the trace
    of a run holds exactly one removal of the staging directory,
    immediately followed by exactly one removal of the profile directory,
    immediately followed by the only call of the result callback. *)
Lemma teardown_when_removals_return (w : World) (tempDir installDir : string)
    (document : bytes) (format : string) :
  removeCallback w tempDir = None -> removeCallback w installDir = None ->
  (forall bin, snd (soffice w) = inr bin ->
     execFile w bin (JS.split " " (command w tempDir installDir format))
     <> Running) ->
  exists before err result after,
    convert w tempDir installDir document format
    = before ++
      [RemoveCallback tempDir; RemoveCallback installDir; Callback err result]
      ++ after /\
    Forall quiet before /\ Forall quiet after.
Proof.
  intros H1 H2 Hx.
  change (torn_down tempDir installDir
            (convert w tempDir installDir document format)).
  pose proof (torn_down_dependents w tempDir installDir format) as Hd.
  revert Hx. unfold convert, soffice, saveSource, failed, finish, later, removed.
  rewrite H1, H2.
  destruct (paths w) as [ps|]; cbn -[dependents command]; [|intros _; torn].
  destruct (List.filter (access w) ps) as [|bin r];
    destruct (saveSource_first w);
    destruct (writeFile w _ document) as [e|]; cbn -[dependents command];
    intros Hx; torn_with ltac:(apply Hd; auto).
Qed.

(** C1 fails in the code when a removal throws.  The engine exits with
    code 0 and the output is never readable; the final callback calls
    the removal of the staging directory, which throws: the profile
    directory is not removed and the result callback is not called. *)
Theorem teardown_stops_at_throw :
  removeCallback staging_gone staging = Some (SysError "ENOENT") /\
  convert staging_gone staging profile hello ".pdf" =
  [ DirSync "libreofficeConvert_" staging;
    DirSync "soffice" profile;
    Access "/usr/bin/libreoffice"; Access "/usr/bin/libreoffice";
    Access "/usr/bin/soffice"; Access "/snap/bin/libreoffice";
    WriteFile "/tmp/libreofficeConvert_-4711-k3VqXw8ZrT0a/source" hello;
    Completed "saveSource" None; Completed "soffice" None;
    ExecFile "/usr/bin/soffice"
      [ "-env:UserInstallation=file:///tmp/soffice-4711-Hq2mLp9sYb4c"; "--headless";
        "--convert-to"; ".pdf"; "--outdir"; staging;
        "/tmp/libreofficeConvert_-4711-k3VqXw8ZrT0a/source" ];
    Completed "convert" None;
    ReadFile "/tmp/libreofficeConvert_-4711-k3VqXw8ZrT0a/source..pdf"; SetTimeout 200;
    ReadFile "/tmp/libreofficeConvert_-4711-k3VqXw8ZrT0a/source..pdf"; SetTimeout 200;
    ReadFile "/tmp/libreofficeConvert_-4711-k3VqXw8ZrT0a/source..pdf";
    Completed "loadDestination" (Some (SysError "ENOENT"));
    RemoveCallback staging;
    Throw (SysError "ENOENT") ] /\
  (RemoveCallback profile ∉ convert staging_gone staging profile hello ".pdf") /\
  (forall err result,
     Callback err result ∉ convert staging_gone staging profile hello ".pdf").
Proof.
  split; [reflexivity|]. split; [reflexivity|]. split.
  - intros H. vm_compute in H.
    repeat (apply elem_of_cons in H as [H | H]; [discriminate|]).
    now apply elem_of_nil in H.
  - intros err result H. vm_compute in H.
    repeat (apply elem_of_cons in H as [H | H]; [discriminate|]).
    now apply elem_of_nil in H.
Qed.

(** The five ways a run can end. *)

Example run_success :
  convert double_dot_engine
    staging profile hello ".pdf" =
  [ DirSync "libreofficeConvert_" staging;
    DirSync "soffice" profile;
    Access "/usr/bin/libreoffice"; Access "/usr/bin/libreoffice";
    Access "/usr/bin/soffice"; Access "/snap/bin/libreoffice";
    WriteFile "/tmp/libreofficeConvert_-4711-k3VqXw8ZrT0a/source" hello;
    Completed "saveSource" None; Completed "soffice" None;
    ExecFile "/usr/bin/soffice"
      [ "-env:UserInstallation=file:///tmp/soffice-4711-Hq2mLp9sYb4c"; "--headless";
        "--convert-to"; ".pdf"; "--outdir"; staging;
        "/tmp/libreofficeConvert_-4711-k3VqXw8ZrT0a/source" ];
    Completed "convert" None;
    ReadFile "/tmp/libreofficeConvert_-4711-k3VqXw8ZrT0a/source..pdf"; SetTimeout 200;
    ReadFile "/tmp/libreofficeConvert_-4711-k3VqXw8ZrT0a/source..pdf";
    Completed "loadDestination" None;
    RemoveCallback staging; RemoveCallback profile;
    Callback None (Some pdf_ok) ].
Proof. reflexivity. Qed.

Example run_locator_fails :
  convert
    {| platform := "darwin"; env := ∅; join := Path.posix_join;
       access := fun _ => false; writeFile := fun _ _ => None;
       execFile := fun _ _ => Exited None;
       readFile := fun _ _ => inl (SysError "ENOENT");
       saveSource_first := false;
       dirSync := tmp_dirs; removeCallback := fun _ => None |}
    staging profile hello ".pdf" =
  [ DirSync "libreofficeConvert_" staging;
    DirSync "soffice" profile;
    Access "/Applications/LibreOffice.app/Contents/MacOS/soffice";
    WriteFile "/tmp/libreofficeConvert_-4711-k3VqXw8ZrT0a/source" hello;
    Completed "soffice" (Some SofficeNotFound);
    RemoveCallback staging; RemoveCallback profile;
    Callback (Some SofficeNotFound) None;
    Completed "saveSource" None ].
Proof. reflexivity. Qed.

Example run_write_fails :
  convert
    {| platform := "darwin"; env := ∅; join := Path.posix_join;
       access := fun _ => true;
       writeFile := fun _ _ => Some (SysError "ENOSPC");
       execFile := fun _ _ => Exited None;
       readFile := fun _ _ => inl (SysError "ENOENT");
       saveSource_first := true;
       dirSync := tmp_dirs; removeCallback := fun _ => None |}
    staging profile hello ".pdf" =
  [ DirSync "libreofficeConvert_" staging;
    DirSync "soffice" profile;
    Access "/Applications/LibreOffice.app/Contents/MacOS/soffice";
    WriteFile "/tmp/libreofficeConvert_-4711-k3VqXw8ZrT0a/source" hello;
    Completed "saveSource" (Some (SysError "ENOSPC"));
    RemoveCallback staging; RemoveCallback profile;
    Callback (Some (SysError "ENOSPC")) None;
    Completed "soffice" None ].
Proof. reflexivity. Qed.

Example run_engine_fails :
  convert
    {| platform := "darwin"; env := ∅; join := Path.posix_join;
       access := fun _ => true; writeFile := fun _ _ => None;
       execFile := fun _ _ => Exited (Some (SysError "EXIT1"));
       readFile := fun _ _ => inl (SysError "ENOENT");
       saveSource_first := true;
       dirSync := tmp_dirs; removeCallback := fun _ => None |}
    staging profile hello ".pdf" =
  [ DirSync "libreofficeConvert_" staging;
    DirSync "soffice" profile;
    Access "/Applications/LibreOffice.app/Contents/MacOS/soffice";
    WriteFile "/tmp/libreofficeConvert_-4711-k3VqXw8ZrT0a/source" hello;
    Completed "saveSource" None; Completed "soffice" None;
    ExecFile "/Applications/LibreOffice.app/Contents/MacOS/soffice"
      [ "-env:UserInstallation=file:///tmp/soffice-4711-Hq2mLp9sYb4c"; "--headless";
        "--convert-to"; ".pdf"; "--outdir"; staging;
        "/tmp/libreofficeConvert_-4711-k3VqXw8ZrT0a/source" ];
    Completed "convert" (Some (SysError "EXIT1"));
    RemoveCallback staging; RemoveCallback profile;
    Callback (Some (SysError "EXIT1")) None ].
Proof. reflexivity. Qed.

(** ** Order of the stages *)

Section Ordered.
Variable requires : list Event -> Event -> Prop.

(** In an ordered trace each event has what it requires in the events
    before it. *)
Lemma ordered_sound tr : forall before l1 e l2,
  ordered requires before tr -> tr = l1 ++ e :: l2 ->
  requires (before ++ l1) e.
Proof.
  induction tr as [|x tr IH]; intros before l1 e l2 H E.
  - now destruct l1.
  - destruct H as [Hx Htr].
    destruct l1 as [|y l1]; simpl in E; injection E as -> ->.
    + now rewrite app_nil_r.
    + specialize (IH _ _ _ _ Htr eq_refl). now rewrite <- app_assoc in IH.
Qed.

Lemma ordered_app l : forall before rest,
  ordered requires before l -> ordered requires (before ++ l) rest ->
  ordered requires before (l ++ rest).
Proof.
  induction l as [|x l IH]; intros before rest Hl Hr; simpl.
  - now rewrite app_nil_r in Hr.
  - destruct Hl as [Hx Hl]. split; [exact Hx|].
    apply IH; [exact Hl|]. now rewrite <- app_assoc.
Qed.
End Ordered.

Section Needs.
Variable w : World.
Variable tempDir : string.
Variable document : bytes.

Local Abbreviation in_order := (ordered (needs w tempDir document)).

Lemma in_order_idle l : forall before, Forall idle l -> in_order before l.
Proof.
  induction l as [|e l IH]; intros before H; [exact I|].
  inversion H as [|? ? He Hl]; subst. split; [|now apply IH].
  now destruct e.
Qed.

Lemma idle_probes ps : Forall idle (map Access ps).
Proof. induction ps; constructor; simpl; auto. Qed.

Lemma idle_finish installDir err res :
  Forall idle (finish w tempDir installDir err res).
Proof.
  unfold finish. destruct (removeCallback w tempDir);
    [|destruct (removeCallback w installDir)];
    repeat constructor; now destruct err, res.
Qed.

Lemma idle_later installDir task err :
  Forall idle (later w tempDir installDir (Completed task err)).
Proof. unfold later. destruct (removed w tempDir installDir); now repeat constructor. Qed.

(** The reads of the retriever are in order once the engine has been
    spawned and has exited with code 0. *)
Lemma in_order_reads format before :
  (exists file args, ExecFile file args ∈ before) ->
  Completed "convert" None ∈ before ->
  in_order before (fst (loadDestination w tempDir format)).
Proof.
  intros Hx Hc.
  destruct (loadDestination_events w tempDir format) as (n & _ & ->).
  split; [now split|].
  assert (forall b, (exists file args, ExecFile file args ∈ b) ->
            Completed "convert" None ∈ b ->
            in_order b
              (concat (replicate n [ SetTimeout 200;
                                     ReadFile (destination w tempDir format) ])))
    as Hn.
  { induction n as [|n IH]; intros b Hb Hbc; [exact I|].
    assert (Hb' : exists file args, ExecFile file args ∈ b ++ [SetTimeout 200])
      by (destruct Hb as (f & a & Hb); exists f, a; apply elem_of_app; now left).
    assert (Hbc' : Completed "convert" None ∈ b ++ [SetTimeout 200])
      by (apply elem_of_app; now left).
    simpl. split; [exact I|]. split; [now split|].
    apply IH.
    - destruct Hb' as (f & a & Hb'). exists f, a. apply elem_of_app. now left.
    - apply elem_of_app. now left. }
  apply Hn.
  - destruct Hx as (f & a & Hx). exists f, a. apply elem_of_app. now left.
  - apply elem_of_app. now left.
Qed.

Lemma in_order_dependents installDir format bin before :
  Access bin ∈ before -> Completed "soffice" None ∈ before ->
  WriteFile (join w tempDir "source") document ∈ before ->
  Completed "saveSource" None ∈ before ->
  in_order before (dependents w tempDir installDir format bin).
Proof.
  intros Ha Hl Hw Hs. unfold dependents, convert_task, failed.
  cbn [app]. split; [now repeat split|].
  destruct (execFile w bin _) as [[e|]|]; [| |exact I].
  - split; [exact I|]. apply in_order_idle, idle_finish.
  - split; [exact I|].
    pose proof (in_order_reads format
                  ((before ++ [ExecFile bin
                                 (JS.split " "
                                    (command w tempDir installDir format))])
                     ++ [Completed "convert" None])) as Hr.
    destruct (loadDestination w tempDir format) as [reads loaded].
    apply ordered_app.
    + apply Hr.
      * eexists _, _. apply elem_of_app. left. apply elem_of_app. right.
        constructor.
      * apply elem_of_app. right. constructor.
    + destruct loaded; (split; [exact I|]); apply in_order_idle, idle_finish.
Qed.

Lemma convert_in_order installDir format :
  in_order [] (convert w tempDir installDir document format).
Proof.
  unfold convert, soffice, saveSource, failed.
  destruct (paths w) as [ps|]; cbn -[dependents finish later ordered].
  - split; [exact I|]. split; [exact I|].
    apply ordered_app; [apply in_order_idle, idle_probes|].
    split; [exact I|].
    destruct (List.filter (access w) ps) as [|bin r] eqn:Hf.
    + destruct (saveSource_first w); [destruct (writeFile w _ document)|];
        cbn -[dependents finish later ordered];
        repeat first
          [ exact I
          | apply in_order_idle, idle_finish
          | apply in_order_idle, idle_later
          | match goal with
            | |- ordered _ _ (_ ++ _) => apply ordered_app
            end
          | split; [exact I|] ].
    + assert (Access bin ∈ map Access ps) as Hb.
      { destruct (filter_cons_inv _ _ _ _ Hf) as (b & a & -> & _ & _).
        rewrite map_app. apply elem_of_app. right. constructor. }
      destruct (saveSource_first w); destruct (writeFile w _ document);
        cbn -[dependents finish later ordered];
        repeat first
          [ exact I
          | apply in_order_idle, idle_finish
          | apply in_order_idle, idle_later
          | apply in_order_dependents;
            repeat first [rewrite elem_of_app | rewrite elem_of_cons];
            intuition
          | match goal with
            | |- ordered _ _ (_ ++ _) => apply ordered_app
            end
          | split; [exact I|] ].
  - split; [exact I|]. split; [exact I|]. split; [exact I|].
    apply in_order_idle, idle_finish.
Qed.
End Needs.



(** ** The expected output file *)

(** The first piece of a split holds no separator, and the string is that
    piece alone or that piece, a separator and a remainder. *)
Lemma split_first sep s :
  exists piece rest,
    JS.split sep s = piece :: rest /\
    (sep ∉ String.list_ascii_of_string piece) /\
    (s = piece \/ exists q, s = piece +:+ String sep q).
Proof.
  induction s as [|c s (piece & rest & E & Hn & Hs)]; simpl.
  - exists "", []. split; [reflexivity|]. split; [apply not_elem_of_nil | now left].
  - destruct (Ascii.eqb c sep) eqn:Hc.
    + apply Ascii.eqb_eq in Hc as ->. exists "", (JS.split sep s).
      split; [reflexivity|]. split; [apply not_elem_of_nil|]. right. now exists s.
    + apply Ascii.eqb_neq in Hc. rewrite E. exists (String c piece), rest.
      split; [reflexivity|]. split.
      * simpl. intros Hin. apply elem_of_cons in Hin as [-> | Hin];
          [now apply Hc | now apply Hn].
      * destruct Hs as [-> | [q ->]]; [now left | right; now exists q].
Qed.

Lemma no_read_finish w tempDir installDir err res p :
  ReadFile p ∉ finish w tempDir installDir err res.
Proof.
  unfold finish. intros H.
  destruct (removeCallback w tempDir);
    [|destruct (removeCallback w installDir)];
    repeat (apply elem_of_cons in H as [H | H];
            [try discriminate; now destruct err, res|]);
    now apply elem_of_nil in H.
Qed.

Lemma no_read_later w tempDir installDir task err p :
  ReadFile p ∉ later w tempDir installDir (Completed task err).
Proof.
  unfold later. intros H. destruct (removed w tempDir installDir).
  - apply list_elem_of_singleton in H. discriminate.
  - now apply elem_of_nil in H.
Qed.

Lemma reads_of_dependents w tempDir installDir format bin p :
  ReadFile p ∈ dependents w tempDir installDir format bin ->
  p = destination w tempDir format.
Proof.
  unfold dependents, convert_task, failed.
  pose proof (loadDestination_events w tempDir format) as (n & _ & En).
  assert (forall k,
            ReadFile p ∈
              concat (replicate k [ SetTimeout 200;
                                    ReadFile (destination w tempDir format) ]) ->
            p = destination w tempDir format) as Hk.
  { induction k as [|k IH]; simpl; intros H.
    - now apply elem_of_nil in H.
    - apply elem_of_cons in H as [H | H]; [discriminate|].
      apply elem_of_cons in H as [H | H]; [now injection H | auto]. }
  cbn [app]. intros H.
  apply elem_of_cons in H as [H | H]; [discriminate|].
  destruct (execFile w bin _) as [[e|]|].
  - apply elem_of_cons in H as [H | H]; [discriminate|].
    now apply no_read_finish in H.
  - apply elem_of_cons in H as [H | H]; [discriminate|].
    destruct (loadDestination w tempDir format) as [reads loaded].
    simpl in En. subst reads.
    apply elem_of_app in H as [H | H].
    + apply elem_of_cons in H as [H | H]; [now injection H | eauto].
    + destruct loaded;
        (apply elem_of_cons in H as [H | H]; [discriminate|]);
        now apply no_read_finish in H.
  - now apply elem_of_nil in H.
Qed.

Lemma reads_of_convert w tempDir installDir document format p :
  ReadFile p ∈ convert w tempDir installDir document format ->
  p = destination w tempDir format.
Proof.
  pose proof (reads_of_dependents w tempDir installDir format) as Hd.
  unfold convert, soffice, saveSource, failed.
  assert (forall ps, ReadFile p ∉ map Access ps) as Hps.
  { intros ps H. apply list_elem_of_fmap in H as (q & Hq & _). discriminate. }
  destruct (paths w) as [ps|]; cbn -[dependents finish later]; intros H.
  - apply elem_of_cons in H as [H | H]; [discriminate|].
    apply elem_of_cons in H as [H | H]; [discriminate|].
    apply elem_of_app in H as [H | H]; [now apply Hps in H|].
    apply elem_of_cons in H as [H | H]; [discriminate|].
    destruct (List.filter (access w) ps) as [|bin r];
      destruct (saveSource_first w);
      destruct (writeFile w _ document) as [e|];
      cbn -[dependents finish later] in H;
      repeat first [ now apply Hd in H
                   | now apply no_read_finish in H
                   | now apply no_read_later in H
                   | now apply elem_of_nil in H
                   | match type of H with
                     | _ ∈ _ ++ _ => apply elem_of_app in H as [H | H]
                     end
                   | apply elem_of_cons in H as [H | H]; [discriminate|] ].
  - repeat first [ now apply no_read_finish in H
                 | apply elem_of_cons in H as [H | H]; [discriminate|] ].
Qed.

Lemma callback_of_dependents w tempDir installDir format bin k data :
  removeCallback w tempDir = None -> removeCallback w installDir = None ->
  execFile w bin (JS.split " " (command w tempDir installDir format))
  = Exited None ->
  (1 <= k <= 3)%nat ->
  (forall j, (1 <= j < k)%nat ->
     exists e, readFile w j (destination w tempDir format) = inl e) ->
  readFile w k (destination w tempDir format) = inr data ->
  Callback None (Some data) ∈ dependents w tempDir installDir format bin.
Proof.
  intros H1 H2 Hx Hk Hfail Hr.
  unfold dependents, convert_task, loadDestination, retry, finish.
  rewrite Hx, H1, H2. rewrite (retryAttempt_success 200 _ _ (k - 1) _ _ data).
  - simpl. do 3 constructor. apply elem_of_app. right. repeat constructor.
  - simpl. lia.
  - intros j Hj. apply Hfail. lia.
  - replace (1 + (k - 1))%nat with k by lia. assumption.
Qed.

(** C2, as the code has it.  The file read is [source.] followed by the
    target format up to its first colon, so the leading dot of the format
    is kept: for [.pdf] the file is [source..pdf] in the staging
    directory.  No other file is ever read.  When the binary is found,
    the input is written, the engine exits with code 0, that file is
    readable at one of the three attempts and the two removals of the
    teardown return, the callback receives exactly the bytes read from
    it. *)
Theorem destination_keeps_leading_dot (w : World) (tempDir installDir : string)
    (document : bytes) (format : string) :
  (exists ext,
     (":"%char ∉ String.list_ascii_of_string ext) /\
     (format = ext \/ exists q, format = ext +:+ ":" +:+ q) /\
     destination w tempDir format = join w tempDir ("source." +:+ ext)) /\
  destination w tempDir ".pdf" = join w tempDir "source..pdf" /\
  (forall p, ReadFile p ∈ convert w tempDir installDir document format ->
     p = destination w tempDir format) /\
  (forall bin k data,
     snd (soffice w) = inr bin ->
     writeFile w (join w tempDir "source") document = None ->
     execFile w bin (JS.split " " (command w tempDir installDir format))
     = Exited None ->
     (1 <= k <= 3)%nat ->
     (forall j, (1 <= j < k)%nat ->
        exists e, readFile w j (destination w tempDir format) = inl e) ->
     readFile w k (destination w tempDir format) = inr data ->
     removeCallback w tempDir = None -> removeCallback w installDir = None ->
     Callback None (Some data) ∈ convert w tempDir installDir document format).
Proof.
  split; [|split; [reflexivity|split]].
  - destruct (split_first ":" format) as (ext & rest & E & Hn & Hs).
    exists ext. split; [exact Hn|]. split; [exact Hs|].
    unfold destination. now rewrite E.
  - apply reads_of_convert.
  - intros bin k data Hs Hw Hx Hk Hfail Hr H1 H2.
    pose proof (callback_of_dependents w tempDir installDir format bin k data
                  H1 H2 Hx Hk Hfail Hr) as Hd.
    revert Hs. unfold convert, soffice, saveSource.
    destruct (paths w) as [ps|]; [|discriminate].
    destruct (List.filter (access w) ps) as [|bin' r]; [discriminate|].
    cbn -[dependents]. intros [= ->]. rewrite Hw.
    do 2 constructor. apply elem_of_app. right.
    destruct (saveSource_first w); repeat first [exact Hd | constructor].
Qed.

(** An engine that writes [source..pdf], visible from the second attempt. *)
Lemma destination_keeps_leading_dot_witness :
  destination double_dot_engine
    staging ".pdf"
  = "/tmp/libreofficeConvert_-4711-k3VqXw8ZrT0a/source..pdf" /\
  Callback None (Some pdf_ok) ∈
    convert double_dot_engine
      staging profile hello ".pdf".
Proof.
  split; [reflexivity|].
  apply (destination_keeps_leading_dot
           double_dot_engine
           staging profile hello ".pdf")
    with (bin := "/usr/bin/soffice") (k := 2%nat).
  - reflexivity.
  - reflexivity.
  - reflexivity.
  - lia.
  - intros j Hj. assert (j = 1%nat) as -> by lia.
    exists (SysError "ENOENT"). reflexivity.
  - reflexivity.
  - reflexivity.
  - reflexivity.
Defined.

(** C2 as stated fails: the engine exits with code 0 and its output
    [source.pdf] is there at every attempt, yet the run reads
    [source..pdf] three times and reports the read error. *)
Lemma engine_writing_source_pdf_is_not_read :
  execFile single_dot_engine
    "/usr/bin/soffice"
    [ "-env:UserInstallation=file:///tmp/soffice-4711-Hq2mLp9sYb4c"; "--headless";
      "--convert-to"; ".pdf"; "--outdir"; staging;
      "/tmp/libreofficeConvert_-4711-k3VqXw8ZrT0a/source" ] = Exited None /\
  readFile single_dot_engine 1
    "/tmp/libreofficeConvert_-4711-k3VqXw8ZrT0a/source.pdf" = inr pdf_ok /\
  readFile single_dot_engine 2
    "/tmp/libreofficeConvert_-4711-k3VqXw8ZrT0a/source.pdf" = inr pdf_ok /\
  readFile single_dot_engine 3
    "/tmp/libreofficeConvert_-4711-k3VqXw8ZrT0a/source.pdf" = inr pdf_ok /\
  convert single_dot_engine
    staging profile hello ".pdf" =
  [ DirSync "libreofficeConvert_" staging;
    DirSync "soffice" profile;
    Access "/usr/bin/libreoffice"; Access "/usr/bin/libreoffice";
    Access "/usr/bin/soffice"; Access "/snap/bin/libreoffice";
    WriteFile "/tmp/libreofficeConvert_-4711-k3VqXw8ZrT0a/source" hello;
    Completed "saveSource" None; Completed "soffice" None;
    ExecFile "/usr/bin/soffice"
      [ "-env:UserInstallation=file:///tmp/soffice-4711-Hq2mLp9sYb4c"; "--headless";
        "--convert-to"; ".pdf"; "--outdir"; staging;
        "/tmp/libreofficeConvert_-4711-k3VqXw8ZrT0a/source" ];
    Completed "convert" None;
    ReadFile "/tmp/libreofficeConvert_-4711-k3VqXw8ZrT0a/source..pdf"; SetTimeout 200;
    ReadFile "/tmp/libreofficeConvert_-4711-k3VqXw8ZrT0a/source..pdf"; SetTimeout 200;
    ReadFile "/tmp/libreofficeConvert_-4711-k3VqXw8ZrT0a/source..pdf";
    Completed "loadDestination" (Some (SysError "ENOENT"));
    RemoveCallback staging; RemoveCallback profile;
    Callback (Some (SysError "ENOENT")) None ].
Proof. repeat split. Qed.

(** ** The argument list of the engine *)

Lemma split_app_clean sep a s :
  sep ∉ String.list_ascii_of_string a ->
  JS.split sep (a +:+ s) =
  match JS.split sep s with
  | [] => [a]
  | piece :: rest => (a +:+ piece) :: rest
  end.
Proof.
  induction a as [|c a IH]; intros Hn.
  - change ("" +:+ s) with s.
    pose proof (split_not_nil sep s). now destruct (JS.split sep s).
  - change (String c a +:+ s) with (String c (a +:+ s)). simpl in *.
    destruct (Ascii.eqb c sep) eqn:Hc.
    + apply Ascii.eqb_eq in Hc as ->. exfalso. apply Hn. constructor.
    + rewrite IH by (intros H; apply Hn; now constructor).
      pose proof (split_not_nil sep s). now destruct (JS.split sep s).
Qed.

Lemma split_clean sep a :
  sep ∉ String.list_ascii_of_string a -> JS.split sep a = [a].
Proof.
  induction a as [|c a IH]; simpl; intros Hn; [reflexivity|].
  destruct (Ascii.eqb c sep) eqn:Hc.
  - apply Ascii.eqb_eq in Hc as ->. exfalso. apply Hn. constructor.
  - rewrite IH by (intros H; apply Hn; now constructor). reflexivity.
Qed.

Lemma string_app_empty_r (s : string) : s +:+ "" = s.
Proof.
  induction s as [|c s IH]; [reflexivity|].
  change (String c s +:+ "") with (String c (s +:+ "")). now rewrite IH.
Qed.

(** When neither directory, nor the format, nor the joined input path
    holds a space, the engine gets the seven intended arguments. *)
Lemma args_without_spaces w bin tempDir installDir format :
  " "%char ∉ String.list_ascii_of_string installDir ->
  " "%char ∉ String.list_ascii_of_string format ->
  " "%char ∉ String.list_ascii_of_string tempDir ->
  " "%char ∉ String.list_ascii_of_string (join w tempDir "source") ->
  fst (convert_task w bin tempDir installDir format) =
  [ ExecFile bin
      [ "-env:UserInstallation=file://" +:+ installDir; "--headless";
        "--convert-to"; format; "--outdir"; tempDir;
        join w tempDir "source" ] ].
Proof.
  intros Hi Hf Ht Hj. unfold convert_task, command. cbn [fst].
  do 2 f_equal.
  change ("-env:UserInstallation=file://" +:+ installDir +:+
          " --headless --convert-to " +:+ format +:+ " --outdir " +:+
          tempDir +:+ " " +:+ join w tempDir "source")
    with ("-env:UserInstallation=file://" +:+ (installDir +:+
          String " " ("--headless" +:+ String " " ("--convert-to" +:+
          String " " (format +:+ String " " ("--outdir" +:+
          String " " (tempDir +:+ String " " (join w tempDir "source")))))))).
  assert (forall a s, " "%char ∉ String.list_ascii_of_string a ->
            JS.split " " (a +:+ String " " s) = a :: JS.split " " s) as step.
  { intros a s Ha. rewrite (split_app_clean _ _ _ Ha). simpl.
    now rewrite string_app_empty_r. }
  rewrite (split_app_clean " " "-env:UserInstallation=file://")
    by (vm_compute; intros H;
        repeat (apply elem_of_cons in H as [H | H]; [discriminate|]);
        now apply elem_of_nil in H).
  rewrite (step installDir) by assumption.
  rewrite (step "--headless"), (step "--convert-to"), (step format),
    (step "--outdir"), (step tempDir), (split_clean _ _ Hj);
    try assumption;
    try (vm_compute; intros H;
         repeat (apply elem_of_cons in H as [H | H]; [discriminate|]);
         now apply elem_of_nil in H).
  reflexivity.
Qed.

Lemma split_length sep s :
  length (JS.split sep s) = S (occurrences sep s).
Proof.
  induction s as [|c s IH]; simpl; [reflexivity|].
  destruct (Ascii.eqb c sep); simpl; [now rewrite IH|].
  pose proof (split_not_nil sep s).
  destruct (JS.split sep s); [contradiction | exact IH].
Qed.

Lemma occurrences_app c (a b : string) :
  occurrences c (a +:+ b) = (occurrences c a + occurrences c b)%nat.
Proof.
  induction a as [|d a IH]; [reflexivity|].
  change (String d a +:+ b) with (String d (a +:+ b)). simpl.
  rewrite IH. lia.
Qed.

(** In general every space inside a directory, the format or the input
    path adds one argument to the seven intended ones. *)
Lemma args_length w bin tempDir installDir format :
  exists args,
    fst (convert_task w bin tempDir installDir format) = [ExecFile bin args] /\
    length args
    = (7 + occurrences " " installDir + occurrences " " format
       + occurrences " " tempDir
       + occurrences " " (join w tempDir "source"))%nat.
Proof.
  eexists. split; [reflexivity|].
  rewrite split_length. unfold command.
  rewrite !occurrences_app. simpl. lia.
Qed.

(** C8 holds for directories without spaces (above) and fails otherwise:
    the command line is built as one string and split on spaces, so with
    a temporary root such as [/tmp/my files] the engine gets ten
    arguments, and none of them is the profile directory, the staging
    directory or the input path. *)
Theorem args_split_inside_paths :
  fst (convert_task single_dot_engine "/usr/bin/soffice"
         "/tmp/my files/libreofficeConvert_-4711-k3VqXw8ZrT0a"
         "/tmp/my files/soffice-4711-Hq2mLp9sYb4c" ".pdf")
  = [ ExecFile "/usr/bin/soffice"
        [ "-env:UserInstallation=file:///tmp/my"; "files/soffice-4711-Hq2mLp9sYb4c";
          "--headless"; "--convert-to"; ".pdf"; "--outdir";
          "/tmp/my"; "files/libreofficeConvert_-4711-k3VqXw8ZrT0a";
          "/tmp/my"; "files/libreofficeConvert_-4711-k3VqXw8ZrT0a/source" ] ].
Proof. reflexivity. Qed.

(** ** The attachment filter and the name of the reply *)

Lemma array_includes_elem xs x : JS.array_includes xs x = true <-> x ∈ xs.
Proof.
  unfold JS.array_includes. induction xs as [|y xs IH]; simpl.
  - split; [discriminate | intros H; now apply elem_of_nil in H].
  - rewrite orb_true_iff, IH, elem_of_cons, String.eqb_eq. reflexivity.
Qed.

Lemma lastIndexOf_from_absent c s : forall i last,
  c ∉ String.list_ascii_of_string s -> JS.lastIndexOf_from c s i last = last.
Proof.
  induction s as [|d s IH]; intros i last Hn; simpl; [reflexivity|].
  simpl in Hn. destruct (Ascii.eqb d c) eqn:Hd.
  - apply Ascii.eqb_eq in Hd as ->. exfalso. apply Hn. constructor.
  - apply IH. intros H. apply Hn. now constructor.
Qed.

(** The position of a character followed by no further occurrence. *)
Lemma lastIndexOf_from_last c base ext : forall i last,
  c ∉ String.list_ascii_of_string ext ->
  JS.lastIndexOf_from c (base +:+ String c ext) i last
  = i + Z.of_nat (String.length base).
Proof.
  induction base as [|d base IH]; intros i last Hn.
  - change ("" +:+ String c ext) with (String c ext). simpl.
    rewrite Ascii.eqb_refl, lastIndexOf_from_absent by assumption. lia.
  - change (String d base +:+ String c ext)
      with (String d (base +:+ String c ext)).
    simpl JS.lastIndexOf_from. rewrite IH by assumption.
    simpl String.length. lia.
Qed.

Lemma substring_whole s : String.substring 0 (String.length s) s = s.
Proof. induction s as [|c s IH]; simpl; [reflexivity | now rewrite IH]. Qed.

Lemma substring_after c base ext n :
  String.substring (S (String.length base)) n (base +:+ String c ext)
  = String.substring 0 n ext.
Proof.
  induction base as [|d base IH].
  - change ("" +:+ String c ext) with (String c ext). reflexivity.
  - change (String d base +:+ String c ext)
      with (String d (base +:+ String c ext)).
    simpl. exact IH.
Qed.

(** Within bounds and in order, [substring] is the plain substring. *)
Lemma substring_in_bounds s (i j : nat) :
  (i <= j <= String.length s)%nat ->
  JS.substring s (Z.of_nat i) (Z.of_nat j) = String.substring i (j - i) s.
Proof.
  intros H. unfold JS.substring, JS.clamp.
  replace (Z.max 0 (Z.min (Z.of_nat i) (Z.of_nat (String.length s))))
    with (Z.of_nat i) by lia.
  replace (Z.max 0 (Z.min (Z.of_nat j) (Z.of_nat (String.length s))))
    with (Z.of_nat j) by lia.
  rewrite Z.min_l, Z.max_r by lia.
  rewrite Nat2Z.id. f_equal. lia.
Qed.

(** A negative end index counts as 0. *)
Lemma substring_to_negative s (j : Z) : j < 0 -> JS.substring s 0 j = "".
Proof.
  intros H. unfold JS.substring, JS.clamp.
  replace (Z.max 0 (Z.min 0 (Z.of_nat (String.length s)))) with 0 by lia.
  replace (Z.max 0 (Z.min j (Z.of_nat (String.length s)))) with 0 by lia.
  simpl. now destruct s.
Qed.

(** The extension is what follows the last dot. *)
Lemma extension_after_last_dot base ext :
  "."%char ∉ String.list_ascii_of_string ext ->
  extension (base +:+ "." +:+ ext) = ext.
Proof.
  intros Hn. unfold extension, JS.substring_from, JS.lastIndexOf.
  change (base +:+ "." +:+ ext) with (base +:+ String "." ext).
  rewrite lastIndexOf_from_last by assumption.
  assert (String.length (base +:+ String "." ext)
          = (S (String.length base) + String.length ext)%nat) as Hl
    by (rewrite string_length_app; simpl; lia).
  replace (0 + Z.of_nat (String.length base) + 1)
    with (Z.of_nat (S (String.length base))) by lia.
  rewrite substring_in_bounds by lia.
  rewrite substring_after, Hl.
  replace (S (String.length base) + String.length ext - S (String.length base))%nat
    with (String.length ext) by lia.
  apply substring_whole.
Qed.

(** Without a dot the extension is the whole name. *)
Lemma extension_dotless s :
  "."%char ∉ String.list_ascii_of_string s -> extension s = s.
Proof.
  intros Hn. unfold extension, JS.substring_from, JS.lastIndexOf.
  rewrite lastIndexOf_from_absent by assumption.
  change (-1 + 1) with (Z.of_nat 0).
  rewrite substring_in_bounds by lia.
  rewrite Nat.sub_0_r. apply substring_whole.
Qed.

(** Without a dot the reply is named [.pdf]. *)
Lemma newName_dotless s :
  "."%char ∉ String.list_ascii_of_string s -> newName s = ".pdf".
Proof.
  intros Hn. unfold newName, JS.lastIndexOf.
  rewrite lastIndexOf_from_absent by assumption.
  now rewrite substring_to_negative by lia.
Qed.

Lemma conversions_only_if b a :
  conversions (on_attachment b a) = 1%nat -> extension (name a) ∈ formats b.
Proof.
  unfold on_attachment.
  destruct (String.eqb (url a) ""); [discriminate|].
  destruct (JS.array_includes (formats b) (extension (name a))) eqn:Hi;
    [|discriminate].
  intros _. now apply array_includes_elem.
Qed.

Lemma conversions_if b a :
  url a <> "" -> is_Some (fetch b (url a)) ->
  extension (name a) ∈ formats b ->
  conversions (on_attachment b a) = 1%nat.
Proof.
  intros Hu [data Hd] Hi. unfold on_attachment.
  apply String.eqb_neq in Hu. apply array_includes_elem in Hi.
  rewrite Hu, Hi, Hd. simpl.
  destruct (converted b data ".pdf") as [[e|] [pdfData|]|]; reflexivity.
Qed.

Lemma not_allowed_ignored b a :
  extension (name a) ∉ formats b -> on_attachment b a = [].
Proof.
  intros Hn. unfold on_attachment.
  destruct (String.eqb (url a) ""); [reflexivity|].
  destruct (JS.array_includes (formats b) (extension (name a))) eqn:Hi;
    [|reflexivity].
  exfalso. apply Hn. now apply array_includes_elem.
Qed.

Lemma sent_file_name b a n data :
  SendFile n data ∈ on_attachment b a -> n = newName (name a).
Proof.
  unfold on_attachment.
  destruct (String.eqb (url a) "");
    [intros H; now apply elem_of_nil in H|].
  destruct (negb _); [intros H; now apply elem_of_nil in H|].
  intros H. apply elem_of_cons in H as [H | H]; [discriminate|].
  destruct (fetch b (url a)) as [fileData|]; [|now apply elem_of_nil in H].
  apply elem_of_cons in H as [H | H]; [discriminate|].
  destruct (converted b fileData ".pdf") as [[e|] [pdfData|]|];
    try (now apply elem_of_nil in H);
    apply elem_of_cons in H as [H | H];
    try discriminate; try (now apply elem_of_nil in H).
  now injection H.
Qed.

Lemma legacy_conversions_only_if b a :
  conversions (Legacy.on_attachment b a) = 1%nat ->
  extension (name a) ∈ Legacy.formats b.
Proof.
  unfold Legacy.on_attachment.
  destruct (String.eqb (url a) ""); [discriminate|].
  destruct (JS.array_includes (Legacy.formats b) (extension (name a))) eqn:Hi;
    [|discriminate].
  intros _. now apply array_includes_elem.
Qed.

Lemma legacy_conversions_if b a :
  url a <> "" -> (exists data, Legacy.get b (url a) = Legacy.Ended data) ->
  extension (name a) ∈ Legacy.formats b ->
  conversions (Legacy.on_attachment b a) = 1%nat.
Proof.
  intros Hu [data Hd] Hi. unfold Legacy.on_attachment.
  apply String.eqb_neq in Hu. apply array_includes_elem in Hi.
  rewrite Hu, Hi, Hd. simpl.
  destruct (Legacy.converted b data ".pdf"); reflexivity.
Qed.

Lemma legacy_not_allowed_ignored b a :
  extension (name a) ∉ Legacy.formats b -> Legacy.on_attachment b a = [].
Proof.
  intros Hn. unfold Legacy.on_attachment.
  destruct (String.eqb (url a) ""); [reflexivity|].
  destruct (JS.array_includes (Legacy.formats b) (extension (name a))) eqn:Hi;
    [|reflexivity].
  exfalso. apply Hn. now apply array_includes_elem.
Qed.

Lemma legacy_sent_file_name b a n data :
  SendFile n data ∈ Legacy.on_attachment b a -> n = newName (name a).
Proof.
  unfold Legacy.on_attachment.
  destruct (String.eqb (url a) "");
    [intros H; now apply elem_of_nil in H|].
  destruct (negb _); [intros H; now apply elem_of_nil in H|].
  intros H. apply elem_of_cons in H as [H | H]; [discriminate|].
  destruct (Legacy.get b (url a)) as [fileData| |].
  - apply elem_of_cons in H as [H | H]; [discriminate|].
    destruct (Legacy.converted b fileData ".pdf");
      apply elem_of_cons in H as [H | H];
      try discriminate; try (now apply elem_of_nil in H).
    now injection H.
  - apply elem_of_cons in H as [H | H]; [discriminate|].
    now apply elem_of_nil in H.
  - now apply elem_of_nil in H.
Qed.

(** C9, as the code has it.  In both handlers, a message that is not the
    bot's own and is not answered by the debug reply is handled attachment
    by attachment.  The extension of a file name is what follows its last
    dot.  An attachment whose extension is not in the comma-separated
    allow-list is ignored: nothing is downloaded and nothing is
    converted.  For an attachment with a non-empty URL whose download
    succeeds, [convert] is called exactly once if and only if the
    extension is in the allow-list. *)
Theorem convert_iff_extension_allowed (b : Bot) (lb : Legacy.Bot)
    (msg : Message) (a : Attachment) :
  from_self msg = false ->
  JS.includes "debug" (content msg) && debug_allowed msg = false ->
  messageCreate b msg = map (on_attachment b) (attachments msg) /\
  Legacy.message lb msg = map (Legacy.on_attachment lb) (attachments msg) /\
  (forall base ext,
     name a = base +:+ "." +:+ ext ->
     "."%char ∉ String.list_ascii_of_string ext ->
     extension (name a) = ext) /\
  (extension (name a) ∉ formats b -> on_attachment b a = []) /\
  (extension (name a) ∉ Legacy.formats lb -> Legacy.on_attachment lb a = []) /\
  (url a <> "" -> is_Some (fetch b (url a)) ->
   (conversions (on_attachment b a) = 1%nat
    <-> extension (name a) ∈ formats b)) /\
  (url a <> "" -> (exists data, Legacy.get lb (url a) = Legacy.Ended data) ->
   (conversions (Legacy.on_attachment lb a) = 1%nat
    <-> extension (name a) ∈ Legacy.formats lb)).
Proof.
  intros Hs Hd. repeat apply conj.
  - unfold messageCreate. now rewrite Hs, Hd.
  - unfold Legacy.message. now rewrite Hs, Hd.
  - intros base ext -> Hn. now apply extension_after_last_dot.
  - apply not_allowed_ignored.
  - apply legacy_not_allowed_ignored.
  - intros Hu Hf. split; [apply conversions_only_if | now apply conversions_if].
  - intros Hu Hf.
    split; [apply legacy_conversions_only_if | now apply legacy_conversions_if].
Qed.

Lemma convert_iff_extension_allowed_witness :
  messageCreate office_bot
    {| from_self := false; content := "please convert"; debug_allowed := true;
       attachments := [ {| name := "report.docx";
                           url := "https://cdn.example/report.docx" |} ] |}
  = [ on_attachment office_bot
        {| name := "report.docx"; url := "https://cdn.example/report.docx" |} ] /\
  (conversions
     (on_attachment office_bot
        {| name := "report.docx"; url := "https://cdn.example/report.docx" |})
   = 1%nat
   <-> extension "report.docx" ∈ formats office_bot) /\
  (conversions
     (Legacy.on_attachment legacy_bot
        {| name := "report.docx"; url := "https://cdn.example/report.docx" |})
   = 1%nat
   <-> extension "report.docx" ∈ Legacy.formats legacy_bot).
Proof.
  destruct (convert_iff_extension_allowed office_bot legacy_bot
              {| from_self := false; content := "please convert";
                 debug_allowed := true;
                 attachments := [ {| name := "report.docx";
                                     url := "https://cdn.example/report.docx" |} ] |}
              {| name := "report.docx"; url := "https://cdn.example/report.docx" |}
              eq_refl eq_refl) as (Hm & _ & _ & _ & _ & Hc & Hl).
  split; [exact Hm|]. split.
  - apply Hc; [discriminate | eexists; reflexivity].
  - apply Hl; [discriminate | eexists; reflexivity].
Defined.

(** C9 as stated fails: the extension [docx] is in the allow-list, yet
    nothing is converted when the attachment has no URL, when its
    download fails, when the message is the bot's own, or when the
    message is answered by the debug reply. *)
Lemma allowed_extension_not_converted :
  extension "report.docx" = "docx" /\
  "docx" ∈ formats office_bot /\
  on_attachment office_bot {| name := "report.docx"; url := "" |} = [] /\
  on_attachment office_bot
    {| name := "report.docx"; url := "https://cdn.invalid/report.docx" |}
  = [Fetch "https://cdn.invalid/report.docx"] /\
  conversions
    (on_attachment office_bot
       {| name := "report.docx"; url := "https://cdn.invalid/report.docx" |})
  = 0%nat /\
  messageCreate office_bot
    {| from_self := true; content := ""; debug_allowed := false;
       attachments := [ {| name := "report.docx";
                           url := "https://cdn.example/report.docx" |} ] |}
  = [] /\
  messageCreate office_bot
    {| from_self := false; content := "debug"; debug_allowed := true;
       attachments := [ {| name := "report.docx";
                           url := "https://cdn.example/report.docx" |} ] |}
  = [[ReplyDebug]] /\
  Legacy.on_attachment legacy_bot {| name := "report.docx"; url := "" |} = [] /\
  Legacy.on_attachment legacy_bot
    {| name := "report.docx"; url := "https://cdn.invalid/report.docx" |}
  = [Fetch "https://cdn.invalid/report.docx"].
Proof.
  repeat split; try reflexivity.
  apply elem_of_cons. now left.
Qed.

(** C10, as the code has it.  For a file name without a dot the extension
    is the whole name, so (for an attachment with a non-empty URL whose
    download succeeds) the file is converted exactly when its whole name
    is in the allow-list; the reply is then named [.pdf]: the end index
    [-1] of [substring] counts as 0, so nothing of the name is kept.
    Both handlers behave so. *)
Theorem dotless_name_converted_as_dot_pdf (b : Bot) (lb : Legacy.Bot)
    (a : Attachment) :
  "."%char ∉ String.list_ascii_of_string (name a) ->
  extension (name a) = name a /\
  (url a <> "" -> is_Some (fetch b (url a)) ->
   (conversions (on_attachment b a) = 1%nat <-> name a ∈ formats b)) /\
  (url a <> "" -> (exists data, Legacy.get lb (url a) = Legacy.Ended data) ->
   (conversions (Legacy.on_attachment lb a) = 1%nat
    <-> name a ∈ Legacy.formats lb)) /\
  newName (name a) = ".pdf" /\
  (forall n data, SendFile n data ∈ on_attachment b a -> n = ".pdf") /\
  (forall n data, SendFile n data ∈ Legacy.on_attachment lb a -> n = ".pdf").
Proof.
  intros Hn. pose proof (extension_dotless _ Hn) as He.
  pose proof (newName_dotless _ Hn) as Hp.
  repeat apply conj.
  - exact He.
  - intros Hu Hf. rewrite <- He at 1.
    split; [apply conversions_only_if | now apply conversions_if].
  - intros Hu Hf. rewrite <- He at 1.
    split; [apply legacy_conversions_only_if | now apply legacy_conversions_if].
  - exact Hp.
  - intros n data H. now apply sent_file_name in H as ->.
  - intros n data H. now apply legacy_sent_file_name in H as ->.
Qed.

Lemma dotless_name_converted_as_dot_pdf_witness :
  extension "README" = "README" /\
  (conversions
     (on_attachment office_bot
        {| name := "README"; url := "https://cdn.example/README" |}) = 1%nat
   <-> "README" ∈ formats office_bot) /\
  newName "README" = ".pdf".
Proof.
  destruct (dotless_name_converted_as_dot_pdf office_bot legacy_bot
              {| name := "README"; url := "https://cdn.example/README" |})
    as (He & Hc & _ & Hn & _).
  - simpl. intros H.
    repeat (apply elem_of_cons in H as [H | H]; [discriminate|]).
    now apply elem_of_nil in H.
  - split; [exact He|]. split; [|exact Hn].
    apply Hc; [discriminate | eexists; reflexivity].
Defined.

(** C10 as stated fails: [README] is converted, and the reply is named
    [.pdf], not [READM.pdf]. *)
Lemma dotless_name_not_truncated :
  on_attachment office_bot
    {| name := "README"; url := "https://cdn.example/README" |}
  = [ Fetch "https://cdn.example/README"; Convert hello ".pdf";
      SendFile ".pdf" pdf_ok ] /\
  Legacy.on_attachment legacy_bot
    {| name := "README"; url := "https://cdn.example/README" |}
  = [ Fetch "https://cdn.example/README"; Convert hello ".pdf";
      SendFile ".pdf" pdf_ok ] /\
  newName "README" <> "READM" +:+ ".pdf".
Proof. repeat split; discriminate. Qed.

(** * Further properties *)

(** ** The outcome of a run *)

Lemma callbacks_app l1 l2 : callbacks (l1 ++ l2) = callbacks l1 ++ callbacks l2.
Proof. apply omap_app. Qed.

Lemma spawns_app l1 l2 : spawns (l1 ++ l2) = spawns l1 ++ spawns l2.
Proof. apply omap_app. Qed.

Lemma writes_app l1 l2 : writes (l1 ++ l2) = writes l1 ++ writes l2.
Proof. apply omap_app. Qed.

Lemma probes_only ps :
  callbacks (map Access ps) = [] /\ spawns (map Access ps) = [] /\
  writes (map Access ps) = [].
Proof. induction ps as [|p ps (H1 & H2 & H3)]; repeat split; assumption. Qed.

Lemma reads_only w tempDir format :
  callbacks (fst (loadDestination w tempDir format)) = [] /\
  spawns (fst (loadDestination w tempDir format)) = [] /\
  writes (fst (loadDestination w tempDir format)) = [].
Proof.
  destruct (loadDestination_events w tempDir format) as (n & _ & ->).
  induction n as [|n (H1 & H2 & H3)]; repeat split; assumption.
Qed.


Lemma callbacks_finish w tempDir installDir err res :
  callbacks (finish w tempDir installDir err res)
  = if removed w tempDir installDir
    then [ match err with
           | Some e => (Some e, None)
           | None =>
               match res with
               | None => (Some NoResult, None)
               | Some r => (None, r_loadDestination r)
               end
           end ]
    else [].
Proof.
  unfold finish, removed.
  destruct (removeCallback w tempDir); [reflexivity|].
  destruct (removeCallback w installDir); [reflexivity|].
  now destruct err, res.
Qed.

Lemma finish_only w tempDir installDir err res :
  spawns (finish w tempDir installDir err res) = [] /\
  writes (finish w tempDir installDir err res) = [].
Proof.
  unfold finish.
  destruct (removeCallback w tempDir); [now split|].
  destruct (removeCallback w installDir); [now split|].
  now destruct err, res.
Qed.

Lemma later_only w tempDir installDir task err :
  callbacks (later w tempDir installDir (Completed task err)) = [] /\
  spawns (later w tempDir installDir (Completed task err)) = [] /\
  writes (later w tempDir installDir (Completed task err)) = [].
Proof. unfold later. now destruct (removed w tempDir installDir). Qed.

Lemma callbacks_dependents w tempDir installDir format bin :
  callbacks (dependents w tempDir installDir format bin)
  = reported w tempDir installDir
      (dependents_outcome w tempDir installDir format bin).
Proof.
  unfold dependents, dependents_outcome, convert_task, failed, reported.
  cbn [app].
  change (callbacks (ExecFile ?f ?a :: ?l)) with (callbacks l).
  destruct (execFile w bin _) as [[e|]|]; [| |reflexivity].
  - change (callbacks (Completed ?t ?o :: ?l)) with (callbacks l).
    apply callbacks_finish.
  - change (callbacks (Completed ?t ?o :: ?l)) with (callbacks l).
    pose proof (reads_only w tempDir format) as (Hr & _ & _).
    destruct (loadDestination w tempDir format) as [reads [e|data]];
      cbn [fst snd] in *; rewrite callbacks_app, Hr; cbn [app];
      change (callbacks (Completed ?t ?o :: ?l)) with (callbacks l);
      apply callbacks_finish.
Qed.

Lemma callbacks_convert w tempDir installDir document format :
  callbacks (convert w tempDir installDir document format)
  = reported w tempDir installDir
      (run_outcome w tempDir installDir document format).
Proof.
  pose proof (callbacks_dependents w tempDir installDir format) as Hd.
  unfold convert, run_outcome, soffice, saveSource, failed.
  destruct (paths w) as [ps|];
    cbn -[dependents callbacks finish later reported].
  - change (callbacks (?a :: ?b :: ?l)) with (callbacks l).
    rewrite callbacks_app, (proj1 (probes_only ps)). cbn [app].
    change (callbacks (WriteFile ?p ?d :: ?l)) with (callbacks l).
    destruct (List.filter (access w) ps) as [|bin r];
      destruct (saveSource_first w);
      destruct (writeFile w _ document) as [e|];
      cbn -[dependents callbacks finish later reported];
      repeat change (callbacks (Completed ?a ?b :: ?l)) with (callbacks l);
      rewrite ?callbacks_app, ?(proj1 (later_only _ _ _ _ _)), ?app_nil_r;
      first [apply Hd | apply callbacks_finish].
  - change (callbacks (?a :: ?b :: ?c :: ?l)) with (callbacks l).
    apply callbacks_finish.
Qed.

Lemma callbacks_convert_call w document format :
  callbacks (convert_call w document format) =
  match dirSync w "libreofficeConvert_", dirSync w "soffice" with
  | inr tempDir, inr installDir =>
      reported w tempDir installDir
        (run_outcome w tempDir installDir document format)
  | _, _ => []
  end.
Proof.
  unfold convert_call.
  destruct (dirSync w "libreofficeConvert_") as [e|tempDir]; [reflexivity|].
  destruct (dirSync w "soffice") as [e|installDir]; [reflexivity|].
  apply callbacks_convert.
Qed.

(** Nothing is handed to the final callback exactly when the engine has
    been spawned and does not exit. *)
Lemma run_outcome_none w tempDir installDir document format :
  run_outcome w tempDir installDir document format = None <->
  exists bin,
    snd (soffice w) = inr bin /\
    writeFile w (join w tempDir "source") document = None /\
    execFile w bin (JS.split " " (command w tempDir installDir format)) = Running.
Proof.
  unfold run_outcome, dependents_outcome, soffice.
  destruct (paths w) as [ps|]; cbn [snd].
  - destruct (List.filter (access w) ps) as [|bin r];
      destruct (saveSource_first w);
      destruct (writeFile w _ document) as [e|];
      try (split; [discriminate | intros (bin' & H1 & H2 & H3); congruence]).
    all: destruct (execFile w bin _) as [[e|]|] eqn:Hx;
      try destruct (snd (loadDestination w tempDir format));
      (split;
       [ try discriminate; intros _; exists bin; auto
       | intros (bin' & Hb & _ & H3); injection Hb as <-; congruence ]).
  - split; [discriminate | intros (bin' & H1 & _); discriminate].
Qed.

Lemma run_outcome_error_or_data w tempDir installDir document format r :
  run_outcome w tempDir installDir document format = Some r ->
  (exists e, r = (Some e, None)) \/ (exists data, r = (None, Some data)).
Proof.
  unfold run_outcome, dependents_outcome.
  destruct (paths w); [|intros [= <-]; eauto].
  destruct (saveSource_first w), (writeFile w _ document), (snd (soffice w));
    try (intros [= <-]; eauto; fail);
    destruct (execFile w _ _) as [[e|]|]; try discriminate;
    try (intros [= <-]; eauto; fail);
    destruct (snd (loadDestination w tempDir format)); intros [= <-]; eauto.
Qed.

Lemma loadDestination_result w tempDir format :
  snd (loadDestination w tempDir format) =
  match readFile w 1 (destination w tempDir format) with
  | inr data => inr data
  | inl _ =>
      match readFile w 2 (destination w tempDir format) with
      | inr data => inr data
      | inl _ => readFile w 3 (destination w tempDir format)
      end
  end.
Proof.
  unfold loadDestination, retry. simpl.
  destruct (readFile w 1 _); [|reflexivity].
  destruct (readFile w 2 _); [|reflexivity].
  destruct (readFile w 3 _); reflexivity.
Qed.

(** The data of the first of the three attempts that succeeds. *)
Lemma loadDestination_succeeds w tempDir format data :
  snd (loadDestination w tempDir format) = inr data <->
  exists k, (1 <= k <= 3)%nat /\
    (forall j, (1 <= j < k)%nat ->
       exists e, readFile w j (destination w tempDir format) = inl e) /\
    readFile w k (destination w tempDir format) = inr data.
Proof.
  rewrite loadDestination_result. split.
  - destruct (readFile w 1 _) as [e1|d1] eqn:H1.
    + destruct (readFile w 2 _) as [e2|d2] eqn:H2.
      * intros H3. exists 3%nat. split; [lia|]. split; [|exact H3].
        intros j Hj. assert (j = 1 \/ j = 2)%nat as [-> | ->] by lia; eauto.
      * intros [= ->]. exists 2%nat. split; [lia|]. split; [|exact H2].
        intros j Hj. assert (j = 1)%nat as -> by lia. eauto.
    + intros [= ->]. exists 1%nat. split; [lia|]. split; [|exact H1].
      intros j Hj. lia.
  - intros (k & Hk & Hfail & Hok).
    assert (k = 1 \/ k = 2 \/ k = 3)%nat as [-> | [-> | ->]] by lia.
    + now rewrite Hok.
    + destruct (Hfail 1%nat ltac:(lia)) as [e1 ->]. now rewrite Hok.
    + destruct (Hfail 1%nat ltac:(lia)) as [e1 ->].
      destruct (Hfail 2%nat ltac:(lia)) as [e2 ->]. exact Hok.
Qed.

Lemma soffice_located_supported w bin :
  snd (soffice w) = inr bin ->
  exists ps, paths w = Some ps /\ bin ∈ ps /\ access w bin = true.
Proof.
  unfold soffice. destruct (paths w) as [ps|]; [|discriminate]. simpl.
  destruct (List.filter (access w) ps) as [|bin' r] eqn:Hf; [discriminate|].
  intros [= ->]. exists ps. split; [reflexivity|].
  destruct (filter_cons_inv _ _ _ _ Hf) as (before & after & -> & _ & Hx).
  split; [|exact Hx]. apply elem_of_app. right. constructor.
Qed.

Lemma removed_true w tempDir installDir :
  removed w tempDir installDir = true <->
  removeCallback w tempDir = None /\ removeCallback w installDir = None.
Proof.
  unfold removed.
  destruct (removeCallback w tempDir), (removeCallback w installDir);
    split; try discriminate; try (intros [H1 H2]; discriminate); auto.
Qed.

Lemma run_outcome_success w tempDir installDir document format data :
  run_outcome w tempDir installDir document format = Some (None, Some data) <->
  exists bin k,
    snd (soffice w) = inr bin /\
    writeFile w (join w tempDir "source") document = None /\
    execFile w bin (JS.split " " (command w tempDir installDir format))
    = Exited None /\
    (1 <= k <= 3)%nat /\
    (forall j, (1 <= j < k)%nat ->
       exists e, readFile w j (destination w tempDir format) = inl e) /\
    readFile w k (destination w tempDir format) = inr data.
Proof.
  split.
  - unfold run_outcome, dependents_outcome.
    destruct (paths w); [|discriminate].
    destruct (snd (soffice w)) as [e|bin];
      [destruct (saveSource_first w), (writeFile w _ document); discriminate|].
    destruct (writeFile w _ document);
      [destruct (saveSource_first w); discriminate|].
    assert (forall o : option (option Error * option bytes),
              (if saveSource_first w then o else o) = o) as ->
      by (intros; now destruct (saveSource_first w)).
    destruct (execFile w bin _) as [[e|]|] eqn:Hx; try discriminate.
    destruct (snd (loadDestination w tempDir format)) as [e|data'] eqn:Hl;
      [discriminate|].
    intros [= ->]. apply loadDestination_succeeds in Hl as (k & Hk & Hf & Hok).
    exists bin, k. repeat split; auto; lia.
  - intros (bin & k & Hs & Hw & Hx & Hk & Hf & Hok).
    destruct (soffice_located_supported w bin Hs) as (ps & Hp & _).
    assert (snd (loadDestination w tempDir format) = inr data) as Hl
      by (apply loadDestination_succeeds; eauto).
    unfold run_outcome, dependents_outcome. rewrite Hp, Hs, Hw, Hx, Hl.
    now destruct (saveSource_first w).
Qed.

(** X1. The result callback is called at most once, and when it is
    called it gets either an error and no data, or no error and the data:
    never both and never neither.  It is called if and only if
    [tmp.dirSync] makes both directories, both removals of the teardown
    return, and the engine, if it is spawned, exits. *)
Theorem callback_gets_error_or_data (w : World) (document : bytes)
    (format : string) :
  (length (callbacks (convert_call w document format)) <= 1)%nat /\
  (forall r, r ∈ callbacks (convert_call w document format) ->
     (exists e, r = (Some e, None)) \/ (exists data, r = (None, Some data))) /\
  (callbacks (convert_call w document format) <> [] <->
   exists tempDir installDir,
     dirSync w "libreofficeConvert_" = inr tempDir /\
     dirSync w "soffice" = inr installDir /\
     removeCallback w tempDir = None /\ removeCallback w installDir = None /\
     forall bin,
       snd (soffice w) = inr bin ->
       writeFile w (join w tempDir "source") document = None ->
       execFile w bin (JS.split " " (command w tempDir installDir format))
       <> Running).
Proof.
  rewrite callbacks_convert_call.
  destruct (dirSync w "libreofficeConvert_") as [e1|tempDir].
  { split; [simpl; lia|]. split; [intros r H; now apply elem_of_nil in H|].
    split; [now intros H | intros (t & i & H & _); discriminate]. }
  destruct (dirSync w "soffice") as [e2|installDir].
  { split; [simpl; lia|]. split; [intros r H; now apply elem_of_nil in H|].
    split; [now intros H | intros (t & i & _ & H & _); discriminate]. }
  unfold reported.
  destruct (run_outcome w tempDir installDir document format) as [r|] eqn:Ho.
  - destruct (removed w tempDir installDir) eqn:Hr.
    + apply removed_true in Hr as [H1 H2].
      split; [simpl; lia|]. split.
      * intros r' H. apply list_elem_of_singleton in H as ->.
        eapply run_outcome_error_or_data, Ho.
      * split; [|discriminate]. intros _. exists tempDir, installDir.
        repeat split; try assumption.
        intros bin Hs Hw Hx.
        assert (run_outcome w tempDir installDir document format = None)
          as Hn by (apply run_outcome_none; eauto).
        congruence.
    + split; [simpl; lia|]. split; [intros r' H; now apply elem_of_nil in H|].
      split; [now intros H|].
      intros (t & i & [= <-] & [= <-] & H1 & H2 & _).
      assert (removed w tempDir installDir = true)
        by (apply removed_true; auto).
      congruence.
  - split; [simpl; lia|]. split; [intros r' H; now apply elem_of_nil in H|].
    split; [now intros H|].
    intros (t & i & [= <-] & [= <-] & _ & _ & Hx).
    apply run_outcome_none in Ho as (bin & Hs & Hw & Hr).
    exfalso. now apply (Hx bin).
Qed.

(** Three calls that never call back: the profile directory cannot be
    made, the staging directory cannot be removed, the engine does not
    exit. *)
Example calls_without_callback :
  convert_call no_profile hello ".pdf"
  = [DirSync "libreofficeConvert_" staging; Throw (SysError "ENOSPC")] /\
  callbacks (convert_call staging_gone hello ".pdf") = [] /\
  callbacks (convert_call hanging_engine hello ".pdf") = [].
Proof. repeat split. Qed.

(** X2. A call succeeds, with the callback getting [data] and no error,
    if and only if [tmp.dirSync] makes both directories, the locator
    finds a binary, the input is written, the engine exits with code 0,
    one of the three reads succeeds and both removals of the teardown
    return; [data] is what the first successful read returns. *)
Theorem run_succeeds_iff (w : World) (document : bytes) (format : string)
    (data : bytes) :
  callbacks (convert_call w document format) = [(None, Some data)]
  <->
  exists tempDir installDir bin k,
    dirSync w "libreofficeConvert_" = inr tempDir /\
    dirSync w "soffice" = inr installDir /\
    snd (soffice w) = inr bin /\
    writeFile w (join w tempDir "source") document = None /\
    execFile w bin (JS.split " " (command w tempDir installDir format))
    = Exited None /\
    (1 <= k <= 3)%nat /\
    (forall j, (1 <= j < k)%nat ->
       exists e, readFile w j (destination w tempDir format) = inl e) /\
    readFile w k (destination w tempDir format) = inr data /\
    removeCallback w tempDir = None /\ removeCallback w installDir = None.
Proof.
  rewrite callbacks_convert_call. split.
  - destruct (dirSync w "libreofficeConvert_") as [e1|tempDir]; [discriminate|].
    destruct (dirSync w "soffice") as [e2|installDir]; [discriminate|].
    unfold reported.
    destruct (run_outcome w tempDir installDir document format) as [r|] eqn:Ho;
      [|discriminate].
    destruct (removed w tempDir installDir) eqn:Hr; [|discriminate].
    intros [= ->]. apply removed_true in Hr as [H1 H2].
    apply run_outcome_success in Ho as (bin & k & Hs & Hw & Hx & Hk & Hf & Hok).
    exists tempDir, installDir, bin, k. repeat split; auto; lia.
  - intros (tempDir & installDir & bin & k & -> & -> & Hs & Hw & Hx & Hk & Hf
            & Hok & H1 & H2).
    assert (run_outcome w tempDir installDir document format
            = Some (None, Some data)) as ->
      by (apply run_outcome_success; exists bin, k;
          repeat split; try assumption; lia).
    unfold reported.
    assert (removed w tempDir installDir = true) as ->
      by (apply removed_true; auto).
    reflexivity.
Qed.

Lemma run_succeeds_iff_witness :
  callbacks (convert_call double_dot_engine hello ".pdf")
  = [(None, Some pdf_ok)].
Proof.
  apply (run_succeeds_iff double_dot_engine hello ".pdf" pdf_ok).
  exists staging, profile, "/usr/bin/soffice", 2%nat.
  repeat split; try reflexivity; try lia.
  intros j Hj. assert (j = 1%nat) as -> by lia.
  exists (SysError "ENOENT"). reflexivity.
Defined.

(** X3. When [tmp.dirSync] has made both directories and both removals
    of the teardown return, the callback gets the error of the stage
    that fails first: the locator's error unless the write has failed
    before it; the write error unless the locator has failed before it;
    the engine's error when both have succeeded and the engine exits
    with an error; and, when the engine has exited with code 0 and all
    three reads fail, the error of the third read.  When the locator and
    the write both fail, the one that completes first decides. *)
Theorem first_error_is_reported (w : World) (tempDir installDir : string)
    (document : bytes) (format : string) :
  dirSync w "libreofficeConvert_" = inr tempDir ->
  dirSync w "soffice" = inr installDir ->
  removeCallback w tempDir = None -> removeCallback w installDir = None ->
  (forall e, snd (soffice w) = inl e ->
     paths w = None \/ saveSource_first w = false \/
       writeFile w (join w tempDir "source") document = None ->
     callbacks (convert_call w document format) = [(Some e, None)]) /\
  (forall e, writeFile w (join w tempDir "source") document = Some e ->
     is_Some (paths w) ->
     saveSource_first w = true \/ (exists bin, snd (soffice w) = inr bin) ->
     callbacks (convert_call w document format) = [(Some e, None)]) /\
  (forall bin e, snd (soffice w) = inr bin ->
     writeFile w (join w tempDir "source") document = None ->
     execFile w bin (JS.split " " (command w tempDir installDir format))
     = Exited (Some e) ->
     callbacks (convert_call w document format) = [(Some e, None)]) /\
  (forall bin e1 e2 e3, snd (soffice w) = inr bin ->
     writeFile w (join w tempDir "source") document = None ->
     execFile w bin (JS.split " " (command w tempDir installDir format))
     = Exited None ->
     readFile w 1 (destination w tempDir format) = inl e1 ->
     readFile w 2 (destination w tempDir format) = inl e2 ->
     readFile w 3 (destination w tempDir format) = inl e3 ->
     callbacks (convert_call w document format) = [(Some e3, None)]).
Proof.
  intros Ht Hi H1 H2. rewrite callbacks_convert_call, Ht, Hi.
  unfold reported.
  assert (removed w tempDir installDir = true) as Hr
    by (apply removed_true; auto).
  unfold run_outcome, dependents_outcome.
  repeat apply conj.
  - intros e Hs Hc. rewrite Hs.
    destruct (paths w) eqn:Hp.
    + destruct Hc as [Hc | [-> | ->]]; [discriminate | now rewrite Hr |].
      destruct (saveSource_first w); now rewrite Hr.
    + revert Hs. unfold soffice. rewrite Hp. intros [= <-]. now rewrite Hr.
  - intros e Hw [ps Hp] Hc. rewrite Hp, Hw.
    destruct Hc as [-> | [bin ->]]; [now rewrite Hr|].
    destruct (saveSource_first w); now rewrite Hr.
  - intros bin e Hs Hw Hx.
    destruct (soffice_located_supported w bin Hs) as (ps & Hp & _).
    rewrite Hp, Hs, Hw, Hx. destruct (saveSource_first w); now rewrite Hr.
  - intros bin e1 e2 e3 Hs Hw Hx Ha1 Ha2 Ha3.
    destruct (soffice_located_supported w bin Hs) as (ps & Hp & _).
    rewrite Hp, Hs, Hw, Hx, loadDestination_result, Ha1, Ha2, Ha3.
    destruct (saveSource_first w); now rewrite Hr.
Qed.

(** Nothing can be written and no binary is found; the write fails first. *)
Lemma first_error_is_reported_witness :
  callbacks (convert_call full_disk hello ".pdf")
  = [(Some (SysError "ENOSPC"), None)].
Proof.
  destruct (first_error_is_reported full_disk staging profile hello ".pdf"
              eq_refl eq_refl eq_refl eq_refl)
    as (_ & Hw & _).
  apply (Hw (SysError "ENOSPC")).
  - reflexivity.
  - eexists; reflexivity.
  - left; reflexivity.
Defined.

Lemma spawns_dependents w tempDir installDir format bin :
  spawns (dependents w tempDir installDir format bin)
  = [(bin, JS.split " " (command w tempDir installDir format))].
Proof.
  unfold dependents, convert_task, failed. cbn [app].
  change (spawns (ExecFile ?f ?a :: ?l)) with ((f, a) :: spawns l).
  f_equal.
  destruct (execFile w bin _) as [[e|]|]; [| |reflexivity].
  - change (spawns (Completed ?t ?o :: ?l)) with (spawns l).
    apply finish_only.
  - change (spawns (Completed ?t ?o :: ?l)) with (spawns l).
    pose proof (reads_only w tempDir format) as (_ & Hr & _).
    destruct (loadDestination w tempDir format) as [reads [e|data]];
      cbn [fst snd] in *; rewrite spawns_app, Hr; cbn [app];
      change (spawns (Completed ?t ?o :: ?l)) with (spawns l);
      apply finish_only.
Qed.

Lemma writes_dependents w tempDir installDir format bin :
  writes (dependents w tempDir installDir format bin) = [].
Proof.
  unfold dependents, convert_task, failed. cbn [app].
  change (writes (ExecFile ?f ?a :: ?l)) with (writes l).
  destruct (execFile w bin _) as [[e|]|]; [| |reflexivity].
  - change (writes (Completed ?t ?o :: ?l)) with (writes l).
    apply finish_only.
  - change (writes (Completed ?t ?o :: ?l)) with (writes l).
    pose proof (reads_only w tempDir format) as (_ & _ & Hr).
    destruct (loadDestination w tempDir format) as [reads [e|data]];
      cbn [fst snd] in *; rewrite writes_app, Hr; cbn [app];
      change (writes (Completed ?t ?o :: ?l)) with (writes l);
      apply finish_only.
Qed.

Lemma spawns_convert w tempDir installDir document format :
  spawns (convert w tempDir installDir document format) =
  match snd (soffice w), writeFile w (join w tempDir "source") document with
  | inr bin, None => [(bin, JS.split " " (command w tempDir installDir format))]
  | _, _ => []
  end.
Proof.
  pose proof (spawns_dependents w tempDir installDir format) as Hd.
  unfold convert, soffice, saveSource, failed.
  destruct (paths w) as [ps|];
    cbn -[dependents spawns command finish later].
  - change (spawns (?a :: ?b :: ?l)) with (spawns l).
    rewrite spawns_app, (proj1 (proj2 (probes_only ps))). cbn [app].
    change (spawns (WriteFile ?p ?d :: ?l)) with (spawns l).
    destruct (List.filter (access w) ps) as [|bin r];
      destruct (saveSource_first w);
      destruct (writeFile w _ document) as [e|];
      cbn -[dependents spawns command finish later];
      repeat change (spawns (Completed ?a ?b :: ?l)) with (spawns l);
      rewrite ?spawns_app, ?(proj1 (proj2 (later_only _ _ _ _ _))), ?app_nil_r;
      first [apply Hd | apply finish_only].
  - change (spawns (?a :: ?b :: ?c :: ?l)) with (spawns l).
    apply finish_only.
Qed.

Lemma writes_convert w tempDir installDir document format :
  writes (convert w tempDir installDir document format) =
  match paths w with
  | Some _ => [(join w tempDir "source", document)]
  | None => []
  end.
Proof.
  pose proof (writes_dependents w tempDir installDir format) as Hd.
  unfold convert, soffice, saveSource, failed.
  destruct (paths w) as [ps|];
    cbn -[dependents writes finish later].
  - change (writes (?a :: ?b :: ?l)) with (writes l).
    rewrite writes_app, (proj2 (proj2 (probes_only ps))). cbn [app].
    change (writes (WriteFile ?p ?d :: ?l)) with ((p, d) :: writes l).
    f_equal.
    destruct (List.filter (access w) ps) as [|bin r];
      destruct (saveSource_first w);
      destruct (writeFile w _ document) as [e|];
      cbn -[dependents writes finish later];
      repeat change (writes (Completed ?a ?b :: ?l)) with (writes l);
      rewrite ?writes_app, ?(proj2 (proj2 (later_only _ _ _ _ _))), ?app_nil_r;
      first [apply Hd | apply finish_only].
  - change (writes (?a :: ?b :: ?c :: ?l)) with (writes l).
    apply finish_only.
Qed.

(** X4. A run spawns at most one process.  It spawns one exactly when the
    locator has found a binary and the input has been written; the file
    executed is then that binary, which is a candidate of the platform
    that existed when probed, and the arguments are the command line
    split on spaces. *)
Theorem one_spawn_of_the_located_binary (w : World) (tempDir installDir : string)
    (document : bytes) (format : string) :
  (length (spawns (convert w tempDir installDir document format)) <= 1)%nat /\
  (forall file args,
     (file, args) ∈ spawns (convert w tempDir installDir document format) <->
     snd (soffice w) = inr file /\
     writeFile w (join w tempDir "source") document = None /\
     args = JS.split " " (command w tempDir installDir format)) /\
  (forall file args,
     (file, args) ∈ spawns (convert w tempDir installDir document format) ->
     exists ps, paths w = Some ps /\ file ∈ ps /\ access w file = true).
Proof.
  rewrite spawns_convert.
  assert (forall file args,
     (file, args) ∈
       match snd (soffice w), writeFile w (join w tempDir "source") document with
       | inr bin, None => [(bin, JS.split " " (command w tempDir installDir format))]
       | _, _ => []
       end <->
     snd (soffice w) = inr file /\
     writeFile w (join w tempDir "source") document = None /\
     args = JS.split " " (command w tempDir installDir format)) as Hiff.
  { intros file args.
    destruct (snd (soffice w)) as [e|bin], (writeFile w _ document) as [e'|];
      split; try (intros H; now apply elem_of_nil in H);
      try (intros (H1 & H2 & H3); discriminate).
    - intros H. apply list_elem_of_singleton in H. injection H as -> ->. auto.
    - intros ([= ->] & _ & ->). constructor. }
  split; [|split].
  - destruct (snd (soffice w)), (writeFile w _ document); simpl; lia.
  - exact Hiff.
  - intros file args H. apply Hiff in H as (Hs & _).
    now apply soffice_located_supported.
Qed.

(** X5. On a supported platform the input is written exactly once, to the
    file [source] of the staging directory and byte for byte, whether or
    not a binary is found; on any other platform nothing is written. *)
Theorem source_written_once (w : World) (tempDir installDir : string)
    (document : bytes) (format : string) :
  (platform w = "darwin" \/ platform w = "linux" \/ platform w = "win32" ->
   writes (convert w tempDir installDir document format)
   = [(join w tempDir "source", document)]) /\
  (platform w <> "darwin" -> platform w <> "linux" -> platform w <> "win32" ->
   writes (convert w tempDir installDir document format) = []).
Proof.
  rewrite writes_convert. split.
  - intros Hp. now destruct (paths_supported w Hp) as [ps ->].
  - intros H1 H2 H3. now rewrite (paths_unsupported w H1 H2 H3).
Qed.

Lemma source_written_once_witness :
  writes (convert full_disk staging profile hello ".pdf")
  = [("/tmp/libreofficeConvert_-4711-k3VqXw8ZrT0a/source", hello)] /\
  writes (convert freebsd staging profile hello ".pdf") = [].
Proof.
  split.
  - apply (source_written_once full_disk staging profile hello ".pdf").
    left; reflexivity.
  - apply (source_written_once freebsd staging profile hello ".pdf");
      discriminate.
Defined.

Lemma occurrences_none c s :
  occurrences c s = 0%nat <-> c ∉ String.list_ascii_of_string s.
Proof.
  induction s as [|d s IH]; simpl.
  - split; [intros _; apply not_elem_of_nil | reflexivity].
  - destruct (Ascii.eqb d c) eqn:Hd.
    + apply Ascii.eqb_eq in Hd as ->. split; [discriminate|].
      intros H. exfalso. apply H. constructor.
    + apply Ascii.eqb_neq in Hd. rewrite not_elem_of_cons. simpl.
      rewrite IH. split; [intros H; split; [congruence | exact H] | tauto].
Qed.

(** X6. The engine gets seven arguments plus one for every space inside
    the profile directory, the format, the staging directory and the
    input path.  So the argument list is the intended one (profile flag,
    headless flag, convert-to flag and format, output-directory flag and
    staging directory, input path) if and only if none of the four holds
    a space. *)
Theorem engine_arguments (w : World) (bin tempDir installDir format : string) :
  (exists args,
     fst (convert_task w bin tempDir installDir format) = [ExecFile bin args] /\
     length args
     = (7 + occurrences " " installDir + occurrences " " format
        + occurrences " " tempDir
        + occurrences " " (join w tempDir "source"))%nat) /\
  (fst (convert_task w bin tempDir installDir format)
   = [ ExecFile bin
         [ "-env:UserInstallation=file://" +:+ installDir; "--headless";
           "--convert-to"; format; "--outdir"; tempDir;
           join w tempDir "source" ] ]
   <->
   occurrences " " installDir = 0%nat /\ occurrences " " format = 0%nat /\
   occurrences " " tempDir = 0%nat /\
   occurrences " " (join w tempDir "source") = 0%nat).
Proof.
  pose proof (args_length w bin tempDir installDir format) as (args & E & Hl).
  split; [eauto|]. split.
  - intros H. rewrite H in E. injection E as <-. simpl in Hl. lia.
  - intros (Hi & Hf & Ht & Hj).
    apply args_without_spaces; now apply occurrences_none.
Qed.

(** ** Start-up *)

(** X7. The bot starts if and only if [MAKEPDF_DISCORD_TOKEN] and
    [MAKEPDF_SETTINGS_FORMATS] are both set and not empty; otherwise it
    stops with the message of the first of the two that is missing.  Once
    started, the token and the allow-list are not empty, the webhook
    client exists exactly when both its id and its token are set and not
    empty, and nothing but the six prefixed variables has been read. *)
Theorem start_requires_token_and_formats (process_env : gmap string string) :
  (is_Some (Startup.env process_env "DISCORD_TOKEN") /\
   is_Some (Startup.env process_env "SETTINGS_FORMATS")
   <-> exists c, Startup.start process_env = inr c) /\
  (Startup.env process_env "DISCORD_TOKEN" = None ->
   Startup.start process_env = inl "MAKEPDF_DISCORD_TOKEN is required") /\
  (is_Some (Startup.env process_env "DISCORD_TOKEN") ->
   Startup.env process_env "SETTINGS_FORMATS" = None ->
   Startup.start process_env = inl "MAKEPDF_SETTINGS_FORMATS is required") /\
  (forall c, Startup.start process_env = inr c ->
     process_env !! "MAKEPDF_DISCORD_TOKEN" = Some (Startup.DISCORD_TOKEN c) /\
     process_env !! "MAKEPDF_SETTINGS_FORMATS" = Some (Startup.SETTINGS_FORMATS c) /\
     Startup.DISCORD_TOKEN c <> "" /\ Startup.SETTINGS_FORMATS c <> "" /\
     (is_Some (Startup.webhook c) <->
      is_Some (Startup.env process_env "WEBHOOK_ID") /\
      is_Some (Startup.env process_env "WEBHOOK_TOKEN"))) /\
  (forall other,
     (forall key, key ∈ ["DISCORD_TOKEN"; "SETTINGS_FORMATS"; "WEBHOOK_ID";
                         "WEBHOOK_TOKEN"; "TOPGG_ID"; "TOPGG_TOKEN"] ->
        other !! ("MAKEPDF_" +:+ key) = process_env !! ("MAKEPDF_" +:+ key)) ->
     Startup.start other = Startup.start process_env).
Proof.
  assert (forall key v, Startup.env process_env key = Some v ->
            process_env !! ("MAKEPDF_" +:+ key) = Some v /\ v <> "") as Henv.
  { intros key v. unfold Startup.env.
    destruct (process_env !! _) as [x|]; [|discriminate].
    destruct (String.eqb x "") eqn:E; [discriminate|].
    intros [= ->]. split; [reflexivity | now apply String.eqb_neq]. }
  repeat apply conj.
  - intros [[t Ht] [f Hf]]. unfold Startup.start. rewrite Ht, Hf. eauto.
  - intros [c Hc]. revert Hc. unfold Startup.start.
    destruct (Startup.env process_env "DISCORD_TOKEN"); [|discriminate].
    destruct (Startup.env process_env "SETTINGS_FORMATS"); [|discriminate].
    split; eauto.
  - intros H. unfold Startup.start. now rewrite H.
  - intros [t Ht] H. unfold Startup.start. now rewrite Ht, H.
  - intros c. unfold Startup.start.
    destruct (Startup.env process_env "DISCORD_TOKEN") as [t|] eqn:Ht;
      [|discriminate].
    destruct (Startup.env process_env "SETTINGS_FORMATS") as [f|] eqn:Hf;
      [|discriminate].
    intros [= <-]. simpl.
    destruct (Henv _ _ Ht) as [H1 H2], (Henv _ _ Hf) as [H3 H4].
    split; [|split; [|split; [|split]]]; try assumption.
    destruct (Startup.env process_env "WEBHOOK_ID"),
      (Startup.env process_env "WEBHOOK_TOKEN");
      split; eauto; intros H; try (destruct H as [x Hx]; discriminate);
      destruct H as [[x Hx] [y Hy]]; discriminate.
  - intros other Hsame.
    assert (forall key, key ∈ ["DISCORD_TOKEN"; "SETTINGS_FORMATS"; "WEBHOOK_ID";
                               "WEBHOOK_TOKEN"; "TOPGG_ID"; "TOPGG_TOKEN"] ->
              Startup.env other key = Startup.env process_env key) as He.
    { intros key Hk. unfold Startup.env. now rewrite (Hsame key Hk). }
    unfold Startup.start.
    rewrite !He by (repeat first [apply list_elem_of_here
                                 | apply list_elem_of_further]).
    reflexivity.
Qed.

Lemma start_requires_token_and_formats_witness :
  exists c,
    Startup.start {[ "MAKEPDF_DISCORD_TOKEN" := "t0k3n";
                     "MAKEPDF_SETTINGS_FORMATS" := "docx,odt";
                     "MAKEPDF_WEBHOOK_ID" := "42";
                     "MAKEPDF_WEBHOOK_TOKEN" := "";
                     "DISCORD_TOKEN" := "unprefixed" ]} = inr c.
Proof.
  apply (start_requires_token_and_formats
           {[ "MAKEPDF_DISCORD_TOKEN" := "t0k3n";
              "MAKEPDF_SETTINGS_FORMATS" := "docx,odt";
              "MAKEPDF_WEBHOOK_ID" := "42";
              "MAKEPDF_WEBHOOK_TOKEN" := "";
              "DISCORD_TOKEN" := "unprefixed" ]}).
  split; eexists; vm_compute; reflexivity.
Defined.

Example start_without_webhook_token :
  Startup.start {[ "MAKEPDF_DISCORD_TOKEN" := "t0k3n";
                   "MAKEPDF_SETTINGS_FORMATS" := "docx,odt";
                   "MAKEPDF_WEBHOOK_ID" := "42";
                   "MAKEPDF_WEBHOOK_TOKEN" := "";
                   "DISCORD_TOKEN" := "unprefixed" ]}
  = inr {| Startup.DISCORD_TOKEN := "t0k3n";
           Startup.SETTINGS_FORMATS := "docx,odt";
           Startup.webhook := None;
           Startup.TOPGG := (None, None);
           Startup.warnings := [ "MAKEPDF_WEBHOOK_TOKEN is not set";
                                 "MAKEPDF_TOPGG_ID is not set";
                                 "MAKEPDF_TOPGG_TOKEN is not set" ] |}.
Proof. vm_compute. reflexivity. Qed.

(** ** Replies *)

Lemma substring_prefix base rest :
  String.substring 0 (String.length base) (base +:+ rest) = base.
Proof.
  induction base as [|c base IH]; [now destruct rest|].
  change (String c base +:+ rest) with (String c (base +:+ rest)).
  simpl. now rewrite IH.
Qed.

Lemma newName_after_last_dot base ext :
  "."%char ∉ String.list_ascii_of_string ext ->
  newName (base +:+ "." +:+ ext) = base +:+ ".pdf".
Proof.
  intros Hn. unfold newName, JS.lastIndexOf.
  change (base +:+ "." +:+ ext) with (base +:+ String "." ext).
  rewrite lastIndexOf_from_last by assumption.
  change 0 with (Z.of_nat 0) at 1. rewrite Z.add_0_l.
  rewrite substring_in_bounds
    by (rewrite string_length_app; lia).
  now rewrite Nat.sub_0_r, substring_prefix.
Qed.

(** X8. When the file name is [base.ext], with no dot in [ext], the
    converted file is sent back as [base.pdf]: only the last extension is
    replaced ([a.tar.gz] comes back as [a.tar.pdf]), and a name that
    starts with its only dot comes back as [.pdf].  Both handlers name
    the reply so. *)
Theorem reply_name_replaces_last_extension (b : Bot) (lb : Legacy.Bot)
    (a : Attachment) (base ext : string) :
  name a = base +:+ "." +:+ ext ->
  "."%char ∉ String.list_ascii_of_string ext ->
  newName (name a) = base +:+ ".pdf" /\
  (forall n data, SendFile n data ∈ on_attachment b a -> n = base +:+ ".pdf") /\
  (forall n data,
     SendFile n data ∈ Legacy.on_attachment lb a -> n = base +:+ ".pdf").
Proof.
  intros E Hn. pose proof (newName_after_last_dot base ext Hn) as H.
  rewrite <- E in H. split; [exact H|]. split.
  - intros n data Hs. now apply sent_file_name in Hs as ->.
  - intros n data Hs. now apply legacy_sent_file_name in Hs as ->.
Qed.

Lemma reply_name_replaces_last_extension_witness :
  newName "a.tar.gz" = "a.tar.pdf".
Proof.
  apply (reply_name_replaces_last_extension office_bot legacy_bot
           {| name := "a.tar.gz"; url := "https://cdn.example/a.tar.gz" |}
           "a.tar" "gz").
  - reflexivity.
  - simpl. intros H.
    repeat (apply elem_of_cons in H as [H | H]; [discriminate|]).
    now apply elem_of_nil in H.
Defined.

Example hidden_file_reply : newName ".bashrc" = ".pdf".
Proof. reflexivity. Qed.

(** X9. What is sent back is exactly what [convert] returned: a file is
    sent only when the download succeeded and [convert], called on the
    downloaded bytes with the format [.pdf], called back without error
    and with data, and the bytes sent are that data.  Nothing is ever
    converted but the bytes downloaded from the attachment's own URL. *)
Theorem converted_bytes_relayed_verbatim (b : Bot) (a : Attachment) :
  (forall n data, SendFile n data ∈ on_attachment b a ->
     exists fileData,
       fetch b (url a) = Some fileData /\
       converted b fileData ".pdf" = CalledBack None (Some data) /\
       n = newName (name a)) /\
  (forall fileData format, Convert fileData format ∈ on_attachment b a ->
     format = ".pdf" /\ fetch b (url a) = Some fileData /\
     extension (name a) ∈ formats b /\ url a <> "").
Proof.
  unfold on_attachment.
  destruct (String.eqb (url a) "") eqn:Hu;
    [split; intros; now apply elem_of_nil in H|].
  apply String.eqb_neq in Hu.
  destruct (JS.array_includes (formats b) (extension (name a))) eqn:Hi; simpl;
    [|split; intros; now apply elem_of_nil in H].
  apply array_includes_elem in Hi.
  destruct (fetch b (url a)) as [fileData|].
  - destruct (converted b fileData ".pdf") as [[e|] [pdfData|]|] eqn:Hc; split;
      intros x y H;
      repeat (apply elem_of_cons in H as [H | H]; [try discriminate|]);
      try (now apply elem_of_nil in H);
      try (injection H as -> ->; eauto; fail).
    all: injection H as -> ->; auto.
  - split; intros x y H;
      repeat (apply elem_of_cons in H as [H | H]; [try discriminate|]);
      now apply elem_of_nil in H.
Qed.

(** X10. For each attachment the handler downloads at most once,
    converts at most once and only what it has downloaded, and sends at
    most one message (the file or the failure notice), never without
    having called [convert].  It sends one exactly when the download
    succeeds and the call of [convert] calls back: a download that
    fails, and a call of [convert] that throws or never calls back, are
    followed by no message at all. *)
Theorem one_reply_per_conversion (b : Bot) (a : Attachment) :
  (downloads (on_attachment b a) <= 1)%nat /\
  (conversions (on_attachment b a) <= downloads (on_attachment b a))%nat /\
  (replies (on_attachment b a) <= conversions (on_attachment b a))%nat /\
  (replies (on_attachment b a) = 1%nat <->
   conversions (on_attachment b a) = 1%nat /\
   exists fileData err pdfData,
     fetch b (url a) = Some fileData /\
     converted b fileData ".pdf" = CalledBack err pdfData) /\
  (fetch b (url a) = None -> replies (on_attachment b a) = 0%nat) /\
  (forall fileData,
     fetch b (url a) = Some fileData ->
     converted b fileData ".pdf" = NoCallback ->
     replies (on_attachment b a) = 0%nat).
Proof.
  assert (forall acts,
            replies acts = 0%nat -> conversions acts = 0%nat ->
            (downloads acts <= 1)%nat ->
            (downloads acts <= 1)%nat /\
            (conversions acts <= downloads acts)%nat /\
            (replies acts <= conversions acts)%nat /\
            (replies acts = 1%nat <->
             conversions acts = 1%nat /\
             exists fileData err pdfData,
               fetch b (url a) = Some fileData /\
               converted b fileData ".pdf" = CalledBack err pdfData) /\
            (fetch b (url a) = None -> replies acts = 0%nat) /\
            (forall fileData,
               fetch b (url a) = Some fileData ->
               converted b fileData ".pdf" = NoCallback ->
               replies acts = 0%nat)) as Hnone.
  { intros acts -> -> Hd. repeat split; try lia; discriminate. }
  unfold on_attachment.
  destruct (String.eqb (url a) "");
    [apply Hnone; [reflexivity | reflexivity | unfold downloads; simpl; lia]|].
  destruct (negb _);
    [apply Hnone; [reflexivity | reflexivity | unfold downloads; simpl; lia]|].
  destruct (fetch b (url a)) as [fileData|] eqn:Hf;
    [|apply Hnone; [reflexivity | reflexivity | unfold downloads; simpl; lia]].
  destruct (converted b fileData ".pdf") as [[e|] [d|]|] eqn:Hc;
    unfold replies, conversions, downloads; simpl;
    repeat split; try lia; try discriminate;
    try (eexists _, _, _; split; [reflexivity | exact Hc]);
    try (intros f [= <-] Hn; congruence).
  intros (_ & f & err & p & [= <-] & Hn). congruence.
Qed.

Example convert_without_callback :
  on_attachment
    {| SETTINGS_FORMATS := "docx"; fetch := fun _ => Some hello;
       converted := fun _ _ => NoCallback |}
    {| name := "report.docx"; url := "https://cdn.example/report.docx" |}
  = [Fetch "https://cdn.example/report.docx"; Convert hello ".pdf"].
Proof. reflexivity. Qed.

(** X11. The former handler differs when the download fails: a response
    that ends in an error is answered with the failure notice, without
    any conversion, and only a request that gets no response at all
    stays unanswered.  An accepted attachment whose response ends is
    converted once and answered once. *)
Theorem legacy_replies (lb : Legacy.Bot) (a : Attachment) :
  url a <> "" -> extension (name a) ∈ Legacy.formats lb ->
  (Legacy.get lb (url a) = Legacy.ResponseError ->
   Legacy.on_attachment lb a = [Fetch (url a); SendFailure]) /\
  (Legacy.get lb (url a) = Legacy.NoResponse ->
   Legacy.on_attachment lb a = [Fetch (url a)]) /\
  (forall fileData, Legacy.get lb (url a) = Legacy.Ended fileData ->
     conversions (Legacy.on_attachment lb a) = 1%nat /\
     replies (Legacy.on_attachment lb a) = 1%nat /\
     (forall data, Legacy.converted lb fileData ".pdf" = inr data ->
        Legacy.on_attachment lb a
        = [Fetch (url a); Convert fileData ".pdf";
           SendFile (newName (name a)) data])).
Proof.
  intros Hu Hi. unfold Legacy.on_attachment.
  apply String.eqb_neq in Hu. apply array_includes_elem in Hi.
  rewrite Hu, Hi. simpl. split; [|split].
  - now intros ->.
  - now intros ->.
  - intros fileData ->.
    destruct (Legacy.converted lb fileData ".pdf") as [e|pdfData];
      repeat split; try reflexivity; intros data [= ->]; reflexivity.
Qed.

Lemma legacy_replies_witness :
  Legacy.on_attachment legacy_bot
    {| name := "report.docx"; url := "https://cdn.invalid/report.docx" |}
  = [Fetch "https://cdn.invalid/report.docx"].
Proof.
  destruct (legacy_replies legacy_bot
              {| name := "report.docx"; url := "https://cdn.invalid/report.docx" |})
    as (_ & H & _).
  - discriminate.
  - repeat constructor.
  - apply H. reflexivity.
Defined.

(** X12. The handler downloads nothing for a message of the bot itself or
    a message answered by the debug reply, and otherwise only the URLs of
    attachments of that message whose extension is in the allow-list. *)
Theorem downloads_only_allowed_attachments (b : Bot) (msg : Message)
    (acts : list Action) (u : string) :
  acts ∈ messageCreate b msg -> Fetch u ∈ acts ->
  from_self msg = false /\
  JS.includes "debug" (content msg) && debug_allowed msg = false /\
  exists a, a ∈ attachments msg /\ url a = u /\ u <> "" /\
            extension (name a) ∈ formats b.
Proof.
  unfold messageCreate.
  destruct (from_self msg); [intros H; now apply elem_of_nil in H|].
  destruct (JS.includes "debug" (content msg) && debug_allowed msg).
  - intros H Hf. apply list_elem_of_singleton in H as ->.
    apply list_elem_of_singleton in Hf. discriminate.
  - intros H Hf. apply list_elem_of_fmap in H as (a & -> & Ha).
    split; [reflexivity|]. split; [reflexivity|]. exists a.
    split; [exact Ha|]. revert Hf. unfold on_attachment.
    destruct (String.eqb (url a) "") eqn:Hu;
      [intros H; now apply elem_of_nil in H|].
    apply String.eqb_neq in Hu.
    destruct (JS.array_includes (formats b) (extension (name a))) eqn:Hi; simpl;
      [|intros H; now apply elem_of_nil in H].
    apply array_includes_elem in Hi. intros H.
    apply elem_of_cons in H as [H | H].
    + injection H as ->. auto.
    + exfalso. destruct (fetch b (url a)) as [fileData|];
        [|now apply elem_of_nil in H].
      apply elem_of_cons in H as [H | H]; [discriminate|].
      destruct (converted b fileData ".pdf") as [[e|] [pdfData|]|];
        try (now apply elem_of_nil in H);
        apply list_elem_of_singleton in H; discriminate.
Qed.

Lemma downloads_only_allowed_attachments_witness :
  exists a,
    a ∈ [ {| name := "notes.txt"; url := "https://cdn.example/notes.txt" |};
          {| name := "report.docx"; url := "https://cdn.example/report.docx" |} ] /\
    url a = "https://cdn.example/report.docx" /\
    extension (name a) ∈ formats office_bot.
Proof.
  destruct (downloads_only_allowed_attachments office_bot
              {| from_self := false; content := "hi"; debug_allowed := false;
                 attachments :=
                   [ {| name := "notes.txt"; url := "https://cdn.example/notes.txt" |};
                     {| name := "report.docx";
                        url := "https://cdn.example/report.docx" |} ] |}
              [ Fetch "https://cdn.example/report.docx"; Convert hello ".pdf";
                SendFile "report.pdf" pdf_ok ]
              "https://cdn.example/report.docx")
    as (_ & _ & a & Ha & Hu & _ & He).
  - apply list_elem_of_further, list_elem_of_here.
  - apply list_elem_of_here.
  - exists a. auto.
Defined.

(** ** VoiceNotify: the settings manager *)

Section ManagerFacts.
Context {Settings : Type}.
Implicit Types st : Manager.Store Settings.

Lemma manager_get_db ok g st : Manager.db (snd (Manager.get ok g st)) = Manager.db st.
Proof. unfold Manager.get. now destruct (Manager.cache st !! g). Qed.

Lemma manager_get_cached ok g st :
  Manager.cache (snd (Manager.get ok g st)) !! g = Some (fst (Manager.get ok g st)).
Proof.
  unfold Manager.get. destruct (Manager.cache st !! g) eqn:E; simpl;
    [exact E | apply lookup_insert_eq].
Qed.

(** X13. The database is read at most once per guild.  A second [get]
    returns the map of the first without reading, whatever the database
    holds by then; in particular, when the first read fails, the guild
    has no settings for every later [get], although the database holds
    them. *)
Theorem manager_get_reads_once (ok ok' : bool) (g : string) st :
  Manager.db (snd (Manager.get ok g st)) = Manager.db st /\
  (forall st',
     Manager.cache st' = Manager.cache (snd (Manager.get ok g st)) ->
     Manager.get ok' g st' = (fst (Manager.get ok g st), st')) /\
  (Manager.cache st !! g = None -> ok = false ->
   fst (Manager.get ok' g (snd (Manager.get ok g st))) = ∅).
Proof.
  split; [apply manager_get_db|]. split.
  - intros st' Hc. unfold Manager.get at 1.
    now rewrite Hc, manager_get_cached.
  - intros Hm ->. unfold Manager.get. rewrite Hm. simpl.
    now rewrite lookup_insert_eq.
Qed.

(** X14. After a successful [set] the channel has the new settings for
    every later [get], cached or not before.  When the guild was not
    cached, the cache then holds that one channel alone: the settings
    the database holds for the other channels of the guild are not
    returned by [get] any more. *)
Theorem manager_set_then_get (ok : bool) (g c : string) (v : Settings) st st' :
  Manager.set true g c v st = Some st' ->
  fst (Manager.get ok g st') !! c = Some v /\
  Manager.stored g st' !! c = Some v /\
  (Manager.cache st !! g = None ->
   fst (Manager.get ok g st') = {[ c := v ]} /\
   forall c', c' <> c ->
     fst (Manager.get ok g st') !! c' = None /\
     Manager.stored g st' !! c' = Manager.stored g st !! c').
Proof.
  intros [= <-]. unfold Manager.get, Manager.stored. simpl.
  rewrite !lookup_insert_eq. simpl. rewrite !lookup_insert_eq.
  split; [reflexivity|]. split; [reflexivity|].
  intros ->. simpl. split; [reflexivity|].
  intros c' Hc. rewrite lookup_insert_ne by congruence.
  rewrite lookup_insert_ne by congruence. split; [apply lookup_empty | reflexivity].
Qed.

(** X15. If every cached map is what the database holds for its guild,
    this is still so after a [get] whose read succeeds, after a
    [deleteChannel], after a [deleteGuild], and after a [set] on a guild
    that is cached or has no settings in the database; [get] then answers
    with what the database holds. *)
Theorem manager_keeps_cache_coherent (g c : string) (v : Settings) st :
  Manager.coherent st ->
  Manager.coherent (snd (Manager.get true g st)) /\
  fst (Manager.get true g st) = Manager.stored g st /\
  (forall st', Manager.deleteChannel true g c st = Some st' ->
     Manager.coherent st') /\
  (forall st', Manager.deleteGuild true g st = Some st' ->
     Manager.coherent st') /\
  (forall st', is_Some (Manager.cache st !! g) \/ Manager.stored g st = ∅ ->
     Manager.set true g c v st = Some st' -> Manager.coherent st').
Proof.
  intros Hco. unfold Manager.coherent, Manager.stored in *.
  repeat apply conj.
  - unfold Manager.get. destruct (Manager.cache st !! g) eqn:E; [exact Hco|].
    simpl. intros g' m. destruct (decide (g = g')) as [<- | Hne].
    + rewrite lookup_insert_eq. now intros [= <-].
    + rewrite lookup_insert_ne by assumption. apply Hco.
  - unfold Manager.get. destruct (Manager.cache st !! g) eqn:E; [|reflexivity].
    simpl. now apply Hco.
  - intros st' [= <-]. simpl. intros g' m.
    destruct (decide (g = g')) as [<- | Hne].
    + rewrite lookup_insert_eq. simpl.
      destruct (Manager.cache st !! g) eqn:E.
      * rewrite lookup_insert_eq. intros [= <-]. now rewrite (Hco _ _ E).
      * now rewrite E.
    + rewrite (lookup_insert_ne (Manager.db st)) by assumption.
      destruct (Manager.cache st !! g);
        [rewrite lookup_insert_ne by assumption|]; apply Hco.
  - intros st' [= <-]. simpl. intros g' m.
    destruct (decide (g = g')) as [<- | Hne].
    + now rewrite lookup_delete_eq.
    + rewrite !lookup_delete_ne by assumption. apply Hco.
  - intros st' Hc [= <-]. simpl. intros g' m.
    destruct (decide (g = g')) as [<- | Hne].
    + rewrite !lookup_insert_eq. simpl. intros [= <-]. f_equal.
      destruct Hc as [[m' E] | E].
      * rewrite E. simpl. now apply Hco.
      * rewrite E. destruct (Manager.cache st !! g) eqn:E'; [|reflexivity].
        simpl. rewrite <- E. now apply Hco.
    + rewrite !lookup_insert_ne by assumption. apply Hco.
Qed.

(** X16. A channel deleted with [deleteChannel] has no settings for any
    later [get], whether the guild was cached or not; and after
    [deleteGuild] the guild is read from the database again and has no
    settings at all. *)
Theorem manager_delete_then_get (ok : bool) (g c : string) st :
  (forall st', Manager.deleteChannel true g c st = Some st' ->
     fst (Manager.get ok g st') !! c = None /\
     Manager.stored g st' !! c = None) /\
  (forall st', Manager.deleteGuild true g st = Some st' ->
     Manager.cache st' !! g = None /\
     fst (Manager.get ok g st') = ∅ /\ Manager.stored g st' = ∅).
Proof.
  split.
  - intros st' [= <-]. unfold Manager.get, Manager.stored, Manager.val. simpl.
    rewrite lookup_insert_eq. simpl. rewrite lookup_delete_eq.
    split; [|reflexivity].
    destruct (Manager.cache st !! g) eqn:E.
    + rewrite lookup_insert_eq. simpl. apply lookup_delete_eq.
    + rewrite E. simpl. destruct ok; simpl;
        [apply lookup_delete_eq | apply lookup_empty].
  - intros st' [= <-]. unfold Manager.get, Manager.stored, Manager.val. simpl.
    rewrite !lookup_delete_eq. simpl.
    repeat split. now destruct ok.
Qed.

(** X17. [set], [deleteChannel], [deleteGuild] and [get] on one guild
    change nothing for any other guild, neither in the cache nor in the
    database; and a rejected database operation changes nothing at
    all. *)
Theorem manager_guilds_are_independent (ok : bool) (g g' c : string)
    (v : Settings) st :
  g <> g' ->
  (forall st',
     Manager.set ok g c v st = Some st' \/
     Manager.deleteChannel ok g c st = Some st' \/
     Manager.deleteGuild ok g st = Some st' \/
     snd (Manager.get ok g st) = st' ->
     Manager.cache st' !! g' = Manager.cache st !! g' /\
     Manager.db st' !! g' = Manager.db st !! g') /\
  Manager.set false g c v st = None /\
  Manager.deleteChannel false g c st = None /\
  Manager.deleteGuild false g st = None.
Proof.
  intros Hne. split; [|repeat split].
  intros st' [H | [H | [H | H]]]; revert H.
  - unfold Manager.set. destruct ok; [|discriminate]. intros [= <-]. simpl.
    now rewrite !lookup_insert_ne by assumption.
  - unfold Manager.deleteChannel. destruct ok; [|discriminate].
    intros [= <-]. simpl. rewrite lookup_insert_ne by assumption.
    destruct (Manager.cache st !! g);
      [now rewrite lookup_insert_ne by assumption | easy].
  - unfold Manager.deleteGuild. destruct ok; [|discriminate].
    intros [= <-]. simpl. now rewrite !lookup_delete_ne by assumption.
  - unfold Manager.get. destruct (Manager.cache st !! g); intros <-;
      [easy|]. simpl. now rewrite lookup_insert_ne by assumption.
Qed.
End ManagerFacts.

(** ** VoiceNotify: the handlers *)

Example enable_then_join :
  let '(reply, st) :=
    VoiceNotify.messageCreate discord
      (says admin "<@990000000000000001> ENABLE 2 <@&700000000000000001>") fresh in
  (reply, fst (VoiceNotify.voiceStateUpdate (joins 2 1762156800000) st))
  = ([ VoiceNotify.ReplyWith
         (VoiceNotify.Enabled (VoiceNotify.of_Z 2) "Lobby" "620000000000000001" 1) ],
     [ VoiceNotify.Send "620000000000000001" "Lobby"
         [ VoiceNotify.CC ["<@&700000000000000001>"]; VoiceNotify.Donate ] ]).
Proof. vm_compute. reflexivity. Qed.

Example split_on_runs_of_spaces :
  VoiceNotify.split_spaces " a  b " = [""; "a"; "b"; ""].
Proof. reflexivity. Qed.

(** X18. A message changes the state (the settings in the database and
    in the cache, and the recorded times) only if it comes from a member
    other than the bot, mentions the bot, and its sender is an
    administrator.  A member who mentions the bot without being an
    administrator gets the one reply saying so, and nothing else
    happens. *)
Theorem only_administrators_change_state (p : VoiceNotify.Platform)
    (msg : VoiceNotify.Message) (st : VoiceNotify.State) :
  (snd (VoiceNotify.messageCreate p msg st) <> st ->
   exists m bot,
     VoiceNotify.member msg = Some m /\ VoiceNotify.botId msg = Some bot /\
     VoiceNotify.member_id m <> bot /\
     VoiceNotify.mentions_bot msg = true /\
     VoiceNotify.administrator m = true) /\
  (forall m bot,
     VoiceNotify.member msg = Some m -> VoiceNotify.botId msg = Some bot ->
     VoiceNotify.member_id m <> "" -> bot <> "" ->
     VoiceNotify.member_id m <> bot ->
     VoiceNotify.mentions_bot msg = true ->
     VoiceNotify.administrator m = false ->
     VoiceNotify.messageCreate p msg st
     = ([VoiceNotify.ReplyWith VoiceNotify.MustBeAdministrator], st)).
Proof.
  unfold VoiceNotify.messageCreate, VoiceNotify.nonempty. split.
  - destruct (VoiceNotify.member msg) as [m|];
      [|intros H; now contradiction H].
    destruct (VoiceNotify.member_id m) as [|c s] eqn:Em;
      [intros H; now contradiction H|].
    destruct (VoiceNotify.botId msg) as [[|c' s']|];
      try (intros H; now contradiction H).
    destruct (VoiceNotify.mentions_bot msg);
      [|intros H; now contradiction H].
    destruct (String.eqb (String c s) (String c' s')) eqn:E;
      [intros H; now contradiction H|].
    destruct (VoiceNotify.administrator m) eqn:Ha;
      [|intros H; now contradiction H]. intros _.
    exists m, (String c' s'). rewrite Em. apply String.eqb_neq in E.
    repeat split; try reflexivity; assumption.
  - intros m bot -> -> Hm Hb Hne -> ->.
    destruct (VoiceNotify.member_id m) as [|c s]; [contradiction|].
    destruct bot as [|c' s']; [contradiction|].
    apply String.eqb_neq in Hne. now rewrite Hne.
Qed.

Lemma only_administrators_change_state_witness :
  exists m bot,
    VoiceNotify.member (says admin "<@990000000000000001> enable") = Some m /\
    VoiceNotify.botId (says admin "<@990000000000000001> enable") = Some bot /\
    VoiceNotify.member_id m <> bot /\
    VoiceNotify.mentions_bot (says admin "<@990000000000000001> enable") = true /\
    VoiceNotify.administrator m = true.
Proof.
  apply (only_administrators_change_state discord
           (says admin "<@990000000000000001> enable") fresh).
  vm_compute. discriminate.
Defined.

Lemma messageCreate_command p msg m cmd params st :
  VoiceNotify.administrator_says p msg m cmd params ->
  VoiceNotify.messageCreate p msg st = VoiceNotify.command p msg m st.
Proof.
  intros (Hm & Hid & (bot & Hb & Hbot & Hne) & Hme & Ha & _).
  unfold VoiceNotify.messageCreate, VoiceNotify.nonempty. rewrite Hm, Hb, Hme, Ha.
  destruct (VoiceNotify.member_id m) as [|c s]; [contradiction|].
  destruct bot as [|c' s']; [contradiction|].
  apply String.eqb_neq in Hne. now rewrite Hne.
Qed.

Lemma enters_not_same u ch :
  VoiceNotify.enters u ch ->
  match VoiceNotify.oldChannel u with
  | Some old => String.eqb (VoiceNotify.id ch) old
  | None => false
  end = false.
Proof.
  intros [_ Hne]. destruct (VoiceNotify.oldChannel u) as [old|]; [|reflexivity].
  apply String.eqb_neq. congruence.
Qed.

(** A member entering a channel that has settings, a reachable text
    channel, enough members and no time recorded is announced in the
    text channel of the settings. *)
Lemma first_join_is_announced u ch settings st :
  VoiceNotify.enters u ch ->
  fst (Manager.get (VoiceNotify.read_ok u) (VoiceNotify.guild u)
         (VoiceNotify.store st)) !! VoiceNotify.id ch = Some settings ->
  VoiceNotify.fetched u = VoiceNotify.Channel true ->
  SpecFloat.SFltb (VoiceNotify.of_Z (Z.of_nat (VoiceNotify.size ch)))
    (VoiceNotify.min settings) = false ->
  VoiceNotify.truthy (VoiceNotify.thresholdTimes st !! VoiceNotify.id ch) = None ->
  VoiceNotify.truthy (VoiceNotify.broadcastTimes st !! VoiceNotify.id ch) = None ->
  exists fs,
    fst (VoiceNotify.voiceStateUpdate u st)
    = [VoiceNotify.Send (VoiceNotify.text settings) (VoiceNotify.name ch) fs] /\
    (VoiceNotify.roles settings <> [] ->
     VoiceNotify.CC (VoiceNotify.roles settings) ∈ fs).
Proof.
  intros He Hs Hf Hsize Ht Hb. pose proof (enters_not_same u ch He) as Hold.
  destruct He as [Hc _]. unfold VoiceNotify.voiceStateUpdate.
  rewrite Hc, Hold.
  destruct (Manager.get _ _ _) as [settingsMap store'] eqn:Hg.
  simpl in Hs. cbn [VoiceNotify.thresholdTimes VoiceNotify.broadcastTimes
                    VoiceNotify.store VoiceNotify.lastDonationAsked].
  rewrite Hs, Hf, Hsize, Ht, Hb.
  eexists. split; [reflexivity|].
  intros Hr. unfold VoiceNotify.fields.
  destruct (VoiceNotify.roles settings); [contradiction|].
  apply elem_of_app. left. constructor.
Qed.

Lemma set_then_get_settings ok g c (v : VoiceNotify.Settings) st st' :
  Manager.set true g c v st = Some st' ->
  fst (Manager.get ok g st') !! c = Some v.
Proof.
  intros [= <-]. unfold Manager.get. simpl.
  rewrite lookup_insert_eq. simpl. apply lookup_insert_eq.
Qed.

Lemma deleteChannel_then_get_settings ok g c (st st' : Manager.Store VoiceNotify.Settings) :
  Manager.deleteChannel true g c st = Some st' ->
  fst (Manager.get ok g st') !! c = None.
Proof.
  intros [= <-]. unfold Manager.get, Manager.val. simpl.
  destruct (Manager.cache st !! g) eqn:E.
  - rewrite lookup_insert_eq. simpl. apply lookup_delete_eq.
  - rewrite E. simpl. rewrite lookup_insert_eq.
    destruct ok; simpl; [apply lookup_delete_eq | apply lookup_empty].
Qed.

(** X19. After an administrator sitting in a voice channel has said
    [enable], with or without a threshold and roles, the next member who
    enters that channel when it has at least the threshold of members
    and no time is recorded for it is announced in the text channel where
    the command was written, with the roles of the command in copy. *)
Theorem enable_then_join_is_announced (p : VoiceNotify.Platform)
    (msg : VoiceNotify.Message) (m : VoiceNotify.Member) (params : list string)
    (vid vname : string) (st : VoiceNotify.State)
    (u : VoiceNotify.Update) (ch : VoiceNotify.VoiceChannel) :
  VoiceNotify.administrator_says p msg m "enable" params ->
  VoiceNotify.voice_channel m = Some (vid, vname) ->
  VoiceNotify.write_ok msg = true ->
  VoiceNotify.enters u ch ->
  VoiceNotify.id ch = vid ->
  VoiceNotify.guild u = VoiceNotify.guildId msg ->
  VoiceNotify.fetched u = VoiceNotify.Channel true ->
  SpecFloat.SFltb (VoiceNotify.of_Z (Z.of_nat (VoiceNotify.size ch)))
    (VoiceNotify.threshold (params !! 0%nat)) = false ->
  VoiceNotify.truthy (VoiceNotify.thresholdTimes st !! vid) = None ->
  VoiceNotify.truthy (VoiceNotify.broadcastTimes st !! vid) = None ->
  fst (VoiceNotify.messageCreate p msg st)
  = [VoiceNotify.ReplyWith
       (VoiceNotify.Enabled (VoiceNotify.threshold (params !! 0%nat)) vname
          (VoiceNotify.channelId msg)
          (length (List.filter (VoiceNotify.RolesPattern p) params)))] /\
  exists fs,
    fst (VoiceNotify.voiceStateUpdate u (snd (VoiceNotify.messageCreate p msg st)))
    = [VoiceNotify.Send (VoiceNotify.channelId msg) (VoiceNotify.name ch) fs] /\
    (List.filter (VoiceNotify.RolesPattern p) params <> [] ->
     VoiceNotify.CC (List.filter (VoiceNotify.RolesPattern p) params) ∈ fs).
Proof.
  intros Hsays Hv Hw He Hid Hg Hf Hsize Ht Hb.
  rewrite (messageCreate_command _ _ _ _ _ _ Hsays).
  destruct Hsays as (_ & _ & _ & _ & _ & mention & Hwords).
  unfold VoiceNotify.command. rewrite Hwords, Hv, Hw.
  cbn [lookup list_lookup drop]. rewrite drop_0.
  destruct (Manager.set true _ _ _ _) as [s|] eqn:Hset; [|discriminate].
  cbn [fst snd]. split; [reflexivity|].
  subst vid.
  edestruct (first_join_is_announced u ch
               {| VoiceNotify.text := VoiceNotify.channelId msg;
                  VoiceNotify.min := VoiceNotify.threshold (params !! 0%nat);
                  VoiceNotify.roles :=
                    List.filter (VoiceNotify.RolesPattern p) params |}
               (VoiceNotify.with_store st s) He)
    as (fs & Hsend & Hcc); [| exact Hf | | exact Ht | exact Hb | ].
  - rewrite Hg. cbn [VoiceNotify.with_store VoiceNotify.store].
    eapply set_then_get_settings, Hset.
  - exact Hsize.
  - exists fs. split; [exact Hsend | exact Hcc].
Qed.

Lemma enable_then_join_is_announced_witness :
  exists fs,
    fst (VoiceNotify.voiceStateUpdate (joins 3 1762156800000)
           (snd (VoiceNotify.messageCreate discord
                   (says admin "<@990000000000000001> enable 3 <@&700000000000000001>")
                   fresh)))
    = [VoiceNotify.Send "620000000000000001" "Lobby" fs] /\
    VoiceNotify.CC ["<@&700000000000000001>"] ∈ fs.
Proof.
  destruct (enable_then_join_is_announced discord
              (says admin "<@990000000000000001> enable 3 <@&700000000000000001>")
              admin ["3"; "<@&700000000000000001>"]
              "810000000000000001" "Lobby" fresh (joins 3 1762156800000)
              {| VoiceNotify.id := "810000000000000001";
                 VoiceNotify.name := "Lobby";
                 VoiceNotify.size := 3 |})
    as (_ & fs & Hsend & Hcc).
  - repeat split; try discriminate.
    + exists "990000000000000001". repeat split; discriminate.
    + exists "<@990000000000000001>". reflexivity.
  - reflexivity.
  - reflexivity.
  - split; [reflexivity | discriminate].
  - reflexivity.
  - reflexivity.
  - reflexivity.
  - vm_compute. reflexivity.
  - reflexivity.
  - reflexivity.
  - exists fs. split; [exact Hsend|]. apply Hcc. vm_compute. discriminate.
Defined.

(** X20. After an administrator sitting in a voice channel has said
    [disable], no member entering that channel is announced, whatever
    the number of members, the times recorded and the state of the
    database read: the handler does nothing and records no time. *)
Theorem disable_then_join_is_silent (p : VoiceNotify.Platform)
    (msg : VoiceNotify.Message) (m : VoiceNotify.Member) (params : list string)
    (vid vname : string) (st : VoiceNotify.State)
    (u : VoiceNotify.Update) (ch : VoiceNotify.VoiceChannel) :
  VoiceNotify.administrator_says p msg m "disable" params ->
  VoiceNotify.voice_channel m = Some (vid, vname) ->
  VoiceNotify.write_ok msg = true ->
  VoiceNotify.channel u = Some ch ->
  VoiceNotify.id ch = vid ->
  VoiceNotify.guild u = VoiceNotify.guildId msg ->
  let st1 := snd (VoiceNotify.messageCreate p msg st) in
  fst (VoiceNotify.messageCreate p msg st)
  = [VoiceNotify.ReplyWith (VoiceNotify.Disabled vname)] /\
  fst (VoiceNotify.voiceStateUpdate u st1) = [] /\
  VoiceNotify.thresholdTimes (snd (VoiceNotify.voiceStateUpdate u st1))
  = VoiceNotify.thresholdTimes st /\
  VoiceNotify.broadcastTimes (snd (VoiceNotify.voiceStateUpdate u st1))
  = VoiceNotify.broadcastTimes st.
Proof.
  intros Hsays Hv Hw Hc Hid Hg st1. subst st1.
  rewrite (messageCreate_command _ _ _ _ _ _ Hsays).
  destruct Hsays as (_ & _ & _ & _ & _ & mention & Hwords).
  unfold VoiceNotify.command. rewrite Hwords, Hv, Hw.
  cbn [lookup list_lookup drop].
  destruct (Manager.deleteChannel true _ _ _) as [s|] eqn:Hdel; [|discriminate].
  cbn [fst snd]. split; [reflexivity|].
  pose proof (deleteChannel_then_get_settings (VoiceNotify.read_ok u) _ _ _ _ Hdel) as Hnone.
  unfold VoiceNotify.voiceStateUpdate. rewrite Hc.
  destruct (match VoiceNotify.oldChannel u with Some _ => _ | None => _ end);
    [now repeat split|].
  rewrite Hg. cbn [VoiceNotify.with_store VoiceNotify.store].
  destruct (Manager.get _ _ s) as [settingsMap store'] eqn:Hget.
  cbn [fst] in Hnone. rewrite Hid, Hnone. now repeat split.
Qed.

Lemma disable_then_join_is_silent_witness :
  fst (VoiceNotify.voiceStateUpdate (joins 5 1762156800000)
         (snd (VoiceNotify.messageCreate discord
                 (says admin "<@990000000000000001> disable")
                 (snd (VoiceNotify.messageCreate discord
                         (says admin "<@990000000000000001> enable 1") fresh)))))
  = [].
Proof.
  refine (proj1 (proj2
    (disable_then_join_is_silent discord
       (says admin "<@990000000000000001> disable") admin []
       "810000000000000001" "Lobby"
       (snd (VoiceNotify.messageCreate discord
               (says admin "<@990000000000000001> enable 1") fresh))
       (joins 5 1762156800000)
       {| VoiceNotify.id := "810000000000000001";
          VoiceNotify.name := "Lobby";
          VoiceNotify.size := 5 |} _ _ _ _ _ _))); try reflexivity.
  repeat split; try discriminate.
  - exists "990000000000000001". repeat split; discriminate.
  - exists "<@990000000000000001>". reflexivity.
Defined.

(** X21. The [debug] command of an administrator sitting in a voice
    channel forgets the threshold time and the broadcast time of that
    channel, and of no other channel: the next member who enters it when
    it has settings and enough members is announced, however recent the
    last announcement. *)
Theorem debug_forgets_the_times (p : VoiceNotify.Platform)
    (msg : VoiceNotify.Message) (m : VoiceNotify.Member) (params : list string)
    (c : string) (st : VoiceNotify.State) :
  VoiceNotify.administrator_says p msg m "debug" params ->
  VoiceNotify.voice_channelId m = Some c -> c <> "" ->
  let st1 := snd (VoiceNotify.messageCreate p msg st) in
  VoiceNotify.thresholdTimes st1 !! c = None /\
  VoiceNotify.broadcastTimes st1 !! c = None /\
  (forall c', c' <> c ->
     VoiceNotify.thresholdTimes st1 !! c' = VoiceNotify.thresholdTimes st !! c' /\
     VoiceNotify.broadcastTimes st1 !! c' = VoiceNotify.broadcastTimes st !! c') /\
  (forall u ch settings,
     VoiceNotify.enters u ch -> VoiceNotify.id ch = c ->
     fst (Manager.get (VoiceNotify.read_ok u) (VoiceNotify.guild u)
            (VoiceNotify.store st1)) !! c = Some settings ->
     VoiceNotify.fetched u = VoiceNotify.Channel true ->
     SpecFloat.SFltb (VoiceNotify.of_Z (Z.of_nat (VoiceNotify.size ch)))
       (VoiceNotify.min settings) = false ->
     exists fs,
       fst (VoiceNotify.voiceStateUpdate u st1)
       = [VoiceNotify.Send (VoiceNotify.text settings) (VoiceNotify.name ch) fs]).
Proof.
  intros Hsays Hv Hc st1.
  assert (Hst1 : VoiceNotify.thresholdTimes st1 = delete c (VoiceNotify.thresholdTimes st) /\
                 VoiceNotify.broadcastTimes st1 = delete c (VoiceNotify.broadcastTimes st)).
  { subst st1. rewrite (messageCreate_command _ _ _ _ _ _ Hsays).
    destruct Hsays as (_ & _ & _ & _ & _ & mention & Hwords).
    unfold VoiceNotify.command. rewrite Hwords, Hv.
    cbn [lookup list_lookup].
    destruct (Manager.get _ _ _) as [guildSettings s].
    destruct c as [|a c']; [contradiction|]. now split. }
  destruct Hst1 as [Ht Hb].
  assert (Htc : VoiceNotify.thresholdTimes st1 !! c = None)
    by (rewrite Ht; apply lookup_delete_eq).
  assert (Hbc : VoiceNotify.broadcastTimes st1 !! c = None)
    by (rewrite Hb; apply lookup_delete_eq).
  split; [exact Htc|]. split; [exact Hbc|]. split.
  - intros c' Hne. rewrite Ht, Hb.
    now rewrite !lookup_delete_ne by congruence.
  - intros u ch settings He Hid Hs Hf Hsize. subst c.
    destruct (first_join_is_announced u ch settings st1 He Hs Hf Hsize)
      as (fs & Hsend & _).
    + now rewrite Htc.
    + now rewrite Hbc.
    + now exists fs.
Qed.

Lemma debug_forgets_the_times_witness :
  let st0 :=
    snd (VoiceNotify.voiceStateUpdate (joins 1 1762156800000)
           (snd (VoiceNotify.messageCreate discord
                   (says admin "<@990000000000000001> enable 1") fresh))) in
  fst (VoiceNotify.voiceStateUpdate (joins 2 1762156801000) st0) = [] /\
  exists fs,
    fst (VoiceNotify.voiceStateUpdate (joins 2 1762156801000)
           (snd (VoiceNotify.messageCreate discord
                   (says admin "<@990000000000000001> debug") st0)))
    = [VoiceNotify.Send "620000000000000001" "Lobby" fs].
Proof.
  intros st0. split; [vm_compute; reflexivity|].
  refine (proj2 (proj2 (proj2
    (debug_forgets_the_times discord
       (says admin "<@990000000000000001> debug") admin []
       "810000000000000001" st0 _ _ _)))
    (joins 2 1762156801000)
    {| VoiceNotify.id := "810000000000000001";
       VoiceNotify.name := "Lobby";
       VoiceNotify.size := 2 |}
    {| VoiceNotify.text := "620000000000000001";
       VoiceNotify.min := VoiceNotify.of_Z 1;
       VoiceNotify.roles := [] |} _ _ _ _ _); try reflexivity; try discriminate.
  - repeat split; try discriminate.
    + exists "990000000000000001". repeat split; discriminate.
    + exists "<@990000000000000001>". reflexivity.
  - split; [reflexivity | discriminate].
Defined.

(** What an update does to the broadcast time of a channel: nothing, or
    it records its own, for its own channel, having passed the ten
    minutes test. *)
Lemma broadcast_time_step u st c :
  VoiceNotify.broadcastTimes (snd (VoiceNotify.voiceStateUpdate u st)) !! c
  = VoiceNotify.broadcastTimes st !! c /\
  VoiceNotify.announced u st = None \/
  VoiceNotify.broadcastTimes (snd (VoiceNotify.voiceStateUpdate u st)) !! c
  = VoiceNotify.broadcastTimes st !! c /\
  (exists c', c' <> c /\
     VoiceNotify.announced u st
     = Some (c', VoiceNotify.broadcast_time (VoiceNotify.clock u))) \/
  VoiceNotify.broadcastTimes (snd (VoiceNotify.voiceStateUpdate u st)) !! c
  = Some (VoiceNotify.broadcast_time (VoiceNotify.clock u)) /\
  (VoiceNotify.announced u st = None \/
   VoiceNotify.announced u st
   = Some (c, VoiceNotify.broadcast_time (VoiceNotify.clock u))) /\
  (forall last, VoiceNotify.broadcastTimes st !! c = Some last -> last <> 0 ->
     600000 <= VoiceNotify.since_broadcast (VoiceNotify.clock u) - last).
Proof.
  unfold VoiceNotify.announced, VoiceNotify.voiceStateUpdate.
  destruct (VoiceNotify.channel u) as [ch|]; [|now left].
  destruct (match VoiceNotify.oldChannel u with Some _ => _ | None => _ end);
    [now left|].
  destruct (Manager.get _ _ _) as [settingsMap store'].
  destruct (settingsMap !! VoiceNotify.id ch) as [settings|]; [|now left].
  destruct (VoiceNotify.fetched u) as [isTextBased| |]; try now left.
  destruct (SpecFloat.SFltb _ (VoiceNotify.min settings)); [now left|].
  cbn [VoiceNotify.thresholdTimes VoiceNotify.broadcastTimes VoiceNotify.store
       VoiceNotify.lastDonationAsked].
  destruct (match VoiceNotify.truthy (VoiceNotify.thresholdTimes st !! _) with
            | Some _ => _ | None => _ end); [now left|].
  destruct (match VoiceNotify.truthy (VoiceNotify.broadcastTimes st !! _) with
            | Some _ => _ | None => _ end) eqn:Hgate; [now left|].
  destruct (decide (VoiceNotify.id ch = c)) as [<- | Hne].
  - right. right. split; [|split].
    + destruct isTextBased; cbn [snd VoiceNotify.broadcastTimes];
        apply lookup_insert_eq.
    + destruct isTextBased; [right | left]; reflexivity.
    + intros last Hl Hz. rewrite Hl in Hgate.
      destruct last; try contradiction; cbn [VoiceNotify.truthy] in Hgate;
        apply Z.ltb_ge in Hgate; lia.
  - destruct isTextBased.
    + right. left. split.
      * cbn [snd VoiceNotify.broadcastTimes]. now apply lookup_insert_ne.
      * exists (VoiceNotify.id ch). now split.
    + left. split; [|reflexivity].
      cbn [snd VoiceNotify.broadcastTimes]. now apply lookup_insert_ne.
Qed.

Lemma recorded_times_bounded u st b :
  b <= VoiceNotify.broadcast_time (VoiceNotify.clock u) ->
  (forall c last, VoiceNotify.broadcastTimes st !! c = Some last -> last <= b) ->
  forall c last,
    VoiceNotify.broadcastTimes (snd (VoiceNotify.voiceStateUpdate u st)) !! c = Some last ->
    last <= VoiceNotify.broadcast_time (VoiceNotify.clock u).
Proof.
  intros Hb Hst c last Hl.
  destruct (broadcast_time_step u st c) as [[E _] | [[E _] | [E _]]];
    rewrite E in Hl.
  - specialize (Hst _ _ Hl). lia.
  - specialize (Hst _ _ Hl). lia.
  - injection Hl as <-. lia.
Qed.

(** Every announcement of a series comes ten minutes or more after the
    broadcast time recorded for its channel before the series. *)
Lemma announcement_after_recorded us : forall st b,
  0 < b ->
  (forall c last, VoiceNotify.broadcastTimes st !! c = Some last -> last <= b) ->
  VoiceNotify.clock_runs b us ->
  forall c t, (c, t) ∈ VoiceNotify.announcements us st ->
    b <= t /\
    forall last, VoiceNotify.broadcastTimes st !! c = Some last -> last <> 0 ->
      600000 <= t - last.
Proof.
  induction us as [|u us' IH]; intros st b Hb Hst Hrun c t Hin.
  - now apply elem_of_nil in Hin.
  - destruct Hrun as [[Hs Hbt] Hrun].
    assert (Htail : (c, t) ∈ VoiceNotify.announcements us'
                      (snd (VoiceNotify.voiceStateUpdate u st)) ->
                    b <= t /\
                    forall last, VoiceNotify.broadcastTimes st !! c = Some last ->
                      last <> 0 -> 600000 <= t - last).
    { intros Hin'.
      destruct (IH (snd (VoiceNotify.voiceStateUpdate u st))
                  (VoiceNotify.broadcast_time (VoiceNotify.clock u))
                  ltac:(lia)
                  (recorded_times_bounded u st b ltac:(lia) Hst)
                  Hrun c t Hin') as [Ht Hlast].
      split; [lia|]. intros last Hl Hz.
      destruct (broadcast_time_step u st c) as [[E _] | [[E _] | [E _]]].
      - apply Hlast; [now rewrite E | exact Hz].
      - apply Hlast; [now rewrite E | exact Hz].
      - specialize (Hlast _ E ltac:(lia)). specialize (Hst _ _ Hl). lia. }
    cbn [VoiceNotify.announcements] in Hin.
    destruct (VoiceNotify.announced u st) as [a|] eqn:Ha; [|now apply Htail].
    apply elem_of_cons in Hin as [<- | Hin]; [|now apply Htail].
    destruct (broadcast_time_step u st c)
      as [[_ E] | [[_ (c' & Hne & E)] | (_ & [E | E] & Hgate)]];
      rewrite E in Ha; try discriminate.
    + injection Ha as ? ?. congruence.
    + injection Ha as <-. split; [lia|].
      intros last Hl Hz. specialize (Hgate _ Hl Hz). lia.
Qed.

(** X22. While the clock does not go back, two announcements for the
    same voice channel in a series of voice state updates are ten
    minutes apart or more, whatever the settings, the number of members
    and the times recorded before (none of them in the future). *)
Theorem announcements_ten_minutes_apart (us : list VoiceNotify.Update)
    (st : VoiceNotify.State) (b : Z) (i j : nat) (c : string) (t1 t2 : Z) :
  0 < b ->
  (forall c last, VoiceNotify.broadcastTimes st !! c = Some last -> last <= b) ->
  VoiceNotify.clock_runs b us ->
  (i < j)%nat ->
  VoiceNotify.announcements us st !! i = Some (c, t1) ->
  VoiceNotify.announcements us st !! j = Some (c, t2) ->
  600000 <= t2 - t1.
Proof.
  revert st b i j.
  induction us as [|u us' IH]; intros st b i j Hb Hst Hrun Hij Hi Hj;
    [discriminate|].
  destruct Hrun as [[Hs Hbt] Hrun].
  pose proof (recorded_times_bounded u st b ltac:(lia) Hst) as Hst'.
  cbn [VoiceNotify.announcements] in Hi, Hj.
  destruct (VoiceNotify.announced u st) as [a|] eqn:Ha.
  - destruct j as [|j']; [lia|]. destruct i as [|i'].
    + injection Hi as ->. cbn in Hj. apply list_elem_of_lookup_2 in Hj.
      assert (Hpos : 0 < VoiceNotify.broadcast_time (VoiceNotify.clock u)) by lia.
      destruct (announcement_after_recorded us' _ _ Hpos Hst' Hrun c t2 Hj)
        as [_ Hlast].
      destruct (broadcast_time_step u st c)
        as [[_ E] | [[_ (c' & Hne & E)] | (Hrec & [E | E] & _)]];
        rewrite E in Ha; try discriminate.
      * injection Ha as ? ?. congruence.
      * injection Ha as Ht1. subst t1. apply Hlast; [exact Hrec | lia].
    + cbn in Hi, Hj.
      apply (IH (snd (VoiceNotify.voiceStateUpdate u st))
               (VoiceNotify.broadcast_time (VoiceNotify.clock u)) i' j');
        try assumption; lia.
  - apply (IH (snd (VoiceNotify.voiceStateUpdate u st))
             (VoiceNotify.broadcast_time (VoiceNotify.clock u)) i j);
      try assumption; lia.
Qed.

Lemma announcements_ten_minutes_apart_witness :
  VoiceNotify.announcements
    [joins 1 1762156800000; joins 1 1762157100000; joins 1 1762157400000]
    (snd (VoiceNotify.messageCreate discord
            (says admin "<@990000000000000001> enable 1") fresh))
  = [("810000000000000001", 1762156800000); ("810000000000000001", 1762157400000)] /\
  600000 <= 1762157400000 - 1762156800000.
Proof.
  split; [vm_compute; reflexivity|].
  apply (announcements_ten_minutes_apart
           [joins 1 1762156800000; joins 1 1762157100000; joins 1 1762157400000]
           (snd (VoiceNotify.messageCreate discord
                   (says admin "<@990000000000000001> enable 1") fresh))
           1762156800000 0 1 "810000000000000001").
  - lia.
  - intros c last H. vm_compute in H. discriminate.
  - cbn. lia.
  - lia.
  - vm_compute. reflexivity.
  - vm_compute. reflexivity.
Defined.

(** A qualifying join inside the quiet period does nothing but record
    its own threshold time. *)
Lemma join_in_quiet_period u g c settings settingsMap last st :
  Manager.cache (VoiceNotify.store st) !! g = Some settingsMap ->
  settingsMap !! c = Some settings ->
  VoiceNotify.thresholdTimes st !! c = Some last -> last <> 0 ->
  VoiceNotify.qualifies u g c settings ->
  SpecFloat.SFltb (VoiceNotify.of_Z (VoiceNotify.since_threshold (VoiceNotify.clock u) - last))
    (VoiceNotify.window (VoiceNotify.min settings)) = true ->
  VoiceNotify.voiceStateUpdate u st
  = ([], {| VoiceNotify.store := VoiceNotify.store st;
            VoiceNotify.thresholdTimes :=
              <[c := VoiceNotify.threshold_time (VoiceNotify.clock u)]>
                (VoiceNotify.thresholdTimes st);
            VoiceNotify.broadcastTimes := VoiceNotify.broadcastTimes st;
            VoiceNotify.lastDonationAsked := VoiceNotify.lastDonationAsked st |}).
Proof.
  intros Hc Hs Ht Hz (Hg & (ch & He & Hid & Hsize) & (b & Hf)) Hw.
  pose proof (enters_not_same u ch He) as Hold. destruct He as [Hch _].
  unfold VoiceNotify.voiceStateUpdate. rewrite Hch, Hold, Hg.
  unfold Manager.get. rewrite Hc.
  cbn [VoiceNotify.thresholdTimes VoiceNotify.broadcastTimes VoiceNotify.store
       VoiceNotify.lastDonationAsked].
  rewrite Hid, Hs, Hf, Hsize, Ht.
  destruct last; try contradiction; cbn [VoiceNotify.truthy]; now rewrite Hw.
Qed.

(** X23. The quiet period slides.  When a voice channel has a threshold
    time recorded, a series of qualifying joins, each within the quiet
    period after the one before, produces no announcement and no other
    action, however long the series lasts and however long ago the last
    announcement was: each suppressed join starts the quiet period
    again. *)
Theorem joins_in_quick_succession_are_silent (us : list VoiceNotify.Update)
    (g c : string) (settings : VoiceNotify.Settings)
    (settingsMap : gmap string VoiceNotify.Settings) (last : Z)
    (st : VoiceNotify.State) :
  Manager.cache (VoiceNotify.store st) !! g = Some settingsMap ->
  settingsMap !! c = Some settings ->
  VoiceNotify.thresholdTimes st !! c = Some last -> last <> 0 ->
  VoiceNotify.quick_succession g c settings last us ->
  fst (VoiceNotify.updates us st) = replicate (length us) [] /\
  VoiceNotify.broadcastTimes (snd (VoiceNotify.updates us st))
  = VoiceNotify.broadcastTimes st.
Proof.
  revert last st.
  induction us as [|u us' IH]; intros last st Hc Hs Ht Hz Hq; [easy|].
  destruct Hq as (Hu & Hw & Hnz & Hq).
  cbn [VoiceNotify.updates].
  rewrite (join_in_quiet_period u g c settings settingsMap last st Hc Hs Ht Hz Hu Hw).
  match goal with
  | |- context [VoiceNotify.updates us' ?s] =>
      specialize (IH (VoiceNotify.threshold_time (VoiceNotify.clock u)) s Hc Hs
                    ltac:(apply lookup_insert_eq) Hnz Hq);
      destruct (VoiceNotify.updates us' s) as [rest st'']
  end.
  cbn [fst snd] in *. destruct IH as (-> & ->). now split.
Qed.

Lemma joins_in_quick_succession_are_silent_witness :
  let st0 :=
    snd (VoiceNotify.voiceStateUpdate (joins 1 1762156800000)
           (snd (VoiceNotify.messageCreate discord
                   (says admin "<@990000000000000001> enable 1") fresh))) in
  fst (VoiceNotify.updates
         [joins 1 1762157040000; joins 1 1762157280000; joins 1 1762157520000;
          joins 1 1762157760000] st0)
  = [[]; []; []; []].
Proof.
  intros st0.
  refine (proj1
    (joins_in_quick_succession_are_silent
       [joins 1 1762157040000; joins 1 1762157280000; joins 1 1762157520000;
        joins 1 1762157760000]
       "500000000000000001" "810000000000000001"
       {| VoiceNotify.text := "620000000000000001";
          VoiceNotify.min := VoiceNotify.of_Z 1;
          VoiceNotify.roles := [] |}
       {[ "810000000000000001" :=
            {| VoiceNotify.text := "620000000000000001";
               VoiceNotify.min := VoiceNotify.of_Z 1;
               VoiceNotify.roles := [] |} ]}
       1762156800000 st0 _ _ _ _ _)).
  - vm_compute. reflexivity.
  - vm_compute. reflexivity.
  - vm_compute. reflexivity.
  - discriminate.
  - cbn [VoiceNotify.quick_succession]. unfold VoiceNotify.qualifies, VoiceNotify.enters.
    repeat match goal with
           | |- _ /\ _ => split
           | |- True => exact I
           | |- exists _ : VoiceNotify.VoiceChannel, _ => eexists
           | |- exists _ : bool, _ => eexists
           | |- _ <> _ => vm_compute; discriminate
           | |- _ = _ => vm_compute; reflexivity
           end.
Defined.

Lemma zero_window : VoiceNotify.window (VoiceNotify.threshold (Some "0"))
                    = SpecFloat.S754_infinity false.
Proof. vm_compute. reflexivity. Qed.

Lemma finite_below_infinity x :
  VoiceNotify.finite x = true ->
  SpecFloat.SFltb x (SpecFloat.S754_infinity false) = true.
Proof. destruct x as [s|s| |s m e]; try discriminate; now destruct s. Qed.

(** X24. With the threshold 0 (as set by [enable 0]) the quiet period
    is five minutes divided by zero, that is infinite: once a threshold
    time is recorded for the channel, no later join is announced,
    whatever the number of members and the time elapsed, as long as that
    time is a finite number. *)
Theorem zero_threshold_silences_the_channel (u : VoiceNotify.Update)
    (ch : VoiceNotify.VoiceChannel) (settings : VoiceNotify.Settings)
    (last : Z) (st : VoiceNotify.State) :
  VoiceNotify.channel u = Some ch ->
  fst (Manager.get (VoiceNotify.read_ok u) (VoiceNotify.guild u)
         (VoiceNotify.store st)) !! VoiceNotify.id ch = Some settings ->
  VoiceNotify.min settings = VoiceNotify.threshold (Some "0") ->
  VoiceNotify.thresholdTimes st !! VoiceNotify.id ch = Some last -> last <> 0 ->
  VoiceNotify.finite
    (VoiceNotify.of_Z (VoiceNotify.since_threshold (VoiceNotify.clock u) - last))
  = true ->
  VoiceNotify.sends (fst (VoiceNotify.voiceStateUpdate u st)) = false /\
  VoiceNotify.broadcastTimes (snd (VoiceNotify.voiceStateUpdate u st))
  = VoiceNotify.broadcastTimes st.
Proof.
  intros Hc Hs Hmin Ht Hz Hfin. unfold VoiceNotify.voiceStateUpdate. rewrite Hc.
  destruct (match VoiceNotify.oldChannel u with Some _ => _ | None => _ end);
    [now split|].
  destruct (Manager.get _ _ _) as [settingsMap store'].
  cbn [fst] in Hs.
  cbn [VoiceNotify.thresholdTimes VoiceNotify.broadcastTimes VoiceNotify.store
       VoiceNotify.lastDonationAsked].
  rewrite Hs, Ht.
  destruct (VoiceNotify.fetched u); try now split.
  destruct (SpecFloat.SFltb _ (VoiceNotify.min settings)); [now split|].
  rewrite Hmin, zero_window.
  destruct last; try contradiction; cbn [VoiceNotify.truthy];
    rewrite (finite_below_infinity _ Hfin); now split.
Qed.

Lemma zero_threshold_silences_the_channel_witness :
  let st0 :=
    snd (VoiceNotify.voiceStateUpdate (joins 1 1762156800000)
           (snd (VoiceNotify.messageCreate discord
                   (says admin "<@990000000000000001> enable 0") fresh))) in
  VoiceNotify.sends (fst (VoiceNotify.voiceStateUpdate (joins 1 1762156800000)
           (snd (VoiceNotify.messageCreate discord
                   (says admin "<@990000000000000001> enable 0") fresh)))) = true /\
  VoiceNotify.sends (fst (VoiceNotify.voiceStateUpdate (joins 40 1793692800000) st0))
  = false.
Proof.
  intros st0. split; [vm_compute; reflexivity|].
  refine (proj1
    (zero_threshold_silences_the_channel (joins 40 1793692800000)
       {| VoiceNotify.id := "810000000000000001";
          VoiceNotify.name := "Lobby";
          VoiceNotify.size := 40 |}
       {| VoiceNotify.text := "620000000000000001";
          VoiceNotify.min := VoiceNotify.of_Z 0;
          VoiceNotify.roles := [] |}
       1762156800000 st0 _ _ _ _ _ _)); try reflexivity; try discriminate.
Defined.

Lemma more_than_24_hours d :
  (24 <? Z.quot d 3600000) = true <-> 25 * 3600000 <= d.
Proof.
  rewrite Z.ltb_lt.
  pose proof (Z.quot_rem' d 3600000) as Hq.
  destruct (Z_le_gt_dec 0 d) as [Hd | Hd].
  - pose proof (Z.rem_bound_pos d 3600000 Hd ltac:(lia)). lia.
  - pose proof (Z.rem_bound_pos_neg d 3600000 ltac:(lia) ltac:(lia)). lia.
Qed.

(** X25. The announcement carries the donation line exactly when the
    guild has not been shown it since the start, or was shown it 25
    hours ago or more ([diff] counts whole hours, and the code asks for
    more than 24); the time of the line is then recorded for the guild,
    and otherwise left as it is. *)
Theorem donation_line_every_25_hours (u : VoiceNotify.Update)
    (st : VoiceNotify.State) (textChannel voiceName : string)
    (fs : list VoiceNotify.Field) :
  fst (VoiceNotify.voiceStateUpdate u st)
  = [VoiceNotify.Send textChannel voiceName fs] ->
  (VoiceNotify.Donate ∈ fs <->
   VoiceNotify.lastDonationAsked st !! VoiceNotify.guild u = None \/
   exists asked,
     VoiceNotify.lastDonationAsked st !! VoiceNotify.guild u = Some asked /\
     25 * 3600000 <= VoiceNotify.since_donation (VoiceNotify.clock u) - asked) /\
  (VoiceNotify.Donate ∈ fs ->
   VoiceNotify.lastDonationAsked (snd (VoiceNotify.voiceStateUpdate u st))
   = <[VoiceNotify.guild u := VoiceNotify.donation_time (VoiceNotify.clock u)]>
       (VoiceNotify.lastDonationAsked st)) /\
  (VoiceNotify.Donate ∉ fs ->
   VoiceNotify.lastDonationAsked (snd (VoiceNotify.voiceStateUpdate u st))
   = VoiceNotify.lastDonationAsked st).
Proof.
  unfold VoiceNotify.voiceStateUpdate.
  destruct (VoiceNotify.channel u) as [ch|]; [|discriminate].
  destruct (match VoiceNotify.oldChannel u with Some _ => _ | None => _ end);
    [discriminate|].
  destruct (Manager.get _ _ _) as [settingsMap store'].
  destruct (settingsMap !! VoiceNotify.id ch) as [settings|]; [|discriminate].
  destruct (VoiceNotify.fetched u) as [isTextBased| |]; try discriminate.
  destruct (SpecFloat.SFltb _ (VoiceNotify.min settings)); [discriminate|].
  cbn [VoiceNotify.thresholdTimes VoiceNotify.broadcastTimes VoiceNotify.store
       VoiceNotify.lastDonationAsked].
  destruct (match VoiceNotify.truthy (VoiceNotify.thresholdTimes st !! _) with
            | Some _ => _ | None => _ end); [discriminate|].
  destruct (match VoiceNotify.truthy (VoiceNotify.broadcastTimes st !! _) with
            | Some _ => _ | None => _ end); [discriminate|].
  destruct isTextBased; [|discriminate].
  cbn [fst snd VoiceNotify.lastDonationAsked]. intros [= _ _ <-].
  unfold VoiceNotify.fields. cbn [VoiceNotify.lastDonationAsked].
  set (cc := match VoiceNotify.roles settings with [] => _ | _ :: _ => _ end).
  assert (Hno : VoiceNotify.Donate ∉ cc).
  { subst cc. destruct (VoiceNotify.roles settings);
      [apply not_elem_of_nil|].
    intros H. apply list_elem_of_singleton in H. discriminate. }
  assert (Hasks : forall l, VoiceNotify.asks_donation (cc ++ l)
                            = VoiceNotify.asks_donation l).
  { intros l. subst cc. now destruct (VoiceNotify.roles settings). }
  rewrite Hasks. clearbody cc.
  assert (Hyes : VoiceNotify.Donate ∈ cc ++ [VoiceNotify.Donate])
    by (apply elem_of_app; right; constructor).
  destruct (VoiceNotify.lastDonationAsked st !! VoiceNotify.guild u) as [asked|].
  - destruct (24 <? _) eqn:E.
    + apply more_than_24_hours in E. cbn [VoiceNotify.asks_donation existsb orb].
      repeat split.
      * intros _. right. now exists asked.
      * intros _. exact Hyes.
      * intros H. now contradiction H.
    + assert (~ 25 * 3600000 <= VoiceNotify.since_donation (VoiceNotify.clock u) - asked)
        as Hlt by (rewrite <- more_than_24_hours; congruence).
      rewrite app_nil_r. cbn [VoiceNotify.asks_donation existsb]. repeat split.
      * intros H. contradiction.
      * intros [H | (a & [= <-] & H)]; [discriminate | contradiction].
      * intros H. contradiction.
  - cbn [VoiceNotify.asks_donation existsb orb]. repeat split.
    + intros _. now left.
    + intros _. exact Hyes.
    + intros H. now contradiction H.
Qed.

Lemma donation_line_every_25_hours_witness :
  let st0 :=
    snd (VoiceNotify.voiceStateUpdate (joins 1 1762156800000)
           (snd (VoiceNotify.messageCreate discord
                   (says admin "<@990000000000000001> enable 1") fresh))) in
  fst (VoiceNotify.voiceStateUpdate (joins 1 1762246799999) st0)
  = [VoiceNotify.Send "620000000000000001" "Lobby" []] /\
  VoiceNotify.lastDonationAsked
    (snd (VoiceNotify.voiceStateUpdate (joins 1 1762246799999) st0))
  = VoiceNotify.lastDonationAsked st0.
Proof.
  intros st0.
  assert (H : fst (VoiceNotify.voiceStateUpdate (joins 1 1762246799999) st0)
              = [VoiceNotify.Send "620000000000000001" "Lobby" []])
    by (vm_compute; reflexivity).
  split; [exact H|].
  apply (proj2 (proj2
    (donation_line_every_25_hours (joins 1 1762246799999) st0
       "620000000000000001" "Lobby" [] H))).
  apply not_elem_of_nil.
Defined.

Lemma manager_set_then_get_witness :
  fst (Manager.get true "500000000000000001"
         (default restarted
            (Manager.set true "500000000000000001" "810000000000000001"
               (alert_from 2) restarted)))
  = {[ "810000000000000001" := alert_from 2 ]}.
Proof.
  apply (manager_set_then_get true "500000000000000001" "810000000000000001"
           (alert_from 2) restarted
           (default restarted
              (Manager.set true "500000000000000001" "810000000000000001"
                 (alert_from 2) restarted))); reflexivity.
Defined.

Lemma manager_keeps_cache_coherent_witness :
  Manager.coherent (snd (Manager.get true "500000000000000001" restarted)) /\
  fst (Manager.get true "500000000000000001" restarted)
  = Manager.stored "500000000000000001" restarted.
Proof.
  destruct (manager_keeps_cache_coherent "500000000000000001" "810000000000000001"
              (alert_from 2) restarted) as (H1 & H2 & _).
  - intros g m H. vm_compute in H. discriminate.
  - split; [exact H1 | exact H2].
Defined.

Lemma manager_guilds_are_independent_witness :
  Manager.db
    (default restarted
       (Manager.deleteGuild true "500000000000000002" restarted))
    !! "500000000000000001"
  = Manager.db restarted !! "500000000000000001".
Proof.
  refine (proj2 (proj1
    (manager_guilds_are_independent true "500000000000000002" "500000000000000001"
       "810000000000000001" (alert_from 2) restarted _) _ _)).
  - discriminate.
  - right. right. left. reflexivity.
Defined.

(** X26. A voice state update never writes settings: the database is
    as before, the cached settings of the other guilds are as before,
    and a guild that is cached keeps its cached settings. *)
Theorem updates_leave_the_settings (u : VoiceNotify.Update) (st : VoiceNotify.State) :
  Manager.db (VoiceNotify.store (snd (VoiceNotify.voiceStateUpdate u st)))
  = Manager.db (VoiceNotify.store st) /\
  (forall g, g <> VoiceNotify.guild u \/ is_Some (Manager.cache (VoiceNotify.store st) !! g) ->
     Manager.cache (VoiceNotify.store (snd (VoiceNotify.voiceStateUpdate u st))) !! g
     = Manager.cache (VoiceNotify.store st) !! g).
Proof.
  assert (Hget : Manager.db (snd (Manager.get (VoiceNotify.read_ok u)
                                    (VoiceNotify.guild u) (VoiceNotify.store st)))
                 = Manager.db (VoiceNotify.store st) /\
                 forall g, g <> VoiceNotify.guild u \/
                           is_Some (Manager.cache (VoiceNotify.store st) !! g) ->
                   Manager.cache (snd (Manager.get (VoiceNotify.read_ok u)
                                         (VoiceNotify.guild u) (VoiceNotify.store st))) !! g
                   = Manager.cache (VoiceNotify.store st) !! g).
  { unfold Manager.get.
    destruct (Manager.cache (VoiceNotify.store st) !! VoiceNotify.guild u) eqn:E;
      [now split|].
    split; [reflexivity|]. intros g [Hne | [m Hm]]; cbn [snd Manager.cache].
    - now apply lookup_insert_ne.
    - apply lookup_insert_ne. intros <-. congruence. }
  unfold VoiceNotify.voiceStateUpdate.
  destruct (VoiceNotify.channel u) as [ch|]; [|now split].
  destruct (match VoiceNotify.oldChannel u with Some _ => _ | None => _ end);
    [now split|].
  destruct (Manager.get _ _ _) as [settingsMap store']. cbn [snd] in Hget.
  destruct (settingsMap !! VoiceNotify.id ch) as [settings|]; [|exact Hget].
  destruct (VoiceNotify.fetched u) as [isTextBased| |]; try exact Hget.
  destruct (SpecFloat.SFltb _ (VoiceNotify.min settings)); [exact Hget|].
  cbn [VoiceNotify.thresholdTimes VoiceNotify.broadcastTimes VoiceNotify.store
       VoiceNotify.lastDonationAsked].
  destruct (match VoiceNotify.truthy (VoiceNotify.thresholdTimes st !! _) with
            | Some _ => _ | None => _ end); [exact Hget|].
  destruct (match VoiceNotify.truthy (VoiceNotify.broadcastTimes st !! _) with
            | Some _ => _ | None => _ end); [exact Hget|].
  destruct isTextBased; exact Hget.
Qed.
